(** * python-remind: a shallow embedding of [remind.py]

    The development follows the source file top to bottom.  Python values
    are modelled as the interpreter has them: a [str] is a sequence of
    Unicode code points, a [date] is a proleptic Gregorian ordinal, a
    [dict] with optional keys is a record of options, and a method that
    can raise returns an [outcome].  The stateful part of the class (the
    lock, the cache of known files and the files on disk) is threaded
    through a small state-and-exception monad. *)

From Stdlib Require Import ZArith NArith List String Ascii Lia Bool Sorted.
From stdpp Require Import base option list gmap.
Import ListNotations.

Local Open Scope Z_scope.

(** ** Outcomes of a Python call *)

Inductive exn : Type :=
  | ValueError
  | IndexError
  | TypeError
  | OverflowError
  | AttributeError
  | KeyError
  | IOError
  | ParseError.

(** A call returns a value, raises, or never returns ([Hang]: a blocked
    [Lock.acquire] or the iteration of an unbounded rule). *)
Inductive outcome (A : Type) : Type :=
  | Val (a : A)
  | Exn (e : exn)
  | Hang.

Arguments Val {A} a.
Arguments Exn {A} e.
Arguments Hang {A}.

#[global] Instance outcome_ret : MRet outcome := fun A a => Val a.

#[global] Instance outcome_bind : MBind outcome := fun A B f m =>
  match m with
  | Val a => f a
  | Exn e => Exn e
  | Hang => Hang
  end.

#[global] Instance outcome_fmap : FMap outcome := fun A B f m =>
  match m with
  | Val a => Val (f a)
  | Exn e => Exn e
  | Hang => Hang
  end.

Definition of_option {A} (e : exn) (o : option A) : outcome A :=
  match o with
  | Some a => Val a
  | None => Exn e
  end.

Fixpoint omap {A B} (f : A -> outcome B) (l : list A) : outcome (list B) :=
  match l with
  | [] => Val []
  | a :: l' =>
      b ← f a; bs ← omap f l'; Val (b :: bs)
  end.

(** ** Python sequences: indexing with negative indices *)

Module PySeq.

(** [l[i]]: a negative index counts from the end, anything outside
    [-len, len) raises [IndexError]. *)
Definition norm_index {A} (l : list A) (i : Z) : option nat :=
  let n := Z.of_nat (length l) in
  if (0 <=? i) && (i <? n) then Some (Z.to_nat i)
  else if (i <? 0) && (- n <=? i) then Some (Z.to_nat (n + i))
  else None.

Definition getitem {A} (l : list A) (i : Z) : outcome A :=
  match norm_index l i with
  | Some k => of_option IndexError (l !! k)
  | None => Exn IndexError
  end.

(** [del l[i]] *)
Definition delitem {A} (l : list A) (i : Z) : outcome (list A) :=
  match norm_index l i with
  | Some k => Val (delete k l)
  | None => Exn IndexError
  end.

(** [l[i] = x] *)
Definition setitem {A} (l : list A) (i : Z) (x : A) : outcome (list A) :=
  match norm_index l i with
  | Some k => Val (<[k:=x]> l)
  | None => Exn IndexError
  end.

(** [l[i:]] for an index [i >= 0] *)
Definition slice_from {A} (l : list A) (i : Z) : list A :=
  drop (Z.to_nat i) l.

End PySeq.

(** ** Python text *)

(** A [str] is a sequence of code points. *)
Definition char := N.
Definition str := list char.

(** An ASCII literal of the source as a [str]. *)
Definition py (s : string) : str :=
  map N_of_ascii (list_ascii_of_string s).

Module PyStr.

(** [a == b] *)
Fixpoint eqb (a b : str) : bool :=
  match a, b with
  | [], [] => true
  | x :: a', y :: b' => N.eqb x y && eqb a' b'
  | _, _ => false
  end.

Fixpoint startswith (p s : str) : bool :=
  match p, s with
  | [], _ => true
  | _ :: _, [] => false
  | a :: p', b :: s' => N.eqb a b && startswith p' s'
  end.

(** [sub in s] *)
Fixpoint contains (sub s : str) : bool :=
  startswith sub s ||
  match s with
  | [] => false
  | _ :: s' => contains sub s'
  end.

(** [s.rfind(sub)]: the highest index where [sub] starts, or [-1]. *)
Fixpoint rfind_from (sub : str) (i best : Z) (s : str) : Z :=
  let best' := if startswith sub s then i else best in
  match s with
  | [] => best'
  | _ :: s' => rfind_from sub (i + 1) best' s'
  end.

Definition rfind (sub s : str) : Z := rfind_from sub 0 (-1) s.

(** [s.split(sep)] for a non-empty [sep]: the pieces between the
    non-overlapping occurrences of [sep], found from the left.  [skip]
    counts the characters of a matched separator still to be passed,
    [cur] is the piece being read, reversed. *)
Fixpoint split_go (sep : str) (skip : nat) (cur : str) (s : str) : list str :=
  match s with
  | [] => [rev cur]
  | c :: s' =>
      match skip with
      | S k => split_go sep k cur s'
      | O =>
          if startswith sep s
          then rev cur :: split_go sep (length sep - 1) [] s'
          else split_go sep 0 (c :: cur) s'
      end
  end.

Definition split (sep s : str) : list str := split_go sep 0 [] s.

(** [s.replace(old, new)] for a non-empty [old]. *)
Fixpoint replace_go (old new : str) (skip : nat) (s : str) : str :=
  match s with
  | [] => []
  | c :: s' =>
      match skip with
      | S k => replace_go old new k s'
      | O =>
          if startswith old s
          then new ++ replace_go old new (length old - 1) s'
          else c :: replace_go old new 0 s'
      end
  end.

Definition replace (old new s : str) : str := replace_go old new 0 s.

(** [sep.join(l)] *)
Fixpoint join (sep : str) (l : list str) : str :=
  match l with
  | [] => []
  | [x] => x
  | x :: l' => x ++ sep ++ join sep l'
  end.

(** [s.rsplit(sep, 1)]: one split at the last occurrence of [sep]. *)
Definition rsplit1 (sep s : str) : list str :=
  let i := rfind sep s in
  if i <? 0 then [s]
  else [take (Z.to_nat i) s; drop (Z.to_nat i + length sep) s].

(** The characters [str.strip] removes and [int] skips. *)
Definition isspace (c : char) : bool :=
  ((9 <=? c) && (c <=? 13) || (28 <=? c) && (c <=? 32)
   || (c =? 133) || (c =? 160) || (c =? 5760)
   || (8192 <=? c) && (c <=? 8202)
   || (c =? 8232) || (c =? 8233) || (c =? 8239) || (c =? 8287)
   || (c =? 12288))%N.

Fixpoint lstrip (s : str) : str :=
  match s with
  | [] => []
  | c :: s' => if isspace c then lstrip s' else s
  end.

Definition rstrip (s : str) : str := rev (lstrip (rev s)).

Definition strip (s : str) : str := rstrip (lstrip s).

(** [s.splitlines(True)]: the lines of [s], each with its line end.  A
    line ends at LF, CR, CR LF, VT, FF, FS, GS, RS, NEL, LS or PS. *)
Definition islinebreak (c : char) : bool :=
  ((10 <=? c) && (c <=? 13) || (28 <=? c) && (c <=? 30)
   || (c =? 133) || (c =? 8232) || (c =? 8233))%N.

Fixpoint splitlines_go (cur : str) (s : str) : list str :=
  match s with
  | [] => match cur with [] => [] | _ => [rev cur] end
  | c :: s' =>
      if islinebreak c then
        match s' with
        | c' :: s'' =>
            if (c =? 13)%N && (c' =? 10)%N
            then splitlines_go (c :: cur) s'
            else rev (c :: cur) :: splitlines_go [] s'
        | [] => [rev (c :: cur)]
        end
      else splitlines_go (c :: cur) s'
  end.

Definition splitlines_keepends (s : str) : list str := splitlines_go [] s.

(** *** Decimal numerals: [str(n)] and [int(s)] *)

Definition isdigit (c : char) : bool := ((48 <=? c) && (c <=? 57))%N.

Fixpoint digits_go (fuel : nat) (n : N) (acc : str) : str :=
  match fuel with
  | O => acc
  | S fuel' =>
      let acc' := (48 + n mod 10)%N :: acc in
      if (n / 10 =? 0)%N then acc' else digits_go fuel' (n / 10)%N acc'
  end.

Definition str_of_N (n : N) : str :=
  digits_go (S (N.to_nat (N.log2 n))) n [].

(** [str(z)], also what [%s] and [%d] print for an integer. *)
Definition str_of_Z (z : Z) : str :=
  if z <? 0 then py "-" ++ str_of_N (Z.to_N (- z)) else str_of_N (Z.to_N z).

(** [%02d] for a non-negative integer. *)
Definition str_of_Z_02 (z : Z) : str :=
  if (0 <=? z) && (z <? 10) then py "0" ++ str_of_Z z else str_of_Z z.

(** Horner's rule on one decimal digit. *)
Definition digit_step (a : N) (ch : char) : N := (10 * a + (ch - 48))%N.

(** The digits of an integer literal: digits, with single underscores
    allowed between two digits.  [prev] tells whether the previous
    character was a digit. *)
Fixpoint parse_digits (prev : bool) (acc : N) (s : str) : option N :=
  match s with
  | [] => if prev then Some acc else None
  | c :: s' =>
      if isdigit c then parse_digits true (10 * acc + (c - 48))%N s'
      else if (c =? 95)%N && prev then parse_digits false acc s'
      else None
  end.

(** The digit zero of each run of ten decimal digits (the characters
    of category Nd, Unicode 14.0): the ASCII digits, the Arabic-Indic
    ones, and so on. *)
Definition decimal_zeros : list N :=
  [48; 1632; 1776; 1984; 2406; 2534; 2662; 2790; 2918; 3046; 3174; 3302;
   3430; 3558; 3664; 3792; 3872; 4160; 4240; 6112; 6160; 6470; 6608; 6784;
   6800; 6992; 7088; 7232; 7248; 42528; 43216; 43264; 43472; 43504; 43600;
   44016; 65296; 66720; 68912; 69734; 69872; 69942; 70096; 70384; 70736;
   70864; 71248; 71360; 71472; 71904; 72016; 72784; 73040; 73120; 92768;
   92864; 93008; 120782; 120792; 120802; 120812; 120822; 123200; 123632;
   125264; 130032]%N.

(** The value of a decimal digit of any script. *)
Definition todecimal (c : char) : option N :=
  (fun z => c - z)%N
    <$> List.find (fun z => (z <=? c) && (c <? z + 10))%N decimal_zeros.

(** The white space of the C locale, which the parser of integers
    skips: tab to carriage return, and the space. *)
Definition isspace_c (c : char) : bool :=
  ((9 <=? c) && (c <=? 13) || (c =? 32))%N.

(** What [int] makes of a character before it parses: an ASCII
    character stays, other white space becomes a space, another decimal
    digit becomes its ASCII digit, and anything else a question mark. *)
Definition to_ascii (c : char) : char :=
  if (c <? 127)%N then c
  else if isspace c then 32%N
  else match todecimal c with
       | Some d => (48 + d)%N
       | None => 63%N
       end.

Fixpoint lstrip_c (s : str) : str :=
  match s with
  | [] => []
  | c :: s' => if isspace_c c then lstrip_c s' else s
  end.

Definition rstrip_c (s : str) : str := rev (lstrip_c (rev s)).

(** [int(s)] in base ten: the white space around the numeral is
    dropped, but not the separators U+001C to U+001F, which [str.strip]
    drops and [int] refuses; one sign is accepted; the decimal digits
    of any script are read; anything else raises [ValueError]. The
    number of digits is not limited: the bound of the interpreter
    setting [int_max_str_digits], which Python 3.11 brought, is left
    out. *)
Definition int (s : str) : outcome Z :=
  match rstrip_c (lstrip_c (map to_ascii s)) with
  | [] => Exn ValueError
  | c :: ds =>
      if (c =? 43)%N then
        of_option ValueError (Z.of_N <$> parse_digits false 0 ds)
      else if (c =? 45)%N then
        of_option ValueError ((fun n => - Z.of_N n) <$> parse_digits false 0 ds)
      else of_option ValueError (Z.of_N <$> parse_digits false 0 (c :: ds))
  end.

(** A run of white space. *)
Definition spaces (w : str) : Prop := Forall (fun c => isspace c = true) w.

(** A text that is not empty and neither starts nor ends with white
    space: [strip] leaves it alone. *)
Definition trimmed (s : str) : Prop :=
  match s with
  | a :: _ => isspace a = false
  | [] => False
  end
  /\ match last s with
     | Some b => isspace b = false
     | None => False
     end.

(** A line as an editor writes it: it ends in a line feed and holds no
    other line break. *)
Definition lf_line (l : str) : Prop :=
  exists body : str,
    l = body ++ [10%N] /\ Forall (fun c => islinebreak c = false) body.

End PyStr.

Example split_ex :
  PyStr.split (py "-") (py "12-ab-") = [py "12"; py "ab"; []]
  /\ PyStr.split (py "
#") (py "# a
# b") = [py "# a"; py " b"]
  /\ PyStr.replace (py "[") (py "[x[y]") (py "a[b[") = py "a[x[y]b[x[y]"
  /\ PyStr.rsplit1 (py " at ") (py "a at b at c") = [py "a at b"; py "c"]
  /\ PyStr.rfind (py "ab") (py "abcab") = 3
  /\ PyStr.strip (py "  a b
") = py "a b"
  /\ PyStr.splitlines_keepends (py "a
b
c") = [py "a
"; py "b
"; py "c"]
  /\ PyStr.str_of_Z 2024 = py "2024" /\ PyStr.str_of_Z 0 = py "0"
  /\ PyStr.int (py " 600 ") = Val 600 /\ PyStr.int (py "1_0") = Val 10
  /\ PyStr.int [] = Exn ValueError /\ PyStr.int (py "x1") = Exn ValueError
  /\ PyStr.int [1634; 1632; 1634; 1636]%N = Val 2024
  /\ PyStr.int [160; 55; 12288]%N = Val 7
  /\ PyStr.int [31; 50]%N = Exn ValueError
  /\ PyStr.int (py "- 1") = Exn ValueError
  /\ PyStr.int (py "1__0") = Exn ValueError.
Proof. vm_compute. repeat split. Qed.

(** ** [hashlib.sha1] and [str.encode('utf-8')] *)

Module Sha1.

Local Open Scope N_scope.

(** The UTF-8 bytes of a code point. Text decoded from a file holds no
    lone surrogate, the one code point Python refuses to encode. *)
Definition utf8_char (c : char) : list N :=
  if c <? 128 then [c]
  else if c <? 2048 then [192 + c / 64; 128 + c mod 64]
  else if c <? 65536 then
    [224 + c / 4096; 128 + (c / 64) mod 64; 128 + c mod 64]
  else
    [240 + c / 262144; 128 + (c / 4096) mod 64;
     128 + (c / 64) mod 64; 128 + c mod 64].

Definition encode_utf8 (s : str) : list N := concat (map utf8_char s).

Definition w32 (x : N) : N := x mod 4294967296.
Definition add32 (a b : N) : N := w32 (a + b).
Definition rotl (k x : N) : N :=
  w32 (N.lor (N.shiftl x k) (N.shiftr x (32 - k))).
Definition not32 (x : N) : N := N.lxor x 4294967295.

(** Big-endian bytes of the low [8 * n] bits of [x]. *)
Fixpoint be_bytes (n : nat) (x : N) : list N :=
  match n with
  | O => []
  | S n' => be_bytes n' (x / 256) ++ [x mod 256]
  end.

Definition pad (msg : list N) : list N :=
  let len := N.of_nat (length msg) in
  let k := (64 - (len + 9) mod 64) mod 64 in
  msg ++ [128] ++ repeat 0 (N.to_nat k) ++ be_bytes 8 (8 * len).

Fixpoint be_word (bs : list N) (acc : N) : N :=
  match bs with
  | [] => acc
  | b :: bs' => be_word bs' (256 * acc + b)
  end.

Fixpoint chunks {A} (fuel : nat) (k : nat) (l : list A) : list (list A) :=
  match fuel, l with
  | O, _ | _, [] => []
  | S fuel', _ => take k l :: chunks fuel' k (drop k l)
  end.

Definition words_of_block (block : list N) : list N :=
  map (fun bs => be_word bs 0) (chunks 16 4 block).

(** The message schedule, newest word first. *)
Definition next_word (ws : list N) : N :=
  rotl 1 (N.lxor (N.lxor (nth 2 ws 0) (nth 7 ws 0))
                 (N.lxor (nth 13 ws 0) (nth 15 ws 0))).

Fixpoint extend (n : nat) (ws : list N) : list N :=
  match n with
  | O => ws
  | S n' => extend n' (next_word ws :: ws)
  end.

Definition schedule (block : list N) : list N :=
  rev (extend 64 (rev (words_of_block block))).

Record state := State { ha : N; hb : N; hc : N; hd : N; he : N }.

Definition round (t : nat) (s : state) (w : N) : state :=
  let '(State a b c d e) := s in
  let '(f, k) :=
    if (t <? 20)%nat then
      (N.lor (N.land b c) (N.land (not32 b) d), 1518500249)
    else if (t <? 40)%nat then
      (N.lxor (N.lxor b c) d, 1859775393)
    else if (t <? 60)%nat then
      (N.lor (N.lor (N.land b c) (N.land b d)) (N.land c d), 2400959708)
    else (N.lxor (N.lxor b c) d, 3395469782) in
  State (add32 (add32 (add32 (add32 (rotl 5 a) f) e) k) w) a (rotl 30 b) c d.

Fixpoint rounds (t : nat) (s : state) (ws : list N) : state :=
  match ws with
  | [] => s
  | w :: ws' => rounds (S t) (round t s w) ws'
  end.

Definition compress (h : state) (block : list N) : state :=
  let s := rounds 0 h (schedule block) in
  State (add32 (ha h) (ha s)) (add32 (hb h) (hb s)) (add32 (hc h) (hc s))
        (add32 (hd h) (hd s)) (add32 (he h) (he s)).

Definition init : state :=
  State 1732584193 4023233417 2562383102 271733878 3285377520.

Definition digest_state (msg : list N) : state :=
  let p := pad msg in
  fold_left compress (chunks (length p) 64 p) init.

Definition hexchar (d : N) : char := if d <? 10 then 48 + d else 87 + d.

(** The eight lower-case hexadecimal digits of a 32-bit word. *)
Definition hex32 (w : N) : str :=
  map (fun k => hexchar ((w / 16 ^ k) mod 16)) [7; 6; 5; 4; 3; 2; 1; 0].

(** [sha1(bytes).hexdigest()] *)
Definition hexdigest (msg : list N) : str :=
  let s := digest_state msg in
  hex32 (ha s) ++ hex32 (hb s) ++ hex32 (hc s) ++ hex32 (hd s) ++ hex32 (he s).

End Sha1.

(** [sha1(text.encode('utf-8')).hexdigest()] *)
Definition sha1_hex (text : str) : str :=
  Sha1.hexdigest (Sha1.encode_utf8 text).

(** A character that is neither a hyphen nor an at sign. *)
Definition plain (ch : char) : Prop := ch <> 45%N /\ ch <> 64%N.

Example sha1_vectors :
  sha1_hex [] = py "da39a3ee5e6b4b0d3255bfef95601890afd80709"
  /\ sha1_hex (py "abc") = py "a9993e364706816aba3e25717850c26c9cd0d89d"
  /\ sha1_hex (py "abcdbcdecdefdefgefghfghighijhijkijkljklmklmnlmnomnopnopq")
     = py "84983e441c3bd26ebaae4aa1f95129e5e54670f1".
Proof. vm_compute. repeat split. Qed.

(** ** [datetime]: dates, times of day, durations, time zones *)

Module DateTime.

Definition MINYEAR : Z := 1.
Definition MAXYEAR : Z := 9999.

Definition is_leap (y : Z) : bool :=
  (y mod 4 =? 0) && (negb (y mod 100 =? 0) || (y mod 400 =? 0)).

Definition days_before_year (y : Z) : Z :=
  let y := y - 1 in y * 365 + y / 4 - y / 100 + y / 400.

Definition days_in_month (y m : Z) : Z :=
  if m =? 2 then (if is_leap y then 29 else 28)
  else if (m =? 4) || (m =? 6) || (m =? 9) || (m =? 11) then 30
  else 31.

Definition DAYS_BEFORE_MONTH : list Z :=
  [0; 0; 31; 59; 90; 120; 151; 181; 212; 243; 273; 304; 334].

Definition days_before_month (y m : Z) : Z :=
  nth (Z.to_nat m) DAYS_BEFORE_MONTH 0
  + (if (2 <? m) && is_leap y then 1 else 0).

Definition ymd2ord (y m d : Z) : Z :=
  days_before_year y + days_before_month y m + d.

(** The ordinal of 9999-12-31. *)
Definition max_ordinal : Z := 3652059.

(** Ordinal to (year, month, day), as [datetime._ord2ymd] computes it. *)
Definition ord2ymd (n : Z) : Z * Z * Z :=
  let n := n - 1 in
  let n400 := n / 146097 in
  let n := n mod 146097 in
  let year := n400 * 400 + 1 in
  let n100 := n / 36524 in
  let n := n mod 36524 in
  let n4 := n / 1461 in
  let n := n mod 1461 in
  let n1 := n / 365 in
  let n := n mod 365 in
  let year := year + n100 * 100 + n4 * 4 + n1 in
  if (n1 =? 4) || (n100 =? 4) then (year - 1, 12, 31)
  else
    let leapyear := (n1 =? 3) && (negb (n4 =? 24) || (n100 =? 3)) in
    let month := Z.shiftr (n + 50) 5 in
    let preceding :=
      nth (Z.to_nat month) DAYS_BEFORE_MONTH 0
      + (if (2 <? month) && leapyear then 1 else 0) in
    if n <? preceding then
      let month := month - 1 in
      let preceding :=
        preceding
        - (nth (Z.to_nat month) [0; 31; 28; 31; 30; 31; 30; 31; 31; 30; 31; 30; 31] 0
           + (if (month =? 2) && leapyear then 1 else 0)) in
      (year, month, n - preceding + 1)
    else (year, month, n - preceding + 1).

(** A [date] is kept as its proleptic Gregorian ordinal
    ([date.toordinal()]); 0001-01-01 is day 1. *)
Record date := Date { toordinal : Z }.

(** The dates Python has: 0001-01-01 to 9999-12-31. *)
Definition valid_date (d : date) : Prop := 1 <= toordinal d <= max_ordinal.

(** An argument of a constructor must fit a C [int], or the
    constructor raises [OverflowError] before it looks at the ranges. *)
Definition fits_int (z : Z) : bool :=
  (-2147483648 <=? z) && (z <=? 2147483647).

(** [date(y, m, d)] *)
Definition date_new (y m d : Z) : outcome date :=
  if fits_int y && fits_int m && fits_int d then
    if (MINYEAR <=? y) && (y <=? MAXYEAR) && (1 <=? m) && (m <=? 12)
       && (1 <=? d) && (d <=? days_in_month y m)
    then Val (Date (ymd2ord y m d))
    else Exn ValueError
  else Exn OverflowError.

(** A [timedelta], as its number of seconds (no microseconds arise). *)
Record timedelta := Timedelta { total_seconds : Z }.

Definition timedelta_days (d : Z) : timedelta := Timedelta (d * 86400).
Definition timedelta_minutes (m : Z) : timedelta := Timedelta (m * 60).

(** [timedelta(minutes=m)] for an integer read from a text: a span of
    more than 999999999 days either way raises [OverflowError]. *)
Definition timedelta_of_minutes (m : Z) : outcome timedelta :=
  if (-999999999 <=? m / 1440) && (m / 1440 <=? 999999999)
  then Val (timedelta_minutes m)
  else Exn OverflowError.

(** [td.days] *)
Definition days (td : timedelta) : Z := total_seconds td / 86400.

(** A time zone: its key stands for the identity of the [tzinfo]
    object; the offsets are in seconds east of UTC, one at a local wall
    clock reading and one at a UTC instant, both counted in seconds
    from the midnight that starts ordinal 0. *)
Record tzinfo := TzInfo {
  tz_key : str;
  utcoffset : Z -> Z;
  offset_at_utc : Z -> Z
}.

Definition UTC : tzinfo := TzInfo (py "UTC") (fun _ => 0) (fun _ => 0).

Record datetime := DateTime {
  dt_date : date;
  dt_second : Z;
  dt_tzinfo : option tzinfo
}.

(** The wall clock reading in seconds. *)
Definition naive_seconds (t : datetime) : Z :=
  toordinal (dt_date t) * 86400 + dt_second t.

Definition of_naive_seconds (s : Z) (tz : option tzinfo) : outcome datetime :=
  let o := s / 86400 in
  if (1 <=? o) && (o <=? max_ordinal)
  then Val (DateTime (Date o) (s mod 86400) tz)
  else Exn OverflowError.

(** [datetime(y, m, d, hour, minute, tzinfo=tz)] *)
Definition datetime_new (y m d hour minute : Z) (tz : option tzinfo)
  : outcome datetime :=
  if fits_int y && fits_int m && fits_int d && fits_int hour
     && fits_int minute then
    dat ← date_new y m d;
    if (0 <=? hour) && (hour <? 24) && (0 <=? minute) && (minute <? 60)
    then Val (DateTime dat (hour * 3600 + minute * 60) tz)
    else Exn ValueError
  else Exn OverflowError.

(** [datetime(d.year, d.month, d.day)] *)
Definition datetime_of_date (d : date) : datetime := DateTime d 0 None.

(** The value of a date-valued property: a [date] or a [datetime]. *)
Inductive dtvalue :=
  | D (d : date)
  | DT (t : datetime).

(** [isinstance(v, datetime)] *)
Definition is_datetime (v : dtvalue) : bool :=
  match v with D _ => false | DT _ => true end.

Definition same_tz (a b : tzinfo) : bool := PyStr.eqb (tz_key a) (tz_key b).

Definition utc_seconds (t : datetime) (tz : tzinfo) : Z :=
  naive_seconds t - utcoffset tz (naive_seconds t).

(** The two readings [a] and [b] are compared or subtracted on:
    wall clocks when both are naive or share the zone, UTC instants
    when the zones differ; [TypeError] for a naive and an aware one. *)
Definition readings (a b : datetime) : outcome (Z * Z) :=
  match dt_tzinfo a, dt_tzinfo b with
  | None, None => Val (naive_seconds a, naive_seconds b)
  | Some za, Some zb =>
      if same_tz za zb then Val (naive_seconds a, naive_seconds b)
      else Val (utc_seconds a za, utc_seconds b zb)
  | _, _ => Exn TypeError
  end.

(** [a - b] *)
Definition sub (a b : dtvalue) : outcome timedelta :=
  match a, b with
  | D x, D y => Val (timedelta_days (toordinal x - toordinal y))
  | DT x, DT y => '(p, q) ← readings x y; Val (Timedelta (p - q))
  | _, _ => Exn TypeError
  end.

(** [a < b] *)
Definition lt (a b : dtvalue) : outcome bool :=
  match a, b with
  | D x, D y => Val (toordinal x <? toordinal y)
  | DT x, DT y => '(p, q) ← readings x y; Val (p <? q)
  | _, _ => Exn TypeError
  end.

(** [a == b]: never raises. *)
Definition eq (a b : dtvalue) : bool :=
  match a, b with
  | D x, D y => toordinal x =? toordinal y
  | DT x, DT y =>
      match readings x y with Val (p, q) => p =? q | _ => false end
  | _, _ => false
  end.

(** [v + td]; a date only moves by whole days. *)
Definition add (v : dtvalue) (td : timedelta) : outcome dtvalue :=
  match v with
  | D x =>
      let o := toordinal x + days td in
      if (1 <=? o) && (o <=? max_ordinal) then Val (D (Date o))
      else Exn OverflowError
  | DT x =>
      DT <$> of_naive_seconds (naive_seconds x + total_seconds td) (dt_tzinfo x)
  end.

(** [v - td] *)
Definition sub_td (v : dtvalue) (td : timedelta) : outcome dtvalue :=
  add v (Timedelta (- total_seconds td)).

(** [t.astimezone(tz)]; a naive [t] is refused. *)
Definition astimezone (t : datetime) (tz : tzinfo) : outcome datetime :=
  match dt_tzinfo t with
  | None => Exn ValueError
  | Some z =>
      if same_tz z tz then Val t
      else
        let u := utc_seconds t z in
        of_naive_seconds (u + offset_at_utc tz u) (Some tz)
  end.

(** [max(l)] and [min(l)]: the first of the greatest (least) items. *)
Fixpoint max_go (best : dtvalue) (l : list dtvalue) : outcome dtvalue :=
  match l with
  | [] => Val best
  | x :: l' => b ← lt best x; max_go (if b : bool then x else best) l'
  end.

Definition max (l : list dtvalue) : outcome dtvalue :=
  match l with
  | [] => Exn ValueError
  | x :: l' => max_go x l'
  end.

Fixpoint min_go (best : dtvalue) (l : list dtvalue) : outcome dtvalue :=
  match l with
  | [] => Val best
  | x :: l' => b ← lt x best; min_go (if b : bool then x else best) l'
  end.

Definition min (l : list dtvalue) : outcome dtvalue :=
  match l with
  | [] => Exn ValueError
  | x :: l' => min_go x l'
  end.

(** *** [strftime] *)

Definition date_of (v : dtvalue) : date :=
  match v with D d => d | DT t => dt_date t end.

Definition second_of (v : dtvalue) : Z :=
  match v with D _ => 0 | DT t => dt_second t end.

Definition month_abbr (m : Z) : str :=
  nth (Z.to_nat m)
    (map py ["???"; "Jan"; "Feb"; "Mar"; "Apr"; "May"; "Jun";
             "Jul"; "Aug"; "Sep"; "Oct"; "Nov"; "Dec"]%string) (py "???").

(** One directive of a format: [%b %d %m %Y %H %M %S %%]; an unknown
    one is copied. [%Y] is the plain decimal year. *)
Definition directive (c : char) (v : dtvalue) : str :=
  let '(y, m, d) := ord2ymd (toordinal (date_of v)) in
  let s := second_of v in
  if (c =? 98)%N then month_abbr m
  else if (c =? 100)%N then PyStr.str_of_Z_02 d
  else if (c =? 109)%N then PyStr.str_of_Z_02 m
  else if (c =? 89)%N then PyStr.str_of_Z y
  else if (c =? 72)%N then PyStr.str_of_Z_02 (s / 3600)
  else if (c =? 77)%N then PyStr.str_of_Z_02 (s / 60 mod 60)
  else if (c =? 83)%N then PyStr.str_of_Z_02 (s mod 60)
  else if (c =? 37)%N then [c]
  else [37%N; c].

Fixpoint strftime_go (fmt : str) (v : dtvalue) : str :=
  match fmt with
  | [] => []
  | c :: fmt' =>
      if (c =? 37)%N then
        match fmt' with
        | k :: fmt'' => directive k v ++ strftime_go fmt'' v
        | [] => [c]
        end
      else c :: strftime_go fmt' v
  end.

Definition strftime (v : dtvalue) (fmt : str) : str := strftime_go fmt v.

(** [str(d)] of a date, its ISO form [%04d-%02d-%02d]. *)
Definition isoformat (d : date) : str :=
  let '(y, m, day) := ord2ymd (toordinal d) in
  let year := PyStr.str_of_Z y in
  replicate (4 - length year) 48%N ++ year ++ py "-"
    ++ PyStr.str_of_Z_02 m ++ py "-" ++ PyStr.str_of_Z_02 day.

End DateTime.

Import DateTime.

Example date_ex :
  date_new 2024 1 1 = Val (Date 738886)
  /\ ord2ymd 738886 = (2024, 1, 1)
  /\ ord2ymd max_ordinal = (9999, 12, 31)
  /\ date_new 2024 2 30 = Exn ValueError
  /\ date_new 2147483648 1 1 = Exn OverflowError
  /\ datetime_new 2024 13 1 2147483648 0 None = Exn OverflowError
  /\ datetime_new 2024 1 1 24 0 None = Exn ValueError
  /\ timedelta_of_minutes 100000000000000 = Exn OverflowError
  /\ timedelta_of_minutes 90 = Val (timedelta_minutes 90)
  /\ isoformat (Date 738886) = py "2024-01-01"
  /\ isoformat (Date 366) = py "0002-01-01"
  /\ strftime (D (Date 738890)) (py "UNTIL %b %d %Y") = py "UNTIL Jan 05 2024"
  /\ strftime (DT (DateTime (Date 738890) 32700 None)) (py "AT %H:%M")
     = py "AT 09:05".
Proof. vm_compute. repeat split. Qed.

(** ** [dateutil.rrule]: rules and rule sets *)

Module RRule.

Definition YEARLY : Z := 0.
Definition MONTHLY : Z := 1.
Definition WEEKLY : Z := 2.
Definition DAILY : Z := 3.

(** A rule object: the attributes the program reads, and [rule_dates],
    the datetimes the rule yields when it is iterated (dateutil expands
    them from the rule and the event's start). *)
Record rrule := RRule {
  _freq : Z;
  _count : option Z;
  _until : option datetime;
  _byweekday : option (list Z);
  rule_dates : list datetime
}.

Record rruleset := RRuleSet {
  _rrule : list rrule;
  _rdate : list datetime
}.

(** Merging two ascending sequences, equal readings kept once. *)
Fixpoint merge (l1 : list datetime) : list datetime -> list datetime :=
  fix merge_aux (l2 : list datetime) : list datetime :=
    match l1, l2 with
    | [], _ => l2
    | _, [] => l1
    | a :: l1', b :: l2' =>
        if naive_seconds a <? naive_seconds b then a :: merge l1' l2
        else if naive_seconds b <? naive_seconds a then b :: merge_aux l2'
        else a :: merge l1' l2'
    end.

Fixpoint insert_sorted (x : datetime) (l : list datetime) : list datetime :=
  match l with
  | [] => [x]
  | y :: l' =>
      if naive_seconds x <? naive_seconds y then x :: l
      else if naive_seconds y <? naive_seconds x then y :: insert_sorted x l'
      else l
  end.

(** [list(rruleset)]: the dates of all rules and the explicit dates, in
    ascending order. *)
Definition set_dates (rs : rruleset) : list datetime :=
  fold_right merge (fold_right insert_sorted [] (_rdate rs))
             (map rule_dates (_rrule rs)).

(** [date.weekday()]: Monday is 0. *)
Definition weekday (d : date) : Z := (toordinal d + 6) mod 7.

(** The dates of a rule made of a frequency in days and a count only:
    [count] dates [step] days apart from [start], as far as year 9999. *)
Fixpoint stepped_dates (count : nat) (step : Z) (start : datetime)
  : list datetime :=
  match count with
  | O => []
  | S n =>
      start ::
      match add (DT start) (timedelta_days step) with
      | Val (DT next) => stepped_dates n step next
      | _ => []
      end
  end.

(** The rule an event carries after [rrule(freq=freq, count=count)] is
    stored in it, for the daily and the weekly frequency: read back, it
    starts at the event's [dtstart], and a weekly rule is tied to the
    weekday of that start. *)
Definition counted_rule (freq count : Z) (dtstart : dtvalue) : rrule :=
  let start :=
    match dtstart with D d => datetime_of_date d | DT t => t end in
  RRule freq (Some count) None
        (if freq =? WEEKLY then Some [weekday (dt_date start)] else None)
        (stepped_dates (Z.to_nat count) (if freq =? WEEKLY then 7 else 1) start).

End RRule.

Import RRule.

(** ** [vobject]: the event component *)

Record valarm := VAlarm {
  trigger : timedelta;
  action : str;
  alarm_description : str
}.

(** A [VEVENT]: each property is present or absent ([hasattr]). [rrule]
    holds the RRULE lines as the rules [vevent.rruleset] hands out,
    [rdate] the RDATE lines with their lists of dates. *)
Record vevent := VEvent {
  dtstart : option dtvalue;
  dtend : option dtvalue;
  duration : option timedelta;
  summary : option str;
  uid : option str;
  location : option str;
  description : option str;
  valarm_list : list valarm;
  rrule_list : list rrule;
  rdate_list : list (list dtvalue)
}.

(** [iCalendar().add('vevent')] *)
Definition new_vevent : vevent :=
  VEvent None None None None None None None [] [] [].

(** Reading [x.value] of a property that may be absent. *)
Definition attr {A} (o : option A) : outcome A := of_option AttributeError o.

Definition set_dtstart (x : dtvalue) (v : vevent) : vevent :=
  VEvent (Some x) (dtend v) (duration v) (summary v) (uid v) (location v)
         (description v) (valarm_list v) (rrule_list v) (rdate_list v).

Definition set_dtend (x : dtvalue) (v : vevent) : vevent :=
  VEvent (dtstart v) (Some x) (duration v) (summary v) (uid v) (location v)
         (description v) (valarm_list v) (rrule_list v) (rdate_list v).

Definition set_duration (x : timedelta) (v : vevent) : vevent :=
  VEvent (dtstart v) (dtend v) (Some x) (summary v) (uid v) (location v)
         (description v) (valarm_list v) (rrule_list v) (rdate_list v).

Definition set_summary (x : str) (v : vevent) : vevent :=
  VEvent (dtstart v) (dtend v) (duration v) (Some x) (uid v) (location v)
         (description v) (valarm_list v) (rrule_list v) (rdate_list v).

Definition set_uid (x : str) (v : vevent) : vevent :=
  VEvent (dtstart v) (dtend v) (duration v) (summary v) (Some x) (location v)
         (description v) (valarm_list v) (rrule_list v) (rdate_list v).

Definition set_location (x : str) (v : vevent) : vevent :=
  VEvent (dtstart v) (dtend v) (duration v) (summary v) (uid v) (Some x)
         (description v) (valarm_list v) (rrule_list v) (rdate_list v).

Definition set_description (x : str) (v : vevent) : vevent :=
  VEvent (dtstart v) (dtend v) (duration v) (summary v) (uid v) (location v)
         (Some x) (valarm_list v) (rrule_list v) (rdate_list v).

Definition add_valarm (x : valarm) (v : vevent) : vevent :=
  VEvent (dtstart v) (dtend v) (duration v) (summary v) (uid v) (location v)
         (description v) (valarm_list v ++ [x]) (rrule_list v) (rdate_list v).

(** [vevent.rruleset]: [None] without RRULE and RDATE lines, else the
    set of the rules and of the explicit dates, dates as midnights. *)
Definition get_rruleset (v : vevent) : option rruleset :=
  match rrule_list v, rdate_list v with
  | [], [] => None
  | rules, lines =>
      Some (RRuleSet rules
              (map (fun x => match x with
                             | D d => datetime_of_date d
                             | DT t => t
                             end) (concat lines)))
  end.

(** Dropping the first item equal to [x] ([list.remove], if present). *)
Fixpoint remove_first (x : dtvalue) (l : list dtvalue) : list dtvalue :=
  match l with
  | [] => []
  | y :: l' => if DateTime.eq y x then l' else y :: remove_first x l'
  end.

(** [vevent.rruleset = rset] for a set of explicit dates only: the
    RRULE and RDATE lines are replaced by one RDATE line; a date equal
    to the event's start is left out, and an all-day event keeps the
    dates as dates. *)
Definition set_rruleset_rdates (rdates : list datetime) (v : vevent)
  : outcome vevent :=
  start ← attr (dtstart v);
  let start_dt :=
    match start with D d => datetime_of_date d | DT t => t end in
  let kept := remove_first (DT start_dt) (map DT rdates) in
  let values :=
    if is_datetime start then kept
    else map (fun x => D (date_of x)) kept in
  Val (VEvent (dtstart v) (dtend v) (duration v) (summary v) (uid v)
         (location v) (description v) (valarm_list v) []
         (match values with [] => [] | _ => [values] end)).

(** [vevent.rruleset = rset] for a set of one rule
    [rrule(freq=freq, count=count)]. *)
Definition set_rruleset_rule (freq count : Z) (v : vevent) : outcome vevent :=
  start ← attr (dtstart v);
  Val (VEvent (dtstart v) (dtend v) (duration v) (summary v) (uid v)
         (location v) (description v) (valarm_list v)
         [counted_rule freq count start] []).

(** ** Programs with a state: a value, an exception or no return,
       together with the state the call leaves behind *)

Definition prog (S A : Type) : Type := S -> outcome A * S.

#[global] Instance prog_ret {S} : MRet (prog S) := fun A a s => (Val a, s).

#[global] Instance prog_bind {S} : MBind (prog S) := fun A B f m s =>
  match m s with
  | (Val a, s') => f a s'
  | (Exn e, s') => (Exn e, s')
  | (Hang, s') => (Hang, s')
  end.

Definition lift {S A} (o : outcome A) : prog S A := fun s => (o, s).
Definition get {S} : prog S S := fun s => (Val s, s).
Definition put {S} (s : S) : prog S unit := fun _ => (Val tt, s).

(** ** The class [Remind] *)

Module Remind.

(** The characters of the source's literals that a Rocq literal cannot
    hold as such. *)
Definition dquote : char := 34%N.
Definition newline : str := [10%N].

(** The five characters that escape a bracket (an opening bracket, a
    double quote, an opening bracket, a double quote, a closing bracket)
    and the two that delimit the summary (a percent sign and a double
    quote). *)
Definition bracket_escape : str :=
  py "[" ++ [dquote] ++ py "[" ++ [dquote] ++ py "]".
Definition delimiter : str := py "%" ++ [dquote].

(** The object: the zone of the file, the lock (held or not) and the
    cache of calendars by file name. Its start date and month count
    are kept apart in [options], its file name and the time of its
    latest load in [session]. *)
Record t := Self {
  _localtz : tzinfo;
  _lock : bool;
  _icals : gmap str (list vevent)
}.

(** The attributes [__init__] keeps for the command line of remind:
    the date to start at and the number of months. *)
Record options := Options {
  _startdate : date;
  _month : Z
}.

(** One character of a description as [_gen_msg] writes it: a line
    break as a percent sign and an underscore, an opening bracket in
    its escaped form. *)
Definition escape_char (c : char) : str :=
  if (c =? 10)%N then py "%_"
  else if (c =? 91)%N then bracket_escape
  else [c].

(** The same with the line breaks back in place. *)
Definition escape_bracket (c : char) : str :=
  if (c =? 91)%N then bracket_escape else [c].

(** [_gen_description] *)
Definition _gen_description (text : str) : str :=
  PyStr.strip
    (PyStr.replace bracket_escape (py "[")
       (PyStr.replace (py "%_") newline
          (PySeq.slice_from text (PyStr.rfind delimiter text + 3)))).

(** [_gen_uid]; [fqdn] is what [getfqdn()] returns. *)
Definition _gen_uid (fqdn : str) (line_number : str) (text : str) : str :=
  let hashed_text := sha1_hex text in
  line_number ++ py "-" ++ hashed_text ++ py "@" ++ fqdn.

(** The dict [_parse_remind_line] builds. *)
Record event := Event {
  ev_dtstart : list dtvalue;
  ev_duration : option timedelta;
  ev_msg : str;
  ev_location : option str;
  ev_description : option str;
  ev_uid : str
}.

(** The summary and the location of a message: split at the last
    [' at '] (lines 124 to 128). *)
Definition split_msg (msg : str) : str * option str :=
  if PyStr.contains (py " at ") msg then
    match PyStr.rsplit1 (py " at ") msg with
    | [m; l] => (m, Some l)
    | _ => (msg, None)
    end
  else (msg, None).

(** [_parse_remind_line] *)
Definition _parse_remind_line (self : t) (fqdn : str) (line : list str)
    (text : str) : outcome event :=
  f4 ← PySeq.getitem line 4;
  dat ← omap PyStr.int (PyStr.split (py "/") f4);
  f8 ← PySeq.getitem line 8;
  timed ←
    (if negb (PyStr.eqb f8 (py "*")) then
       n ← PyStr.int f8;
       d0 ← PySeq.getitem dat 0;
       d1 ← PySeq.getitem dat 1;
       d2 ← PySeq.getitem dat 2;
       start ← datetime_new d0 d1 d2 (n / 60) (n mod 60) (Some (_localtz self));
       f7 ← PySeq.getitem line 7;
       if negb (PyStr.eqb f7 (py "*")) then
         m ← PyStr.int f7;
         dur ← timedelta_of_minutes m;
         Val ([DT start], Some dur)
       else Val ([DT start], None)
     else
       d0 ← PySeq.getitem dat 0;
       d1 ← PySeq.getitem dat 1;
       d2 ← PySeq.getitem dat 2;
       day ← date_new d0 d1 d2;
       Val ([D day], None));
  let '(starts, dur) := timed in
  let msg :=
    PyStr.join (py " ")
      (if PyStr.eqb f8 (py "*") then drop 9 line else drop 10 line) in
  let '(m, loc) := split_msg msg in
  let descr :=
    if PyStr.contains delimiter text then Some (_gen_description text)
    else None in
  f2 ← PySeq.getitem line 2;
  Val (Event starts dur m loc descr (_gen_uid fqdn f2 text)).

(** [_weekly] *)
Fixpoint _weekly_loop (last : dtvalue) (dates : list dtvalue) : outcome bool :=
  match dates with
  | [] => Val true
  | dat :: rest =>
      gap ← sub dat last;
      if negb (days gap =? 7) then Val false else _weekly_loop dat rest
  end.

Definition _weekly (dates : list dtvalue) : outcome bool :=
  last ← PySeq.getitem dates 0;
  _weekly_loop last (drop 1 dates).

(** [_gen_dtend_rrule] *)
Definition _gen_dtend_rrule (dtstarts : list dtvalue) (ve : vevent)
  : outcome vevent :=
  let n := Z.of_nat (length dtstarts) in
  hi ← max dtstarts;
  lo ← min dtstarts;
  span ← sub hi lo;
  if days span =? n - 1 then
    first ← PySeq.getitem dtstarts 0;
    if is_datetime first then set_rruleset_rule DAILY n ve
    else
      last ← PySeq.getitem dtstarts (-1);
      e ← add last (timedelta_days 1);
      Val (set_dtend e ve)
  else
    weekly ← _weekly dtstarts;
    if weekly : bool then set_rruleset_rule WEEKLY n ve
    else
      first ← PySeq.getitem dtstarts 0;
      rdates ←
        (if is_datetime first then
           omap (fun dat => match dat with
                            | DT x => astimezone x UTC
                            | D _ => Exn AttributeError
                            end) dtstarts
         else Val (map (fun dat => datetime_of_date (date_of dat)) dtstarts));
      before ← sub_td first (timedelta_days 1);
      v ← set_rruleset_rdates rdates (set_dtstart before ve);
      let v := set_dtstart first v in
      if negb (is_datetime first) then
        e ← add first (timedelta_days 1);
        Val (set_dtend e v)
      else Val v.

(** [_gen_vevent] *)
Definition _gen_vevent (ev : event) (ve : vevent) : outcome vevent :=
  first ← PySeq.getitem (ev_dtstart ev) 0;
  let v := set_dtstart first ve in
  let v := set_summary (ev_msg ev) v in
  let v := set_uid (ev_uid ev) v in
  let v := match ev_location ev with
           | Some l => set_location l v
           | None => v
           end in
  let v := match ev_description ev with
           | Some d => set_description d v
           | None => v
           end in
  v ←
    (if is_datetime first then
       let v :=
         add_valarm (VAlarm (timedelta_minutes (-10)) (py "DISPLAY")
                            (ev_msg ev)) v in
       match ev_duration ev with
       | Some d => Val (set_duration d v)
       | None => Val (set_dtend first v)
       end
     else if (length (ev_dtstart ev) =? 1)%nat then
       e ← add first (timedelta_days 1);
       Val (set_dtend e v)
     else Val v);
  if (1 <? length (ev_dtstart ev))%nat
  then _gen_dtend_rrule (ev_dtstart ev) v
  else Val v.

(** The dicts of [_parse_remind], in insertion order. *)
Fixpoint alist_get {V} (k : str) (l : list (str * V)) : option V :=
  match l with
  | [] => None
  | (k', v) :: l' => if PyStr.eqb k k' then Some v else alist_get k l'
  end.

Fixpoint alist_set {V} (k : str) (v : V) (l : list (str * V))
  : list (str * V) :=
  match l with
  | [] => [(k, v)]
  | (k', v') :: l' =>
      if PyStr.eqb k k' then (k, v) :: l' else (k', v') :: alist_set k v l'
  end.

Definition add_dtstart (old new : event) : event :=
  Event (ev_dtstart old ++ ev_dtstart new) (ev_duration old) (ev_msg old)
        (ev_location old) (ev_description old) (ev_uid old).

(** The lines of a source file: those handed in as [lines], if any,
    else those read from the file. *)
Definition read_source (disk : gmap str str) (lines : str)
    (src_filename : str) : outcome (list str) :=
  match lines with
  | _ :: _ => Val (PyStr.split newline lines)
  | [] =>
      of_option IOError (PyStr.splitlines_keepends <$> disk !! src_filename)
  end.

(** One turn of the loop of [_parse_remind] over the records. *)
Definition _parse_remind_record (self : t) (fqdn : str)
    (disk : gmap str str) (lines : str)
    (acc : list (str * list str) * list (str * list (str * event)))
    (record : str)
  : outcome (list (str * list str) * list (str * list (str * event))) :=
  let '(files, events) := acc in
  let line :=
    PyStr.split (py " ")
      (PyStr.rstrip (PyStr.replace newline (py " ") record)) in
  src_filename ← PySeq.getitem line 3;
  acc ←
    (match alist_get src_filename files with
     | Some _ => Val (files, events)
     | None =>
         content ← read_source disk lines src_filename;
         Val (alist_set src_filename content files,
              alist_set src_filename [] events)
     end);
  let '(files, events) := acc in
  source ← of_option KeyError (alist_get src_filename files);
  f2 ← PySeq.getitem line 2;
  n ← PyStr.int f2;
  text ← PySeq.getitem source (n - 1);
  ev ← _parse_remind_line self fqdn line text;
  known ← of_option KeyError (alist_get src_filename events);
  let known :=
    match alist_get (ev_uid ev) known with
    | Some old => alist_set (ev_uid ev) (add_dtstart old ev) known
    | None => alist_set (ev_uid ev) ev known
    end in
  Val (files, alist_set src_filename known events).

Fixpoint _parse_remind_loop (self : t) (fqdn : str) (disk : gmap str str)
    (lines : str)
    (acc : list (str * list str) * list (str * list (str * event)))
    (records : list str)
  : outcome (list (str * list str) * list (str * list (str * event))) :=
  match records with
  | [] => Val acc
  | r :: rest =>
      acc ← _parse_remind_record self fqdn disk lines acc r;
      _parse_remind_loop self fqdn disk lines acc rest
  end.

(** [_parse_remind], from the text [rem] the remind process returned:
    the calendars by file, each a list of events. *)
Definition _parse_remind (self : t) (fqdn : str) (disk : gmap str str)
    (rem : str) (lines : str) : outcome (list (str * list vevent)) :=
  match rem with
  | [] => Val []
  | _ =>
      acc ← _parse_remind_loop self fqdn disk lines ([], [])
              (PyStr.split (newline ++ py "#") rem);
      omap (fun fe : str * list (str * event) =>
              vs ← omap (fun ue : str * event => _gen_vevent (ue.2) new_vevent)
                        (fe.2);
              Val (fe.1, vs))
           (acc.2)
  end.

(** The command line of line 60. *)
Definition remind_cmd (opts : options) (filename : str) : list str :=
  [py "remind"; py "-l"; py "-s" ++ PyStr.str_of_Z (_month opts); py "-b1";
   py "-r"; filename; isoformat (_startdate opts)].

(** [_parse_remind] with the call of the process: [popen] gives, for
    a command line and the text on its standard input, the decoded
    text the process prints, or the exception of the call. With
    [lines] the process reads its standard input. *)
Definition _parse_remind_popen (popen : list str -> str -> outcome str)
    (self : t) (opts : options) (fqdn : str) (disk : gmap str str)
    (filename lines : str) : outcome (list (str * list vevent)) :=
  let filename := match lines with [] => filename | _ => py "-" end in
  rem ← popen (remind_cmd opts filename) lines;
  _parse_remind self fqdn disk rem lines.

(** [_parse_rdate] *)
Definition _parse_rdate (rdates : list dtvalue) : str :=
  let trigdates :=
    map (fun rdate =>
           strftime rdate (py "trigdate()=='%Y-%m-%d'")) rdates in
  py "SATISFY [" ++ PyStr.join (py "||") trigdates ++ py "]".

(** What [_parse_rruleset] hands to [to_remind]: nothing, a list of
    clauses, or one string. *)
Inductive trigdates :=
  | TrigNone
  | TrigList (l : list str)
  | TrigStr (s : str).

Definition weekdays : list str :=
  map py ["Mon"; "Tue"; "Wed"; "Thu"; "Fri"; "Sat"; "Sun"]%string.

(** The date clause after [UNTIL]; a leading zero of the day goes. *)
Definition until_clause (v : dtvalue) : str :=
  PyStr.replace (py " 0") (py " ") (strftime v (py "UNTIL %b %d %Y")).

(** [_parse_rruleset] *)
Definition _parse_rruleset (rruleset : rruleset) : outcome trigdates :=
  r0 ← PySeq.getitem (_rrule rruleset) 0;
  if _freq r0 =? 0 then Val (TrigList [])
  else
    let several :=
      match _byweekday r0 with
      | Some l => (1 <? length l)%nat
      | None => false
      end in
    if negb several && negb (_freq r0 =? DAILY) && negb (_freq r0 =? WEEKLY)
    then Val (TrigStr (_parse_rdate (map DT (rule_dates r0))))
    else
      let rep :=
        if several then [py "*1"]
        else if _freq r0 =? DAILY then [py "*1"]
        else [py "*7"] in
      rep ←
        (if several then
           let daynums :=
             List.filter
               (fun d => negb (existsb (Z.eqb d) (default [] (_byweekday r0))))
               [0; 1; 2; 3; 4; 5; 6] in
           days ← omap (fun day => PySeq.getitem weekdays day) daynums;
           Val (rep ++ [py "SKIP OMIT " ++ PyStr.join (py " ") days])
         else Val rep);
      match _until r0 with
      | Some u => Val (TrigList (rep ++ [until_clause (DT u)]))
      | None =>
          match _count r0 with
          | Some c =>
              if c =? 0 then Val (TrigList rep)
              else
                last ← PySeq.getitem (set_dates rruleset) (-1);
                Val (TrigList (rep ++ [until_clause (DT last)]))
          | None => Val (TrigList rep)
          end
      end.

(** [_event_duration] *)
Definition _event_duration (ve : vevent) : outcome timedelta :=
  match dtend ve with
  | Some e => s ← attr (dtstart ve); sub e s
  | None =>
      match duration ve with
      | Some d => if total_seconds d =? 0 then Val (Timedelta 0) else Val d
      | None => Val (Timedelta 0)
      end
  end.

(** A Python string is true unless it is empty. *)
Definition nonempty (o : option str) : option str :=
  match o with
  | Some (_ :: _) => o
  | _ => None
  end.

(** [_gen_msg] *)
Definition _gen_msg (ve : vevent) (label : option str) : outcome (list str) :=
  let rem := [py "MSG"] in
  let msg := match nonempty label with Some l => [l] | None => [] end in
  s ← attr (summary ve);
  let msg := msg ++ [PyStr.replace (py "[") bracket_escape s] in
  let msg :=
    match nonempty (location ve) with
    | Some l => msg ++ [py "at " ++ l]
    | None => msg
    end in
  match nonempty (description ve) with
  | Some d =>
      Val (rem ++ [delimiter ++ PyStr.join (py " ") msg ++ delimiter]
               ++ [PyStr.replace (py "[") bracket_escape
                     (PyStr.replace newline (py "%_") d)])
  | None => Val (rem ++ [PyStr.join (py " ") msg])
  end.

(** The date clause of a trigger, the clock clause, and the duration
    clause ([DURATION %d:%02d] of the minutes, on whole numbers). *)
Definition date_clause (v : dtvalue) : str :=
  PyStr.replace (py " 0") (py " ") (strftime v (py "%b %d %Y")).

Definition at_clause (v : dtvalue) : str :=
  PyStr.replace (py " 0") (py " ") (strftime v (py "AT %H:%M")).

Definition duration_clause (d : timedelta) : str :=
  let minutes := total_seconds d / 60 in
  py "DURATION " ++ PyStr.str_of_Z (minutes / 60) ++ py ":"
    ++ PyStr.str_of_Z_02 (minutes mod 60).

(** [PRIORITY %s], unless the priority is missing or zero. *)
Definition priority_clause (priority : option Z) : list str :=
  match priority with
  | Some p => if p =? 0 then [] else [py "PRIORITY " ++ PyStr.str_of_Z p]
  | None => []
  end.

(** The clauses [to_remind] joins: the list [remind] at the end of the
    method. The state is the event handed in, which the method changes
    when it shortens an all-day span. *)
Definition to_remind_clauses (self : t) (label : option str)
    (priority : option Z) : prog vevent (list str) :=
  ve ← get;
  let remind := [py "REM"] in
  trig ← lift (match rrule_list ve with
               | [] => Val TrigNone
               | _ => rs ← attr (get_rruleset ve); _parse_rruleset rs
               end);
  remind ← lift (match rdate_list ve, trig with
                 | _ :: _, _ | _, TrigStr _ => Val remind
                 | _, _ =>
                     start ← attr (dtstart ve);
                     Val (remind ++ [date_clause start])
                 end);
  let remind := remind ++ priority_clause priority in
  let remind :=
    match trig with
    | TrigList l => remind ++ l
    | _ => remind
    end in
  dur ← lift (_event_duration ve);
  start ← lift (attr (dtstart ve));
  remind ←
    (if negb (is_datetime start) && (1 <? days dur) then
       let remind := remind ++ [py "*1"] in
       match dtend ve with
       | Some e =>
           e' ← lift (sub_td e (timedelta_days 1));
           _ ← put (set_dtend e' ve);
           mret (remind ++ [until_clause e'])
       | None => mret remind
       end
     else mret remind);
  ve ← get;
  start ← lift (attr (dtstart ve));
  remind ← lift (match start with
                 | DT x =>
                     local ← astimezone x (_localtz self);
                     let remind := remind ++ [at_clause (DT local)] in
                     if 0 <? total_seconds dur
                     then Val (remind ++ [duration_clause dur])
                     else Val remind
                 | D _ => Val remind
                 end);
  let remind :=
    match rdate_list ve, trig with
    | line :: _, _ => remind ++ [_parse_rdate line]
    | [], TrigStr s => remind ++ [s]
    | [], _ => remind
    end in
  msg ← lift (_gen_msg ve label);
  mret (remind ++ msg).

(** [to_remind] from line 326 on, once [trigdates] is known. *)
Definition to_remind_after (self : t) (label : option str)
    (priority : option Z) (trig : trigdates) : prog vevent (list str) :=
  ve ← get;
  let remind := [py "REM"] in
  remind ← lift (match rdate_list ve, trig with
                 | _ :: _, _ | _, TrigStr _ => Val remind
                 | _, _ =>
                     start ← attr (dtstart ve);
                     Val (remind ++ [date_clause start])
                 end);
  let remind := remind ++ priority_clause priority in
  let remind :=
    match trig with
    | TrigList l => remind ++ l
    | _ => remind
    end in
  dur ← lift (_event_duration ve);
  start ← lift (attr (dtstart ve));
  remind ←
    (if negb (is_datetime start) && (1 <? days dur) then
       let remind := remind ++ [py "*1"] in
       match dtend ve with
       | Some e =>
           e' ← lift (sub_td e (timedelta_days 1));
           _ ← put (set_dtend e' ve);
           mret (remind ++ [until_clause e'])
       | None => mret remind
       end
     else mret remind);
  ve ← get;
  start ← lift (attr (dtstart ve));
  remind ← lift (match start with
                 | DT x =>
                     local ← astimezone x (_localtz self);
                     let remind := remind ++ [at_clause (DT local)] in
                     if 0 <? total_seconds dur
                     then Val (remind ++ [duration_clause dur])
                     else Val remind
                 | D _ => Val remind
                 end);
  let remind :=
    match rdate_list ve, trig with
    | line :: _, _ => remind ++ [_parse_rdate line]
    | [], TrigStr s => remind ++ [s]
    | [], _ => remind
    end in
  msg ← lift (_gen_msg ve label);
  mret (remind ++ msg).

(** [to_remind] *)
Definition to_remind (self : t) (label : option str) (priority : option Z)
  : prog vevent str :=
  remind ← to_remind_clauses self label priority;
  mret (PyStr.join (py " ") remind ++ newline).

(** The comprehension of [to_reminds]: the state is the list of the
    events of the calendar. *)
Fixpoint to_reminds_each (self : t) (label : option str) (priority : option Z)
    (events : list vevent) : outcome str * list vevent :=
  match events with
  | [] => (Val [], [])
  | ve :: rest =>
      match to_remind self label priority ve with
      | (Val r, ve') =>
          match to_reminds_each self label priority rest with
          | (Val rs, rest') => (Val (r ++ rs), ve' :: rest')
          | (Exn e, rest') => (Exn e, ve' :: rest')
          | (Hang, rest') => (Hang, ve' :: rest')
          end
      | (Exn e, ve') => (Exn e, ve' :: rest)
      | (Hang, ve') => (Hang, ve' :: rest)
      end
  end.

(** [to_reminds]: a calendar is given by its events; one without an
    event has no attribute [vevent_list], and reading it raises
    [AttributeError]. *)
Definition to_reminds (self : t) (label : option str) (priority : option Z)
    (ical : list vevent) : outcome str * list vevent :=
  match ical with
  | [] => (Exn AttributeError, [])
  | _ :: _ => to_reminds_each self label priority ical
  end.

(** *** The mutations of a file *)

(** The object and the files on disk, by name, as decoded text. *)
Record world := World {
  obj : t;
  disk : gmap str str
}.

Definition set_lock (b : bool) (w : world) : world :=
  World (Self (_localtz (obj w)) b (_icals (obj w))) (disk w).

(** [self._lock.acquire()]: a held lock never lets the caller in. *)
Definition acquire : prog world unit := fun w =>
  if _lock (obj w) then (Hang, w) else (Val tt, set_lock true w).

(** [self._lock.release()] *)
Definition release : prog world unit := fun w => (Val tt, set_lock false w).

(** [copen(filename, encoding='utf-8').readlines()] *)
Definition readlines (filename : str) : prog world (list str) := fun w =>
  match disk w !! filename with
  | Some content => (Val (PyStr.splitlines_keepends content), w)
  | None => (Exn IOError, w)
  end.

(** [copen(filename, 'w', encoding='utf-8').writelines(rem)] *)
Definition writelines (filename : str) (rem : list str) : prog world unit :=
  fun w => (Val tt, World (obj w) (<[filename := concat rem]> (disk w))).

(** [copen(filename, 'a', encoding='utf-8')], then [.write(text)]. *)
Definition open_append (filename : str) : prog world unit := fun w =>
  (Val tt, World (obj w) (<[filename := default [] (disk w !! filename)]> (disk w))).

Definition write_append (filename : str) (text : str) : prog world unit :=
  fun w =>
    (Val tt,
     World (obj w)
       (<[filename := default [] (disk w !! filename) ++ text]> (disk w))).

(** [filename in self._icals] *)
Definition known (filename : str) (w : world) : bool :=
  match _icals (obj w) !! filename with
  | Some _ => true
  | None => false
  end.

(** [name.split('@')[0].split('-')] *)
Definition split_uid (name : str) : outcome (list str) :=
  before ← PySeq.getitem (PyStr.split (py "@") name) 0;
  Val (PyStr.split (py "-") before).

(** [append]; [ical] is what [readOne] makes of the text handed in:
    the events of the calendar, or the exception of the parser. *)
Definition append (ical : outcome (list vevent)) (filename : str)
  : prog world unit :=
  w ← get;
  if negb (known filename w) then mret tt
  else
    _ ← acquire;
    _ ← open_append filename;
    events ← lift ical;
    text ← lift (to_reminds (obj w) None None events).1;
    _ ← write_append filename text;
    release.

(** [remove] *)
Definition remove (name : str) (filename : str) : prog world unit :=
  w ← get;
  if negb (known filename w) then mret tt
  else
    uid ← lift (split_uid name);
    if negb (length uid =? 2)%nat then mret tt
    else
      line ← lift (u0 ← PySeq.getitem uid 0; n ← PyStr.int u0; Val (n - 1));
      _ ← acquire;
      rem ← readlines filename;
      text ← lift (PySeq.getitem rem line);
      let linehash := sha1_hex text in
      u1 ← lift (PySeq.getitem uid 1);
      _ ← (if PyStr.eqb linehash u1 then
             rem ← lift (PySeq.delitem rem line);
             writelines filename rem
           else mret tt);
      release.

(** [replace]; [ical] as for [append]. *)
Definition replace (name : str) (ical : outcome (list vevent))
    (filename : str) : prog world unit :=
  w ← get;
  if negb (known filename w) then mret tt
  else
    uid ← lift (split_uid name);
    if negb (length uid =? 2)%nat then mret tt
    else
      line ← lift (u0 ← PySeq.getitem uid 0; n ← PyStr.int u0; Val (n - 1));
      _ ← acquire;
      rem ← readlines filename;
      text ← lift (PySeq.getitem rem line);
      let linehash := sha1_hex text in
      u1 ← lift (PySeq.getitem uid 1);
      _ ← (if PyStr.eqb linehash u1 then
             events ← lift ical;
             new ← lift (to_reminds (obj w) None None events).1;
             rem ← lift (PySeq.setitem rem line new);
             writelines filename rem
           else mret tt);
      release.

(** What [remove] and [replace] do once their guards are passed:
    take the lock, read the lines, and write back those that [change]
    hands over, if any; an exception leaves the lock held. *)
Definition locked_update (filename : str) (w : world)
    (change : list str -> outcome (option (list str)))
  : outcome unit * world :=
  if _lock (obj w) then (Hang, w)
  else
    match disk w !! filename with
    | None => (Exn IOError, set_lock true w)
    | Some content =>
        match change (PyStr.splitlines_keepends content) with
        | Val (Some rem) =>
            (Val tt, World (obj w) (<[filename := concat rem]> (disk w)))
        | Val None => (Val tt, w)
        | Exn e => (Exn e, set_lock true w)
        | Hang => (Hang, set_lock true w)
        end
    end.

(** *** Loading the files *)

(** The object with its remaining attributes, and the file system with
    the modification time of each file that exists ([getmtime]); of a
    time stamp only the order is used. *)
Record session := Session {
  core : world;
  _filename : str;
  _mtime : Z;
  mtimes : gmap str Z
}.

(** [__init__]: the lock is free, the cache is empty, the latest load
    is at time 0. *)
Definition __init__ (localtz : tzinfo) (filename : str)
    (files : gmap str str) (stamps : gmap str Z) : session :=
  Session (World (Self localtz false ∅) files) filename 0 stamps.

(** A step on the object and the files, as a step of the session. *)
Definition on_world {A} (m : prog world A) : prog session A := fun s =>
  let '(o, w) := m (core s) in
  (o, Session w (_filename s) (_mtime s) (mtimes s)).

(** [getmtime(fname)]: a missing file raises. *)
Definition getmtime (fname : str) : prog session Z := fun s =>
  (of_option IOError (mtimes s !! fname), s).

Definition set_mtime (mtime : Z) : prog session unit := fun s =>
  (Val tt, Session (core s) (_filename s) mtime (mtimes s)).

(** [self._icals = icals] *)
Definition set_icals (icals : gmap str (list vevent)) : prog world unit :=
  fun w =>
    (Val tt, World (Self (_localtz (obj w)) (_lock (obj w)) icals) (disk w)).

(** The names of the cached files, as the loop of [_update] meets
    them. *)
Definition cached (s : session) : list str :=
  (map_to_list (_icals (obj (core s)))).*1.

(** The loop of [_update] over the cached files. *)
Fixpoint _update_loop (fnames : list str) (update : bool)
  : prog session bool :=
  match fnames with
  | [] => mret update
  | fname :: rest =>
      mtime ← getmtime fname;
      s ← get;
      if _mtime s <? mtime then
        _ ← set_mtime mtime;
        _update_loop rest true
      else _update_loop rest update
  end.

(** [_update]; [rem] is the text the remind process returns when it is
    run for this load. *)
Definition _update (fqdn rem : str) : prog session unit :=
  s ← get;
  let update := match cached s with [] => true | _ => false end in
  update ← _update_loop (cached s) update;
  if update : bool then
    _ ← on_world acquire;
    s ← get;
    icals ←
      lift (_parse_remind (obj (core s)) fqdn (disk (core s)) rem []);
    _ ← on_world (set_icals (list_to_map icals));
    on_world release
  else mret tt.

(** [get_filesnames] *)
Definition get_filesnames (fqdn rem : str) : prog session (gset str) :=
  _ ← _update fqdn rem;
  s ← get;
  mret (dom (_icals (obj (core s)))).

(** [to_vobject]: the calendar of the file, an empty one for a file
    that is not cached. *)
Definition to_vobject (fqdn rem : str) (filename : str)
  : prog session (list vevent) :=
  _ ← _update fqdn rem;
  s ← get;
  mret (default [] (_icals (obj (core s)) !! filename)).

(** [stdin_to_vobject]: the calendar of the commands in [lines], or
    [None]. *)
Definition stdin_to_vobject (popen : list str -> str -> outcome str)
    (self : t) (opts : options) (fqdn : str) (files : gmap str str)
    (lines : str) : outcome (option (list vevent)) :=
  icals ← _parse_remind_popen popen self opts fqdn files (py "-") lines;
  Val (alist_get (py "-") icals).

(** [to_vobject_combined]: the events of all cached calendars in one. *)
Definition to_vobject_combined (fqdn rem : str)
  : prog session (list vevent) :=
  _ ← _update fqdn rem;
  s ← get;
  mret (concat (map_to_list (_icals (obj (core s)))).*2).

End Remind.

(** ** Lists of occurrences *)

(** The kind of an occurrence: a date, a naive datetime, or a datetime
    in a zone. *)
Definition kind (v : dtvalue) : option (option str) :=
  match v with
  | D _ => None
  | DT t => Some (tz_key <$> dt_tzinfo t)
  end.

(** All occurrences of the list are of one kind. *)
Definition uniform (l : list dtvalue) : Prop :=
  forall a b, a ∈ l -> b ∈ l -> kind a = kind b.

(** The wall clock reading of an occurrence in seconds, a date read at
    its midnight. *)
Definition stamp (v : dtvalue) : Z :=
  match v with
  | D d => toordinal d * 86400
  | DT t => naive_seconds t
  end.

(** Each occurrence lies [td] after the one before it. *)
Fixpoint gaps (td : timedelta) (l : list dtvalue) : Prop :=
  match l with
  | a :: (b :: _) as rest => sub b a = Val td /\ gaps td rest
  | _ => True
  end.

(** Each occurrence lies at least [lo] and less than [hi] seconds after
    the one before it, on the wall clock. *)
Fixpoint spaced (lo hi : Z) (l : list dtvalue) : Prop :=
  match l with
  | a :: (b :: _) as rest =>
      lo <= stamp b - stamp a < hi /\ spaced lo hi rest
  | _ => True
  end.

(** The dates come one after the other, each later than the one
    before. *)
Fixpoint ascending (l : list date) : Prop :=
  match l with
  | a :: (b :: _) as rest => toordinal a < toordinal b /\ ascending rest
  | _ => True
  end.

(** The event without its RRULE lines. *)
Definition without_rules (v : vevent) : vevent :=
  VEvent (dtstart v) (dtend v) (duration v) (summary v) (uid v) (location v)
         (description v) (valarm_list v) [] (rdate_list v).

(** The events [_parse_remind] has gathered: the files are apart, in
    each file the identities are apart, and each event is kept under
    its own identity. *)
Definition gathered (events : list (str * list (str * Remind.event)))
  : Prop :=
  NoDup events.*1
  /\ forall f evs, (f, evs) ∈ events ->
       NoDup evs.*1 /\ forall u ev, (u, ev) ∈ evs -> Remind.ev_uid ev = u.

(** The name of a weekday, Monday being day 0. *)
Definition day_name (d : Z) : str := nth (Z.to_nat d) Remind.weekdays [].

(** What [to_remind] holds in [trigdates] when line 324 is done. *)
Definition trigdates_of (ve : vevent) : outcome Remind.trigdates :=
  match rrule_list ve with
  | [] => Val Remind.TrigNone
  | _ => rs ← attr (get_rruleset ve); Remind._parse_rruleset rs
  end.

(** The clauses [to_remind] writes before those of an all-day span:
    the date, unless explicit dates or a [SATISFY] clause stand for
    it, the priority and the clauses of the rule; and the clause it
    writes after them. *)
Definition clauses_before (priority : option Z) (trig : Remind.trigdates)
    (ve : vevent) (start : dtvalue) : list str :=
  ([py "REM"]
     ++ match rdate_list ve, trig with
        | _ :: _, _ | _, Remind.TrigStr _ => []
        | _, _ => [Remind.date_clause start]
        end)
    ++ Remind.priority_clause priority
    ++ match trig with
       | Remind.TrigList l => l
       | _ => []
       end.

Definition clauses_after (trig : Remind.trigdates) (ve : vevent) : list str :=
  match rdate_list ve, trig with
  | line :: _, _ => [Remind._parse_rdate line]
  | [], Remind.TrigStr s => [s]
  | [], _ => []
  end.

(** ** A reminder file for the examples *)

Module Sample.

Definition tz : tzinfo :=
  TzInfo (py "Europe/Berlin") (fun _ => 3600) (fun _ => 3600).

Definition file : str := py "mylife.rem".

Definition line1 : str := py "REM Jan 1 2024 AT 10:00 MSG Meeting at Office
".

Definition line2 : str := py "REM Feb 2 2024 MSG Dentist
".

Definition self : Remind.t := Remind.Self tz false {[ file := [] ]}.

Definition world : Remind.world :=
  Remind.World self {[ file := line1 ++ line2 ]}.

(** The fields of a timed record, and the start it stands for:
    2024-01-01 at 10:00 in the zone of the object. *)
Definition timed_fields : list str :=
  map py ["#"; "1"; "1"; "mylife.rem"; "2024/1/1"; "*"; "*"; "*"; "600";
          "10:00am"; "Meeting"; "at"; "Office"]%string.

Definition timed_start (self : Remind.t) : dtvalue :=
  DT (DateTime (Date 738886) 36000 (Some (Remind._localtz self))).

(** The event of the second line: all day on 2024-02-02. *)
Definition dentist : vevent :=
  set_summary (py "Dentist")
    (set_dtend (D (Date 738919)) (set_dtstart (D (Date 738918)) new_vevent)).

(** The file was last written at time 100. The object after a load at
    that time, and with a load that is older. *)
Definition stamps : gmap str Z := {[ file := 100 ]}.

Definition loaded : Remind.session := Remind.Session world file 100 stamps.

Definition stale : Remind.session := Remind.Session world file 0 stamps.

(** What the remind process prints for the first line of the file, and
    the calendars [_parse_remind] makes of it. *)
Definition timed_record : str :=
  py "# 1 1 mylife.rem 2024/1/1 * * * 600 10:00am Meeting at Office".

Definition timed_event : vevent :=
  VEvent (Some (timed_start self)) (Some (timed_start self)) None
    (Some (py "Meeting")) (Some (Remind._gen_uid (py "host") (py "1") line1))
    (Some (py "Office")) None
    [VAlarm (timedelta_minutes (-10)) (py "DISPLAY") (py "Meeting")] [] [].

End Sample.

(** * Facts about the text functions *)

Section split_single.

Variable c : char.

Lemma startswith_single (x : char) (s : str) :
  PyStr.startswith [c] (x :: s) = (c =? x)%N.
Proof. simpl. apply andb_true_r. Qed.

(** Characters other than the separator are gathered in the piece. *)
Lemma split_go_pass (a : str) : forall (cur rest : str),
  Forall (fun x => x <> c) a ->
  PyStr.split_go [c] 0 cur (a ++ rest)
  = PyStr.split_go [c] 0 (rev a ++ cur) rest.
Proof.
  induction a as [|x a IH]; intros cur rest Ha; [reflexivity|].
  inversion Ha as [|? ? Hx Ha']; subst.
  cbn [app PyStr.split_go]. rewrite startswith_single.
  destruct (N.eqb_spec c x) as [->|_]; [contradiction|].
  rewrite IH by assumption. cbn [rev]. now rewrite <- app_assoc.
Qed.

Lemma split_piece (a b : str) :
  Forall (fun x => x <> c) a ->
  PyStr.split [c] (a ++ c :: b) = a :: PyStr.split [c] b.
Proof.
  intros Ha. unfold PyStr.split. rewrite split_go_pass by assumption.
  cbn [PyStr.split_go]. rewrite startswith_single, N.eqb_refl.
  cbn [length Nat.sub]. now rewrite app_nil_r, rev_involutive.
Qed.

Lemma split_last (a : str) :
  Forall (fun x => x <> c) a -> PyStr.split [c] a = [a].
Proof.
  intros Ha. unfold PyStr.split.
  rewrite <- (app_nil_r a) at 1. rewrite split_go_pass by assumption.
  cbn. now rewrite app_nil_r, rev_involutive.
Qed.

End split_single.

(** ** Decimal numerals *)

Section decimal.

Local Open Scope N_scope.

Lemma isdigit_digit (n : N) : PyStr.isdigit (48 + n mod 10) = true.
Proof.
  unfold PyStr.isdigit.
  pose proof (N.mod_upper_bound n 10 ltac:(discriminate)) as H.
  generalize dependent (n mod 10). intros r Hr.
  apply andb_true_intro; split; apply N.leb_le; lia.
Qed.

Lemma digits_go_app (fuel : nat) : forall (n : N) (acc : str),
  PyStr.digits_go fuel n acc = PyStr.digits_go fuel n [] ++ acc.
Proof.
  induction fuel as [|fuel IH]; intros n acc; [reflexivity|].
  cbn [PyStr.digits_go]. destruct (n / 10 =? 0)%N; [reflexivity|].
  rewrite IH, (IH _ [_]). now rewrite <- app_assoc.
Qed.

Lemma digits_go_digits (fuel : nat) : forall (n : N),
  Forall (fun ch => PyStr.isdigit ch = true) (PyStr.digits_go fuel n []).
Proof.
  induction fuel as [|fuel IH]; intros n; [constructor|].
  cbn [PyStr.digits_go]. destruct (n / 10 =? 0)%N.
  - repeat constructor. apply isdigit_digit.
  - rewrite digits_go_app. apply Forall_app; split; [apply IH|].
    repeat constructor. apply isdigit_digit.
Qed.

Lemma digits_go_nonempty (fuel : nat) (n : N) :
  PyStr.digits_go (S fuel) n [] <> [].
Proof.
  cbn [PyStr.digits_go]. destruct (n / 10 =? 0)%N; [discriminate|].
  rewrite digits_go_app. intros H. apply app_eq_nil in H as [_ H]. discriminate.
Qed.

(** With enough fuel the digits read back as the number. *)
Lemma digits_go_value (fuel : nat) : forall (n : N),
  (n < 10 ^ N.of_nat fuel)%N ->
  fold_left PyStr.digit_step (PyStr.digits_go fuel n []) 0%N = n.
Proof.
  induction fuel as [|fuel IH]; intros n Hn.
  - cbn in *. lia.
  - cbn [PyStr.digits_go].
    assert (Hdm : n = 10 * (n / 10) + n mod 10)
      by (apply N.div_mod; discriminate).
    destruct (N.eqb_spec (n / 10) 0) as [E|E].
    + cbn. unfold PyStr.digit_step. rewrite E in Hdm.
      generalize dependent (n mod 10). intros r Hr. lia.
    + rewrite digits_go_app, fold_left_app. cbn [fold_left].
      rewrite IH.
      * unfold PyStr.digit_step.
        generalize dependent (n mod 10). generalize dependent (n / 10).
        intros q _ r Hr. lia.
      * rewrite Nat2N.inj_succ, N.pow_succ_r' in Hn.
        apply N.Div0.div_lt_upper_bound. exact Hn.
Qed.

Lemma str_of_N_fuel (n : N) : (n < 10 ^ N.of_nat (S (N.to_nat (N.log2 n))))%N.
Proof.
  rewrite Nat2N.inj_succ, N2Nat.id.
  destruct (N.eq_dec n 0) as [->|Hn]; [reflexivity|].
  destruct (N.log2_spec n) as [_ Hlt]; [lia|].
  eapply N.lt_le_trans; [exact Hlt|].
  apply N.pow_le_mono_l. lia.
Qed.

Lemma str_of_N_digits (n : N) :
  Forall (fun ch => PyStr.isdigit ch = true) (PyStr.str_of_N n).
Proof. apply digits_go_digits. Qed.

Lemma str_of_N_nonempty (n : N) : PyStr.str_of_N n <> [].
Proof. apply digits_go_nonempty. Qed.

Lemma str_of_N_value (n : N) :
  fold_left PyStr.digit_step (PyStr.str_of_N n) 0%N = n.
Proof. apply digits_go_value, str_of_N_fuel. Qed.

(** A run of digits is read by Horner's rule. *)
Lemma parse_digits_run (ds : str) : forall (prev : bool) (acc : N),
  Forall (fun ch => PyStr.isdigit ch = true) ds ->
  ds <> [] ->
  PyStr.parse_digits prev acc ds = Some (fold_left PyStr.digit_step ds acc).
Proof.
  induction ds as [|d ds IH]; intros prev acc Hds Hne; [congruence|].
  inversion Hds as [|? ? Hd Hds']; subst.
  cbn [PyStr.parse_digits fold_left]. rewrite Hd.
  destruct ds as [|d' ds']; [reflexivity|].
  now apply IH.
Qed.

Lemma isdigit_range (ch : char) :
  PyStr.isdigit ch = true -> (48 <= ch <= 57)%N.
Proof.
  unfold PyStr.isdigit. intros H. apply andb_prop in H as [H1 H2].
  apply N.leb_le in H1, H2. lia.
Qed.

Lemma isdigit_not_space (ch : char) :
  PyStr.isdigit ch = true -> PyStr.isspace_c ch = false.
Proof.
  intros H. apply isdigit_range in H. unfold PyStr.isspace_c.
  repeat match goal with
         | |- (_ || _) = false => apply orb_false_intro
         | |- (_ && _) = false => apply andb_false_iff
         end;
  try (apply N.eqb_neq; lia);
  try (left; apply N.leb_gt; lia); try (right; apply N.leb_gt; lia).
Qed.

Lemma lstrip_digits (ds : str) :
  Forall (fun ch => PyStr.isdigit ch = true) ds -> PyStr.lstrip_c ds = ds.
Proof.
  destruct ds as [|d ds]; [reflexivity|]. intros H.
  inversion H; subst. cbn. now rewrite isdigit_not_space.
Qed.

Lemma to_ascii_digits (ds : str) :
  Forall (fun ch => PyStr.isdigit ch = true) ds -> map PyStr.to_ascii ds = ds.
Proof.
  induction 1 as [|d ds Hd _ IH]; [reflexivity|]. cbn [map]. rewrite IH.
  apply isdigit_range in Hd. unfold PyStr.to_ascii.
  destruct (N.ltb_spec d 127); [reflexivity|lia].
Qed.

Lemma strip_digits (ds : str) :
  Forall (fun ch => PyStr.isdigit ch = true) ds ->
  PyStr.rstrip_c (PyStr.lstrip_c (map PyStr.to_ascii ds)) = ds.
Proof.
  intros H. unfold PyStr.rstrip_c.
  rewrite (to_ascii_digits ds H), (lstrip_digits ds H).
  rewrite lstrip_digits by (now apply Forall_rev).
  apply rev_involutive.
Qed.

(** [int(str(n)) == n] for a natural number. *)
Lemma int_str_of_N (n : N) : PyStr.int (PyStr.str_of_N n) = Val (Z.of_N n).
Proof.
  unfold PyStr.int. rewrite strip_digits by apply str_of_N_digits.
  pose proof (str_of_N_digits n) as Hd.
  pose proof (str_of_N_nonempty n) as Hne.
  pose proof (str_of_N_value n) as Hv.
  destruct (PyStr.str_of_N n) as [|d ds]; [congruence|].
  pose proof Hd as Hd'. apply Forall_cons in Hd' as [Hd0 _].
  apply isdigit_range in Hd0.
  destruct (N.eqb_spec d 43); [lia|]. destruct (N.eqb_spec d 45); [lia|].
  rewrite parse_digits_run by (assumption || discriminate).
  cbn [fmap option_fmap option_map of_option]. now rewrite Hv.
Qed.

End decimal.

Lemma int_str_of_Z (z : Z) : 0 <= z -> PyStr.int (PyStr.str_of_Z z) = Val z.
Proof.
  intros Hz. unfold PyStr.str_of_Z.
  destruct (Z.ltb_spec z 0); [lia|].
  rewrite int_str_of_N. f_equal. lia.
Qed.

(** ** Indexing *)

Lemma norm_index_0 {A} (x : A) (l : list A) :
  PySeq.norm_index (x :: l) 0 = Some 0%nat.
Proof.
  unfold PySeq.norm_index. cbn [length].
  destruct (Z.ltb_spec 0 (Z.of_nat (S (length l)))); [reflexivity|lia].
Qed.

Lemma getitem_0 {A} (x : A) (l : list A) : PySeq.getitem (x :: l) 0 = Val x.
Proof. unfold PySeq.getitem. now rewrite norm_index_0. Qed.

Lemma getitem_1 {A} (x y : A) (l : list A) :
  PySeq.getitem (x :: y :: l) 1 = Val y.
Proof.
  unfold PySeq.getitem, PySeq.norm_index. cbn [length].
  destruct (Z.ltb_spec 1 (Z.of_nat (S (S (length l))))); [reflexivity|lia].
Qed.

(** ** Identities *)

Lemma hexchar_plain (d : N) : (d < 16)%N -> plain (Sha1.hexchar d).
Proof.
  intros Hd. unfold plain, Sha1.hexchar.
  destruct (N.ltb_spec d 10); lia.
Qed.

Lemma hex32_plain (w : N) : Forall plain (Sha1.hex32 w).
Proof.
  unfold Sha1.hex32. apply Forall_map, Forall_forall. intros k _. cbn beta.
  apply hexchar_plain, N.mod_upper_bound. discriminate.
Qed.

Lemma hexdigest_plain (msg : list N) : Forall plain (Sha1.hexdigest msg).
Proof.
  unfold Sha1.hexdigest. cbv zeta.
  repeat (apply Forall_app; split); apply hex32_plain.
Qed.

Lemma digits_plain (ds : str) :
  Forall (fun ch => PyStr.isdigit ch = true) ds -> Forall plain ds.
Proof.
  intros Hds. eapply Forall_impl; [exact Hds|].
  intros ch H. apply isdigit_range in H. unfold plain. lia.
Qed.

Lemma str_of_Z_plain (z : Z) : 0 <= z -> Forall plain (PyStr.str_of_Z z).
Proof.
  intros Hz. unfold PyStr.str_of_Z. destruct (Z.ltb_spec z 0); [lia|].
  apply digits_plain, str_of_N_digits.
Qed.

(** An identity made of a plain line number and a plain hash parses
    into the two. *)
Lemma split_uid_parts (number hash fqdn : str) :
  Forall plain number -> Forall plain hash ->
  Remind.split_uid (number ++ py "-" ++ hash ++ py "@" ++ fqdn)
  = Val [number; hash].
Proof.
  intros Hn Hh. unfold Remind.split_uid.
  change (py "@" ++ fqdn) with (64%N :: fqdn).
  change (py "-" ++ hash ++ 64%N :: fqdn) with (45%N :: (hash ++ 64%N :: fqdn)).
  replace (number ++ 45%N :: hash ++ 64%N :: fqdn)
    with ((number ++ 45%N :: hash) ++ 64%N :: fqdn)
    by (now rewrite <- app_assoc).
  change (py "@") with [64%N]. rewrite split_piece.
  - rewrite getitem_0. cbn [mbind outcome_bind].
    change (py "-") with [45%N]. rewrite split_piece, split_last.
    + reflexivity.
    + eapply Forall_impl; [exact Hh|]. intros ch [H _]. exact H.
    + eapply Forall_impl; [exact Hn|]. intros ch [H _]. exact H.
  - apply Forall_app; split; [|constructor; [discriminate|]];
      (eapply Forall_impl; [eassumption|]); intros ch [_ H]; exact H.
Qed.

(** * The identity of a line *)

(** C5. For every positive line number [n], every line text and every
    host name, the identity [_gen_uid] makes parses back: splitting off
    what follows the at sign and splitting the rest at the hyphen gives
    the decimal numeral of [n], which [int] reads as [n], and the SHA-1
    digest of the UTF-8 bytes of the text. *)
Theorem gen_uid_roundtrip (fqdn text : str) (n : Z) :
  0 < n ->
  Remind.split_uid (Remind._gen_uid fqdn (PyStr.str_of_Z n) text)
  = Val [PyStr.str_of_Z n; Sha1.hexdigest (Sha1.encode_utf8 text)]
  /\ PyStr.int (PyStr.str_of_Z n) = Val n.
Proof.
  intros Hn. split.
  - unfold Remind._gen_uid, sha1_hex. apply split_uid_parts.
    + apply str_of_Z_plain. lia.
    + apply hexdigest_plain.
  - apply int_str_of_Z. lia.
Qed.

Lemma gen_uid_roundtrip_witness :
  0 < 12
  /\ Remind.split_uid
       (Remind._gen_uid (py "host.example.org") (PyStr.str_of_Z 12)
          (py "REM Jan 1 2024 MSG Meeting"))
     = Val [PyStr.str_of_Z 12;
            Sha1.hexdigest (Sha1.encode_utf8 (py "REM Jan 1 2024 MSG Meeting"))]
  /\ PyStr.int (PyStr.str_of_Z 12) = Val 12.
Proof.
  split; [lia|].
  apply (gen_uid_roundtrip (py "host.example.org")
           (py "REM Jan 1 2024 MSG Meeting") 12).
  lia.
Defined.

(** * Mutations of a file *)

Lemma run_bind {S A B} (m : prog S A) (f : A -> prog S B) (s : S) :
  (m ≫= f) s
  = match m s with
    | (Val a, s') => f a s'
    | (Exn e, s') => (Exn e, s')
    | (Hang, s') => (Hang, s')
    end.
Proof. reflexivity. Qed.

Lemma run_get {S B} (f : S -> prog S B) (s : S) : (get ≫= f) s = f s s.
Proof. reflexivity. Qed.

Lemma run_lift {S A B} (o : outcome A) (f : A -> prog S B) (s : S) :
  (lift o ≫= f) s
  = match o with
    | Val a => f a s
    | Exn e => (Exn e, s)
    | Hang => (Hang, s)
    end.
Proof. now destruct o. Qed.

Section mutation.

Import Remind.

Lemma set_lock_twice (b : bool) (w : world) :
  _lock (obj w) = b -> set_lock b (set_lock (negb b) w) = w.
Proof. destruct w as [[tz l ic] d]. cbn. now intros ->. Qed.

Lemma set_lock_written (w : world) (d : gmap str str) :
  _lock (obj w) = false ->
  set_lock false (World (obj (set_lock true w)) d) = World (obj w) d.
Proof. destruct w as [[tz l ic] d0]. cbn. now intros ->. Qed.

Lemma remove_guards (w : world) (name filename u0 u1 : str) (n : Z) :
  known filename w = true ->
  split_uid name = Val [u0; u1] ->
  PyStr.int u0 = Val n ->
  remove name filename w =
  locked_update filename w (fun rem =>
    text ← PySeq.getitem rem (n - 1);
    if PyStr.eqb (sha1_hex text) u1
    then Some <$> PySeq.delitem rem (n - 1)
    else Val None).
Proof.
  intros Hk Hs Hn. unfold remove, locked_update.
  rewrite run_get, Hk. cbn [negb].
  rewrite run_lift, Hs. cbn [length Nat.eqb negb].
  rewrite run_lift, getitem_0. cbn [mbind outcome_bind]. rewrite Hn.
  cbn [mbind outcome_bind].
  rewrite run_bind. unfold acquire at 1.
  destruct (_lock (obj w)) eqn:Hl; [reflexivity|].
  rewrite run_bind. unfold readlines at 1. cbn [disk set_lock].
  destruct (disk w !! filename) as [content|]; [|reflexivity].
  rewrite run_lift.
  destruct (PySeq.getitem _ (n - 1)) as [text| |]; try reflexivity.
  rewrite run_lift, getitem_1. rewrite run_bind. cbn [mbind outcome_bind].
  destruct (PyStr.eqb (sha1_hex text) u1).
  - rewrite run_lift. destruct (PySeq.delitem _ (n - 1)); try reflexivity.
    cbn [fmap outcome_fmap]. unfold writelines, release.
    cbn [obj disk]. now rewrite set_lock_written.
  - cbn [fmap outcome_fmap mret prog_ret]. unfold release. f_equal.
    now apply (set_lock_twice false).
Qed.

Lemma replace_guards (w : world) (name filename u0 u1 : str)
    (ical : outcome (list vevent)) (n : Z) :
  known filename w = true ->
  split_uid name = Val [u0; u1] ->
  PyStr.int u0 = Val n ->
  replace name ical filename w =
  locked_update filename w (fun rem =>
    text ← PySeq.getitem rem (n - 1);
    if PyStr.eqb (sha1_hex text) u1 then
      events ← ical;
      new ← (to_reminds (obj w) None None events).1;
      Some <$> PySeq.setitem rem (n - 1) new
    else Val None).
Proof.
  intros Hk Hs Hn. unfold replace, locked_update.
  rewrite run_get, Hk. cbn [negb].
  rewrite run_lift, Hs. cbn [length Nat.eqb negb].
  rewrite run_lift, getitem_0. cbn [mbind outcome_bind]. rewrite Hn.
  cbn [mbind outcome_bind].
  rewrite run_bind. unfold acquire at 1.
  destruct (_lock (obj w)) eqn:Hl; [reflexivity|].
  rewrite run_bind. unfold readlines at 1. cbn [disk set_lock].
  destruct (disk w !! filename) as [content|]; [|reflexivity].
  rewrite run_lift.
  destruct (PySeq.getitem _ (n - 1)) as [text| |]; try reflexivity.
  rewrite run_lift, getitem_1. rewrite run_bind. cbn [mbind outcome_bind].
  destruct (PyStr.eqb (sha1_hex text) u1).
  - rewrite run_lift. destruct ical as [events| |]; try reflexivity.
    cbn [mbind outcome_bind]. rewrite run_lift.
    destruct (to_reminds _ None None events).1 as [new| |]; try reflexivity.
    cbn [mbind outcome_bind]. rewrite run_lift.
    destruct (PySeq.setitem _ (n - 1) new); try reflexivity.
    cbn [fmap outcome_fmap]. unfold writelines, release.
    cbn [obj disk]. now rewrite set_lock_written.
  - cbn [fmap outcome_fmap mret prog_ret]. unfold release. f_equal.
    now apply (set_lock_twice false).
Qed.


Lemma norm_index_beyond {A} (l : list A) (i : Z) :
  Z.of_nat (length l) <= i -> PySeq.norm_index l i = None.
Proof.
  intros Hi. unfold PySeq.norm_index.
  destruct (Z.leb_spec 0 i); [|lia].
  destruct (Z.ltb_spec i (Z.of_nat (length l))); [lia|].
  destruct (Z.ltb_spec i 0); [lia|]. reflexivity.
Qed.

Lemma norm_index_minus_1 {A} (l : list A) (x : A) :
  PySeq.norm_index (l ++ [x]) (-1) = Some (length l).
Proof.
  unfold PySeq.norm_index. rewrite length_app. cbn [length andb Z.leb Z.opp Z.ltb Z.compare].
  destruct (Z.leb_spec (- Z.of_nat (length l + 1)) (-1)); [|lia].
  cbn [andb]. f_equal. lia.
Qed.

Lemma getitem_minus_1 {A} (l : list A) (x : A) :
  PySeq.getitem (l ++ [x]) (-1) = Val x.
Proof.
  unfold PySeq.getitem. rewrite norm_index_minus_1.
  now rewrite list_lookup_middle.
Qed.

Lemma delitem_minus_1 {A} (l : list A) (x : A) :
  PySeq.delitem (l ++ [x]) (-1) = Val l.
Proof.
  unfold PySeq.delitem. rewrite norm_index_minus_1. f_equal.
  rewrite delete_middle. apply app_nil_r.
Qed.

Lemma setitem_minus_1 {A} (l : list A) (x y : A) :
  PySeq.setitem (l ++ [x]) (-1) y = Val (l ++ [y]).
Proof.
  unfold PySeq.setitem. rewrite norm_index_minus_1. f_equal.
  rewrite <- (Nat.add_0_r (length l)). now rewrite insert_app_r.
Qed.

Lemma eqb_eq (a b : str) : PyStr.eqb a b = true <-> a = b.
Proof.
  revert b. induction a as [|x a IH]; intros [|y b]; cbn; try easy.
  rewrite andb_true_iff, N.eqb_eq, IH. split.
  - now intros [-> ->].
  - intros E. now inversion E.
Qed.

Lemma eqb_refl (s : str) : PyStr.eqb s s = true.
Proof. now apply eqb_eq. Qed.

Lemma eqb_neq (a b : str) : a <> b -> PyStr.eqb a b = false.
Proof.
  intros H. destruct (PyStr.eqb a b) eqn:E; [|reflexivity].
  now apply eqb_eq in E.
Qed.

End mutation.

(** C6. A call of [remove] or [replace] on a known file, with an
    identity that splits in two parts and whose hash part is not the
    SHA-1 digest of the line it addresses, leaves every file as it was;
    when the lock is free the call returns and leaves the whole state
    as it was. *)
Theorem stale_identity_leaves_file (w : Remind.world)
    (name filename u0 u1 content text : str) (ical : outcome (list vevent))
    (n : Z) :
  Remind.known filename w = true ->
  Remind.split_uid name = Val [u0; u1] ->
  PyStr.int u0 = Val n ->
  Remind.disk w !! filename = Some content ->
  PySeq.getitem (PyStr.splitlines_keepends content) (n - 1) = Val text ->
  sha1_hex text <> u1 ->
  Remind.disk (Remind.remove name filename w).2 = Remind.disk w
  /\ Remind.disk (Remind.replace name ical filename w).2 = Remind.disk w
  /\ (Remind._lock (Remind.obj w) = false ->
      Remind.remove name filename w = (Val tt, w)
      /\ Remind.replace name ical filename w = (Val tt, w)).
Proof.
  intros Hk Hs Hn Hf Ht Hh.
  rewrite (remove_guards w name filename u0 u1 n Hk Hs Hn).
  rewrite (replace_guards w name filename u0 u1 ical n Hk Hs Hn).
  unfold Remind.locked_update. rewrite Hf, Ht. cbn [mbind outcome_bind].
  rewrite (eqb_neq _ _ Hh).
  destruct (Remind._lock (Remind.obj w)); repeat split; congruence.
Qed.

(** C9, refuted as stated. On the file of two lines [remove] with the
    identity [5-0123abcd@host] raises [IndexError] and leaves the lock
    held. Later mutations need not block: [remove] and [replace] with
    an identity of three parts return at the second guard, [append] to
    a file the object does not know returns at the first, and
    [remove] with a line number that is no numeral raises
    [ValueError]. *)
Lemma later_call_returns_counterexample :
  let failed :=
    Remind.remove (py "5-0123abcd@host") Sample.file Sample.world in
  failed.1 = Exn IndexError
  /\ Remind._lock (Remind.obj failed.2) = true
  /\ Remind.remove (py "a-b-c@host") Sample.file failed.2
     = (Val tt, failed.2)
  /\ Remind.replace (py "a-b-c@host") (Val [Sample.dentist]) Sample.file
       failed.2
     = (Val tt, failed.2)
  /\ Remind.append (Val [Sample.dentist]) (py "other.rem") failed.2
     = (Val tt, failed.2)
  /\ Remind.remove (py "abc-def@host") Sample.file failed.2
     = (Exn ValueError, failed.2).
Proof. vm_compute. repeat split. Qed.

(** C9, amended. A call of [remove] or [replace] on a known file, the
    lock free, whose identity splits in two parts with a line number
    above the number of lines of the file raises [IndexError] once the
    lock is taken: the lock stays held, no file is written, and from
    then on every [append] to a known file and every [remove] or
    [replace] on a known file that passes its guards never returns. *)
Theorem missing_line_keeps_lock (w : Remind.world)
    (name filename u0 u1 content : str) (ical : outcome (list vevent))
    (n : Z) :
  Remind.known filename w = true ->
  Remind._lock (Remind.obj w) = false ->
  Remind.split_uid name = Val [u0; u1] ->
  PyStr.int u0 = Val n ->
  Remind.disk w !! filename = Some content ->
  Z.of_nat (length (PyStr.splitlines_keepends content)) < n ->
  let w' := Remind.set_lock true w in
  Remind.remove name filename w = (Exn IndexError, w')
  /\ Remind.replace name ical filename w = (Exn IndexError, w')
  /\ Remind._lock (Remind.obj w') = true
  /\ Remind.disk w' = Remind.disk w
  /\ (forall (filename' : str) (later : outcome (list vevent)),
        Remind.known filename' w = true ->
        Remind.append later filename' w' = (Hang, w')
        /\ forall (name' v0 v1 : str) (m : Z),
             Remind.split_uid name' = Val [v0; v1] ->
             PyStr.int v0 = Val m ->
             Remind.remove name' filename' w' = (Hang, w')
             /\ Remind.replace name' later filename' w' = (Hang, w')).
Proof.
  intros Hk Hl Hs Hn Hf Hlen w'.
  assert (Hget : PySeq.getitem (PyStr.splitlines_keepends content) (n - 1)
                 = Exn IndexError).
  { unfold PySeq.getitem. rewrite norm_index_beyond by lia. reflexivity. }
  rewrite (remove_guards w name filename u0 u1 n Hk Hs Hn).
  rewrite (replace_guards w name filename u0 u1 ical n Hk Hs Hn).
  unfold Remind.locked_update. rewrite Hl, Hf, Hget. cbn [mbind outcome_bind].
  do 4 (split; [reflexivity|]).
  intros filename' later Hk0.
  assert (Hk' : Remind.known filename' w' = true) by exact Hk0.
  split.
  - unfold Remind.append. rewrite run_get, Hk'. reflexivity.
  - intros name' v0 v1 m H H0. split.
    + rewrite (remove_guards w' name' filename' v0 v1 m Hk' H H0).
      reflexivity.
    + rewrite (replace_guards w' name' filename' v0 v1 later m Hk' H H0).
      reflexivity.
Qed.

(** C10. The line number 0 passes the guards of [remove] and [replace]:
    the index -1 it gives addresses the last line of the file, and with
    the SHA-1 digest of that line as hash part [remove] writes the file
    back without its last line and [replace] writes it back with the
    last line replaced by the reminders of the calendar handed in. *)
Theorem zero_addresses_last_line (w : Remind.world)
    (filename fqdn content last_line new : str) (init : list str)
    (events : list vevent) :
  Remind.known filename w = true ->
  Remind._lock (Remind.obj w) = false ->
  Remind.disk w !! filename = Some content ->
  PyStr.splitlines_keepends content = init ++ [last_line] ->
  (Remind.to_reminds (Remind.obj w) None None events).1 = Val new ->
  let name := py "0" ++ py "-" ++ sha1_hex last_line ++ py "@" ++ fqdn in
  PyStr.int (py "0") = Val 0
  /\ Remind.remove name filename w
     = (Val tt,
        Remind.World (Remind.obj w)
          (<[filename := concat init]> (Remind.disk w)))
  /\ Remind.replace name (Val events) filename w
     = (Val tt,
        Remind.World (Remind.obj w)
          (<[filename := concat (init ++ [new])]> (Remind.disk w))).
Proof.
  intros Hk Hl Hf Hlines Hnew name.
  assert (Hs : Remind.split_uid name = Val [py "0"; sha1_hex last_line]).
  { apply split_uid_parts; [|apply hexdigest_plain].
    repeat constructor; discriminate. }
  assert (Hn : PyStr.int (py "0") = Val 0) by reflexivity.
  split; [exact Hn|].
  rewrite (remove_guards w name filename _ _ 0 Hk Hs Hn).
  rewrite (replace_guards w name filename _ _ (Val events) 0 Hk Hs Hn).
  unfold Remind.locked_update. rewrite Hl, Hf, Hlines.
  change (0 - 1) with (-1). rewrite getitem_minus_1.
  cbn [mbind outcome_bind]. rewrite eqb_refl, Hnew.
  cbn [mbind outcome_bind]. rewrite delitem_minus_1, setitem_minus_1.
  split; reflexivity.
Qed.

(** An identity whose line number is no numeral: [int] raises
    [ValueError] before the lock is taken, and the exception reaches
    the caller of [remove] and of [replace]; state and files stay as
    they were. *)
Lemma malformed_number_raises (w : Remind.world) (filename : str)
    (ical : outcome (list vevent)) :
  Remind.known filename w = true ->
  Remind.remove (py "abc-def@host") filename w = (Exn ValueError, w)
  /\ Remind.replace (py "abc-def@host") ical filename w = (Exn ValueError, w).
Proof.
  intros Hk. unfold Remind.remove, Remind.replace.
  rewrite !run_get, Hk. cbn [negb].
  split; reflexivity.
Qed.

Lemma stale_identity_leaves_file_witness :
  Remind.disk (Remind.remove (py "2-0123abcd@host") Sample.file Sample.world).2
  = Remind.disk Sample.world
  /\ Remind.disk
       (Remind.replace (py "2-0123abcd@host") (Val []) Sample.file
          Sample.world).2
     = Remind.disk Sample.world
  /\ (Remind._lock (Remind.obj Sample.world) = false ->
      Remind.remove (py "2-0123abcd@host") Sample.file Sample.world
      = (Val tt, Sample.world)
      /\ Remind.replace (py "2-0123abcd@host") (Val []) Sample.file
           Sample.world
         = (Val tt, Sample.world)).
Proof.
  apply (stale_identity_leaves_file Sample.world (py "2-0123abcd@host")
           Sample.file (py "2") (py "0123abcd")
           (Sample.line1 ++ Sample.line2) Sample.line2 (Val []) 2).
  - vm_compute. reflexivity.
  - vm_compute. reflexivity.
  - vm_compute. reflexivity.
  - vm_compute. reflexivity.
  - vm_compute. reflexivity.
  - vm_compute. discriminate.
Defined.

Lemma missing_line_keeps_lock_witness :
  Remind.remove (py "5-0123abcd@host") Sample.file Sample.world
  = (Exn IndexError, Remind.set_lock true Sample.world)
  /\ Remind.append (Val [Sample.dentist]) Sample.file
       (Remind.set_lock true Sample.world)
     = (Hang, Remind.set_lock true Sample.world)
  /\ Remind.remove (py "1-0123abcd@host") Sample.file
       (Remind.set_lock true Sample.world)
     = (Hang, Remind.set_lock true Sample.world).
Proof.
  pose proof (missing_line_keeps_lock Sample.world (py "5-0123abcd@host")
                Sample.file (py "5") (py "0123abcd")
                (Sample.line1 ++ Sample.line2) (Val []) 5) as H.
  cbv zeta in H.
  destruct H as (H1 & _ & _ & _ & H5).
  - vm_compute. reflexivity.
  - vm_compute. reflexivity.
  - vm_compute. reflexivity.
  - vm_compute. reflexivity.
  - vm_compute. reflexivity.
  - vm_compute. reflexivity.
  - destruct (H5 Sample.file (Val [Sample.dentist])) as [Ha Hr];
      [vm_compute; reflexivity|].
    destruct (Hr (py "1-0123abcd@host") (py "1") (py "0123abcd") 1) as [Hr1 _];
      [vm_compute; reflexivity..|].
    repeat split; assumption.
Defined.

Lemma zero_addresses_last_line_witness :
  let name :=
    py "0" ++ py "-" ++ sha1_hex Sample.line2 ++ py "@" ++ py "host" in
  Remind.remove name Sample.file Sample.world
  = (Val tt, Remind.World Sample.self {[ Sample.file := Sample.line1 ]})
  /\ Remind.replace name (Val [Sample.dentist]) Sample.file Sample.world
     = (Val tt,
        Remind.World Sample.self
          {[ Sample.file := Sample.line1 ++ py "REM Feb 2 2024 MSG Dentist
" ]}).
Proof.
  pose proof (zero_addresses_last_line Sample.world Sample.file (py "host")
                (Sample.line1 ++ Sample.line2) Sample.line2
                (py "REM Feb 2 2024 MSG Dentist
") [Sample.line1]
                [Sample.dentist]) as H.
  cbv zeta in H.
  destruct H as (_ & H1 & H2).
  - vm_compute. reflexivity.
  - vm_compute. reflexivity.
  - vm_compute. reflexivity.
  - vm_compute. reflexivity.
  - vm_compute. reflexivity.
  - cbv zeta. rewrite H1, H2. split; vm_compute; reflexivity.
Defined.

(** C7, evaluated. On the known file of the examples the identity
    [abc-def@host], whose line number is no numeral, makes [remove] and
    [replace] raise [ValueError] to their caller. *)
Theorem malformed_identity_raises :
  Remind.remove (py "abc-def@host") Sample.file Sample.world
  = (Exn ValueError, Sample.world)
  /\ Remind.replace (py "abc-def@host") (Val []) Sample.file Sample.world
     = (Exn ValueError, Sample.world).
Proof.
  apply malformed_number_raises. vm_compute. reflexivity.
Qed.

(** * One expansion record, end to end *)

(** C4, refuted as stated. The record of the claim has its date
    written month/day/year, so [date(1, 1, 2024)] raises [ValueError];
    with the date written as remind writes it the record still has an
    asterisk in field 8, and gives an all-day event without alarm. *)
Lemma expansion_record_counterexample :
  Remind._parse_remind Sample.self (py "host") (Remind.disk Sample.world)
    (py "# 1 1 mylife.rem 1/1/2024 * * 600 * Meeting at Office") []
  = Exn ValueError
  /\ Remind._parse_remind Sample.self (py "host") (Remind.disk Sample.world)
       (py "# 1 1 mylife.rem 2024/1/1 * * 600 * Meeting at Office") []
     = Val [(py "mylife.rem",
             [VEvent (Some (D (Date 738886))) (Some (D (Date 738887))) None
                (Some (py "Meeting"))
                (Some (Remind._gen_uid (py "host") (py "1") Sample.line1))
                (Some (py "Office")) None [] [] []])].
Proof. split; vm_compute; reflexivity. Qed.

(** One step of a computation in [outcome] whose first action is
    evaluated on the spot. *)
Ltac ostep :=
  match goal with
  | |- (?m ≫= ?f) = _ =>
      let v := eval vm_compute in m in
      replace m with v; [cbn [mbind outcome_bind]|vm_compute; reflexivity]
  end.

Section timed_record.

Import Remind.

Lemma parse_timed_line (self : t) (fqdn text : str) :
  _parse_remind_line self fqdn Sample.timed_fields text
  = Val (Event [Sample.timed_start self] None (py "Meeting") (Some (py "Office"))
           (if PyStr.contains delimiter text
            then Some (_gen_description text) else None)
           (_gen_uid fqdn (py "1") text)).
Proof.
  unfold _parse_remind_line. do 4 ostep.
  match goal with
  | |- context [split_msg ?x] =>
      replace (split_msg x) with (py "Meeting", Some (py "Office"))
        by (vm_compute; reflexivity)
  end.
  cbv beta iota zeta. ostep. reflexivity.
Qed.

End timed_record.

(** C4, amended. The record with the date written year/month/day, an
    asterisk as duration (field 7), 600 as time of day (field 8), the
    printed time in field 9 and the message from field 10 on gives one
    timed event: summary Meeting, location Office, start 2024-01-01
    10:00 in the zone of the object, one DISPLAY alarm ten minutes
    before, no duration, no rule, and an end equal to the start. *)
Theorem expansion_record_timed (self : Remind.t) (fqdn content text : str)
    (disk : gmap str str) :
  disk !! py "mylife.rem" = Some content ->
  PySeq.getitem (PyStr.splitlines_keepends content) 0 = Val text ->
  let start :=
    DT (DateTime (Date 738886) 36000 (Some (Remind._localtz self))) in
  date_new 2024 1 1 = Val (Date 738886)
  /\ Remind._parse_remind self fqdn disk
       (py "# 1 1 mylife.rem 2024/1/1 * * * 600 10:00am Meeting at Office") []
     = Val [(py "mylife.rem",
             [VEvent (Some start) (Some start) None (Some (py "Meeting"))
                (Some (Remind._gen_uid fqdn (py "1") text))
                (Some (py "Office"))
                (if PyStr.contains Remind.delimiter text
                 then Some (Remind._gen_description text) else None)
                [VAlarm (timedelta_minutes (-10)) (py "DISPLAY")
                        (py "Meeting")]
                [] []])].
Proof.
  intros Hdisk Htext start. split; [reflexivity|].
  assert (Hsrc : Remind.read_source disk [] (py "mylife.rem")
                 = Val (PyStr.splitlines_keepends content)).
  { unfold Remind.read_source. now rewrite Hdisk. }
  unfold Remind._parse_remind.
  destruct (py "# 1 1 mylife.rem 2024/1/1 * * * 600 10:00am Meeting at Office")
    as [|c0 rest] eqn:E; [discriminate E|]. rewrite <- E. clear c0 rest E.
  replace (PyStr.split (Remind.newline ++ py "#")
             (py "# 1 1 mylife.rem 2024/1/1 * * * 600 10:00am Meeting at Office"))
    with [py "# 1 1 mylife.rem 2024/1/1 * * * 600 10:00am Meeting at Office"]
    by (vm_compute; reflexivity).
  cbn [Remind._parse_remind_loop]. unfold Remind._parse_remind_record.
  replace (PyStr.split (py " ")
             (PyStr.rstrip
                (PyStr.replace Remind.newline (py " ")
                   (py "# 1 1 mylife.rem 2024/1/1 * * * 600 10:00am Meeting at Office"))))
    with Sample.timed_fields by (vm_compute; reflexivity).
  change (PySeq.getitem Sample.timed_fields 3) with (Val (py "mylife.rem")).
  cbn [mbind outcome_bind Remind.alist_get].
  rewrite Hsrc. cbn [mbind outcome_bind Remind.alist_set Remind.alist_get].
  rewrite !eqb_refl. cbn [of_option mbind outcome_bind].
  change (PySeq.getitem Sample.timed_fields 2) with (Val (py "1")).
  cbn [mbind outcome_bind].
  change (PyStr.int (py "1")) with (Val 1). cbn [mbind outcome_bind].
  change (1 - 1) with 0. rewrite Htext. cbn [mbind outcome_bind].
  rewrite parse_timed_line.
  cbn [of_option mbind outcome_bind Remind.alist_get Remind.alist_set
       Remind.ev_uid snd fst omap].
  unfold Remind._gen_vevent.
  cbn [Remind.ev_dtstart Remind.ev_msg Remind.ev_uid Remind.ev_location
       Remind.ev_description Remind.ev_duration].
  unfold Sample.timed_start. rewrite getitem_0.
  destruct (PyStr.contains Remind.delimiter text); reflexivity.
Qed.

Lemma expansion_record_timed_witness :
  Remind._parse_remind Sample.self (py "host") (Remind.disk Sample.world)
    (py "# 1 1 mylife.rem 2024/1/1 * * * 600 10:00am Meeting at Office") []
  = Val [(py "mylife.rem",
          [VEvent
             (Some (DT (DateTime (Date 738886) 36000 (Some Sample.tz))))
             (Some (DT (DateTime (Date 738886) 36000 (Some Sample.tz))))
             None (Some (py "Meeting"))
             (Some (Remind._gen_uid (py "host") (py "1") Sample.line1))
             (Some (py "Office")) None
             [VAlarm (timedelta_minutes (-10)) (py "DISPLAY") (py "Meeting")]
             [] []])].
Proof.
  apply (proj2 (expansion_record_timed Sample.self (py "host")
                  (Sample.line1 ++ Sample.line2) Sample.line1
                  (Remind.disk Sample.world)
                  ltac:(vm_compute; reflexivity)
                  ltac:(vm_compute; reflexivity))).
Defined.

(** * Recurrence inference *)

Section occurrences.

Lemma same_tz_keys (a b : tzinfo) :
  tz_key a = tz_key b -> same_tz a b = true.
Proof. intros E. unfold same_tz. now apply eqb_eq. Qed.

(** Occurrences of one kind are compared and subtracted on their wall
    clock readings. *)
Lemma readings_kind (x y : datetime) :
  kind (DT x) = kind (DT y) ->
  readings x y = Val (naive_seconds x, naive_seconds y).
Proof.
  unfold kind, readings. intros E.
  destruct (dt_tzinfo x) as [zx|], (dt_tzinfo y) as [zy|]; try discriminate E.
  - cbn in E. rewrite same_tz_keys by congruence. reflexivity.
  - reflexivity.
Qed.

Lemma lt_kind (a b : dtvalue) :
  kind a = kind b -> lt a b = Val (stamp a <? stamp b).
Proof.
  destruct a as [x|x], b as [y|y]; intros E; try discriminate E.
  - cbn. f_equal.
    destruct (Z.ltb_spec (toordinal x) (toordinal y)),
             (Z.ltb_spec (toordinal x * 86400) (toordinal y * 86400));
      (reflexivity || lia).
  - cbn [lt stamp]. now rewrite readings_kind.
Qed.

Lemma sub_kind (a b : dtvalue) :
  kind a = kind b -> sub a b = Val (Timedelta (stamp a - stamp b)).
Proof.
  destruct a as [x|x], b as [y|y]; intros E; try discriminate E.
  - cbn. unfold timedelta_days. do 2 f_equal. lia.
  - cbn [sub stamp]. now rewrite readings_kind.
Qed.

Lemma uniform_tail (a : dtvalue) (l : list dtvalue) :
  uniform (a :: l) -> uniform l.
Proof. intros H x y Hx Hy. apply H; now right. Qed.

Lemma uniform_swap (a b : dtvalue) (l : list dtvalue) :
  uniform (a :: b :: l) -> uniform (a :: l).
Proof.
  intros H x y Hx Hy. apply H.
  - apply elem_of_cons in Hx as [->|Hx]; [now left|now do 2 right].
  - apply elem_of_cons in Hy as [->|Hy]; [now left|now do 2 right].
Qed.

Lemma gaps_stamp (td : timedelta) (a b : dtvalue) (l : list dtvalue) :
  uniform (a :: b :: l) -> gaps td (a :: b :: l) ->
  stamp b = stamp a + total_seconds td.
Proof.
  intros Hu [Hab _]. rewrite sub_kind in Hab.
  - injection Hab as <-. cbn. lia.
  - apply Hu; [apply list_elem_of_further, list_elem_of_here
              |apply list_elem_of_here].
Qed.

Lemma last_cons_default {A} (l : list A) : forall (a b : A),
  List.last (b :: l) a = List.last l b.
Proof.
  induction l as [|c l IH]; intros a b; [reflexivity|].
  change (List.last (b :: c :: l) a) with (List.last (c :: l) a).
  now rewrite (IH a c), (IH b c).
Qed.

(** In a list with a positive gap every later occurrence is later. *)
Lemma gaps_later (td : timedelta) (l : list dtvalue) : forall a,
  0 <= total_seconds td ->
  uniform (a :: l) -> gaps td (a :: l) ->
  Forall (fun x => stamp a <= stamp x) l.
Proof.
  induction l as [|b l IH]; intros a Htd Hu Hg; [constructor|].
  pose proof (gaps_stamp td a b l Hu Hg) as Hb.
  constructor; [lia|].
  specialize (IH b Htd (uniform_tail _ _ Hu) (proj2 Hg)).
  eapply Forall_impl; [exact IH|]. cbn. intros x Hx. lia.
Qed.

Lemma max_go_gaps (td : timedelta) (l : list dtvalue) : forall a,
  0 < total_seconds td ->
  uniform (a :: l) -> gaps td (a :: l) ->
  DateTime.max_go a l = Val (List.last l a)
  /\ stamp (List.last l a) = stamp a + total_seconds td * Z.of_nat (length l).
Proof.
  induction l as [|b l IH]; intros a Htd Hu Hg.
  - cbn. split; [reflexivity|lia].
  - pose proof (gaps_stamp td a b l Hu Hg) as Hb.
    cbn [DateTime.max_go]. rewrite lt_kind
      by (apply Hu; [apply list_elem_of_here
                    |apply list_elem_of_further, list_elem_of_here]).
    destruct (Z.ltb_spec (stamp a) (stamp b)); [|lia].
    cbn [mbind outcome_bind].
    destruct (IH b Htd (uniform_tail _ _ Hu) (proj2 Hg)) as [Hm Hs].
    rewrite last_cons_default. split; [exact Hm|].
    rewrite Hs, Hb. cbn [length]. lia.
Qed.

Lemma min_go_later (l : list dtvalue) : forall a,
  uniform (a :: l) -> Forall (fun x => stamp a <= stamp x) l ->
  DateTime.min_go a l = Val a.
Proof.
  induction l as [|b l IH]; intros a Hu Hl; [reflexivity|].
  apply Forall_cons in Hl as [Hb Hl].
  cbn [DateTime.min_go]. rewrite lt_kind
    by (apply Hu; [apply list_elem_of_further, list_elem_of_here
                  |apply list_elem_of_here]).
  destruct (Z.ltb_spec (stamp b) (stamp a)); [lia|].
  cbn [mbind outcome_bind]. apply IH; [|exact Hl].
  eapply uniform_swap, Hu.
Qed.

(** The span between the greatest and the least occurrence of a list
    with a positive gap: the gap times the number of steps. *)
Lemma span_gaps (td : timedelta) (a : dtvalue) (l : list dtvalue) :
  0 < total_seconds td ->
  uniform (a :: l) -> gaps td (a :: l) ->
  DateTime.max (a :: l) = Val (List.last l a)
  /\ DateTime.min (a :: l) = Val a
  /\ sub (List.last l a) a
     = Val (Timedelta (total_seconds td * Z.of_nat (length l))).
Proof.
  intros Htd Hu Hg.
  destruct (max_go_gaps td l a Htd Hu Hg) as [Hm Hs].
  split; [exact Hm|]. split.
  - apply min_go_later; [exact Hu|]. eapply gaps_later; eauto. lia.
  - rewrite sub_kind.
    + do 2 f_equal. lia.
    + apply Hu; [|now left].
      clear. revert a. induction l as [|b l IH]; intros a; [now left|].
      rewrite last_cons_default. right. apply IH.
Qed.

Lemma weekly_loop_gaps (l : list dtvalue) : forall a,
  gaps (timedelta_days 7) (a :: l) -> Remind._weekly_loop a l = Val true.
Proof.
  induction l as [|b l IH]; intros a Hg; [reflexivity|].
  destruct Hg as [Hab Hg]. cbn [Remind._weekly_loop]. rewrite Hab.
  cbn [mbind outcome_bind]. change (days (timedelta_days 7) =? 7) with true.
  cbn [negb]. now apply IH.
Qed.

End occurrences.

(** * Reverse translation of an all-day span *)

Section all_day_span.

Import Remind.

Lemma days_timedelta_days (d : Z) : days (timedelta_days d) = d.
Proof. unfold days, timedelta_days. cbn. now apply Z.div_mul. Qed.

Lemma sub_td_day (e : date) :
  2 <= toordinal e <= max_ordinal + 1 ->
  sub_td (D e) (timedelta_days 1) = Val (D (Date (toordinal e - 1))).
Proof.
  intros He. unfold sub_td, add. cbn [total_seconds timedelta_days].
  change (days (Timedelta (- (1 * 86400)))) with (-1).
  replace (toordinal e + -1) with (toordinal e - 1) by lia.
  destruct (Z.leb_spec 1 (toordinal e - 1)); [|lia].
  destruct (Z.leb_spec (toordinal e - 1) max_ordinal); [|lia].
  reflexivity.
Qed.

Lemma run_put {S B} (s' : S) (f : unit -> prog S B) (s : S) :
  (put s' ≫= f) s = f tt s'.
Proof. reflexivity. Qed.

Lemma run_ret {S A B} (a : A) (f : A -> prog S B) (s : S) :
  (mret a ≫= f) s = f a s.
Proof. reflexivity. Qed.

(** What [to_remind] emits for an all-day event with an end and
    neither rule nor explicit dates, and what it leaves of the event. *)
Lemma to_remind_clauses_all_day (self : t) (label : option str)
    (priority : option Z) (ve : vevent) (s e : date) (msg : list str) :
  dtstart ve = Some (D s) -> dtend ve = Some (D e) ->
  rrule_list ve = [] -> rdate_list ve = [] ->
  _gen_msg ve label = Val msg ->
  valid_date s -> valid_date e ->
  to_remind_clauses self label priority ve
  = if 1 <? toordinal e - toordinal s then
      (Val ([py "REM"; date_clause (D s)] ++ priority_clause priority
              ++ [py "*1"; until_clause (D (Date (toordinal e - 1)))] ++ msg),
       set_dtend (D (Date (toordinal e - 1))) ve)
    else
      (Val ([py "REM"; date_clause (D s)] ++ priority_clause priority ++ msg),
       ve).
Proof.
  intros Hs He Hr Hd Hmsg Vs Ve. unfold to_remind_clauses.
  rewrite run_get, Hr, run_lift, Hd, run_lift, Hs.
  cbn [attr of_option mbind outcome_bind].
  unfold _event_duration. rewrite He, Hs, run_lift.
  cbn [attr of_option mbind outcome_bind sub].
  rewrite run_lift. cbn [is_datetime negb andb].
  rewrite days_timedelta_days.
  destruct (1 <? toordinal e - toordinal s) eqn:Hspan.
  - apply Z.ltb_lt in Hspan. rewrite run_bind, run_lift.
    rewrite sub_td_day by (unfold valid_date in *; lia).
    rewrite run_put. cbn [mret prog_ret]. rewrite run_get.
    assert (Hs' : dtstart (set_dtend (D (Date (toordinal e - 1))) ve)
                  = Some (D s)) by exact Hs.
    assert (Hd' : rdate_list (set_dtend (D (Date (toordinal e - 1))) ve) = [])
      by exact Hd.
    assert (Hm' : _gen_msg (set_dtend (D (Date (toordinal e - 1))) ve) label
                  = Val msg) by exact Hmsg.
    rewrite run_lift, Hs'. cbn [attr of_option].
    rewrite run_lift, Hd', run_lift, Hm'.
    unfold mret, prog_ret. rewrite <- ?app_assoc. reflexivity.
  - rewrite run_ret, run_get, run_lift, Hs. cbn [attr of_option].
    rewrite run_lift, Hd, run_lift, Hmsg.
    unfold mret, prog_ret. rewrite <- ?app_assoc. reflexivity.
Qed.

(** The same for every all-day event with an end, whatever its rule
    and its explicit dates; [_gen_msg] may raise. *)
Lemma to_remind_clauses_span (self : t) (label : option str)
    (priority : option Z) (ve : vevent) (s e : date) (trig : trigdates) :
  dtstart ve = Some (D s) -> dtend ve = Some (D e) ->
  valid_date s -> valid_date e ->
  trigdates_of ve = Val trig ->
  let head := clauses_before priority trig ve (D s) in
  let tail := clauses_after trig ve in
  to_remind_clauses self label priority ve
  = if 1 <? toordinal e - toordinal s then
      (msg ← _gen_msg ve label;
       Val (head ++ [py "*1"; until_clause (D (Date (toordinal e - 1)))]
              ++ tail ++ msg),
       set_dtend (D (Date (toordinal e - 1))) ve)
    else
      (msg ← _gen_msg ve label; Val (head ++ tail ++ msg), ve).
Proof.
  intros Hs He Vs Ve Ht head tail. unfold to_remind_clauses.
  unfold trigdates_of in Ht.
  rewrite run_get, Ht, run_lift.
  assert (Hdate :
    match rdate_list ve, trig with
    | _ :: _, _ | _, TrigStr _ => Val [py "REM"]
    | _, _ => start ← attr (dtstart ve); Val ([py "REM"] ++ [date_clause start])
    end
    = Val ([py "REM"]
             ++ match rdate_list ve, trig with
                | _ :: _, _ | _, TrigStr _ => []
                | _, _ => [date_clause (D s)]
                end)).
  { rewrite Hs. destruct (rdate_list ve), trig; reflexivity. }
  rewrite Hdate, run_lift.
  unfold _event_duration. rewrite He, Hs.
  cbn [attr of_option mbind outcome_bind sub].
  rewrite !run_lift. cbn [is_datetime negb andb].
  rewrite days_timedelta_days.
  destruct (1 <? toordinal e - toordinal s) eqn:Hspan.
  - apply Z.ltb_lt in Hspan. rewrite run_bind, run_lift.
    rewrite sub_td_day by (unfold valid_date in *; lia).
    rewrite run_put. cbn [mret prog_ret]. rewrite run_get.
    set (ve' := set_dtend (D (Date (toordinal e - 1))) ve).
    change (dtstart ve') with (dtstart ve).
    change (rdate_list ve') with (rdate_list ve).
    change (_gen_msg ve' label) with (_gen_msg ve label).
    rewrite run_lift, Hs. cbn [attr of_option].
    rewrite !run_lift.
    destruct (_gen_msg ve label) as [msg|x|]; [|reflexivity..].
    unfold mret, prog_ret. cbn [mbind outcome_bind]. f_equal. f_equal.
    subst head tail. unfold clauses_before, clauses_after.
    destruct (rdate_list ve), trig; rewrite <- ?app_assoc; reflexivity.
  - rewrite run_ret, run_get, run_lift, Hs. cbn [attr of_option].
    rewrite !run_lift.
    destruct (_gen_msg ve label) as [msg|x|]; [|reflexivity..].
    unfold mret, prog_ret. cbn [mbind outcome_bind]. f_equal. f_equal.
    subst head tail. unfold clauses_before, clauses_after.
    destruct (rdate_list ve), trig; rewrite <- ?app_assoc; reflexivity.
Qed.

End all_day_span.

Section inference.

Import Remind.

Lemma uniform_dates (dates : list date) : uniform (map D dates).
Proof.
  intros a b Ha Hb.
  apply list_elem_of_fmap in Ha as (x & -> & _).
  apply list_elem_of_fmap in Hb as (y & -> & _). reflexivity.
Qed.

Lemma getitem_last {A} (l : list A) (x : A) :
  last l = Some x -> PySeq.getitem l (-1) = Val x.
Proof.
  intros H. apply last_Some in H as [l' ->]. apply getitem_minus_1.
Qed.

Lemma last_map_Some {A B} (f : A -> B) (l : list A) (x : A) :
  last l = Some x -> last (map f l) = Some (f x).
Proof.
  intros H. apply last_Some in H as [l' ->].
  rewrite map_app. apply last_snoc.
Qed.

Lemma last_default {A} (l : list A) (a x : A) :
  last (a :: l) = Some x -> List.last l a = x.
Proof.
  revert a. induction l as [|b l IH]; intros a H.
  - cbn in *. congruence.
  - rewrite last_cons_default. apply IH. now rewrite last_cons_cons in H.
Qed.

(** The first branch of [_gen_dtend_rrule] on days that follow one
    another: the occurrences are dates, so the end is set. *)
Lemma gen_dtend_rrule_daily (dates : list date) (l : date) (e : dtvalue)
    (ve : vevent) :
  (2 <= length dates)%nat ->
  gaps (timedelta_days 1) (map D dates) ->
  last dates = Some l ->
  add (D l) (timedelta_days 1) = Val e ->
  _gen_dtend_rrule (map D dates) ve = Val (set_dtend e ve).
Proof.
  intros Hlen Hg Hl He. destruct dates as [|a rest]; [cbn in Hlen; lia|].
  pose proof (uniform_dates (a :: rest)) as Hu.
  cbn [map] in *.
  destruct (span_gaps (timedelta_days 1) (D a) (map D rest)
              ltac:(cbn; lia) Hu Hg) as (Hmax & Hmin & Hsub).
  assert (Hlast : List.last (map D rest) (D a) = D l).
  { apply last_default. change (D a :: map D rest) with (map D (a :: rest)).
    now apply last_map_Some. }
  rewrite Hlast in *.
  unfold _gen_dtend_rrule. rewrite Hmax. cbn [mbind outcome_bind].
  rewrite Hmin. cbn [mbind outcome_bind]. rewrite Hsub.
  cbn [mbind outcome_bind].
  cbn [total_seconds timedelta_days length]. rewrite length_map.
  replace (days (Timedelta (1 * 86400 * Z.of_nat (length rest))))
    with (Z.of_nat (length rest))
    by (unfold days; cbn [total_seconds];
        now rewrite Z.mul_comm, Z.mul_1_l, Z.div_mul).
  replace (Z.of_nat (S (length rest)) - 1) with (Z.of_nat (length rest)) by lia.
  rewrite Z.eqb_refl, getitem_0. cbn [mbind outcome_bind is_datetime].
  rewrite (getitem_last (D a :: map D rest) (D l)).
  - cbn [mbind outcome_bind]. rewrite He. reflexivity.
  - change (D a :: map D rest) with (map D (a :: rest)).
    now apply last_map_Some.
Qed.

(** The second branch on occurrences seven days apart: the span is
    seven days a step, never one, and [_weekly] holds. *)
Lemma gen_dtend_rrule_weekly (dtstarts : list dtvalue) (first : dtvalue)
    (ve : vevent) :
  (2 <= length dtstarts)%nat ->
  uniform dtstarts ->
  gaps (timedelta_days 7) dtstarts ->
  head dtstarts = Some first ->
  dtstart ve = Some first ->
  _gen_dtend_rrule dtstarts ve
  = Val (VEvent (dtstart ve) (dtend ve) (duration ve) (summary ve) (uid ve)
           (location ve) (description ve) (valarm_list ve)
           [counted_rule WEEKLY (Z.of_nat (length dtstarts)) first] []).
Proof.
  intros Hlen Hu Hg Hh Hs. destruct dtstarts as [|a rest]; [cbn in Hlen; lia|].
  injection Hh as ->.
  destruct (span_gaps (timedelta_days 7) first rest ltac:(cbn; lia) Hu Hg)
    as (Hmax & Hmin & Hsub).
  unfold _gen_dtend_rrule. rewrite Hmax. cbn [mbind outcome_bind].
  rewrite Hmin. cbn [mbind outcome_bind]. rewrite Hsub.
  cbn [mbind outcome_bind].
  cbn [total_seconds timedelta_days length] in *.
  replace (days (Timedelta (7 * 86400 * Z.of_nat (length rest))))
    with (7 * Z.of_nat (length rest))
    by (unfold days; cbn [total_seconds];
        replace (7 * 86400 * Z.of_nat (length rest))
          with (7 * Z.of_nat (length rest) * 86400) by lia;
        now rewrite Z.div_mul).
  destruct (Z.eqb_spec (7 * Z.of_nat (length rest))
                       (Z.of_nat (S (length rest)) - 1)) as [E|_]; [lia|].
  unfold _weekly. rewrite getitem_0. cbn [mbind outcome_bind drop].
  rewrite weekly_loop_gaps by exact Hg. cbn [mbind outcome_bind].
  unfold set_rruleset_rule. rewrite Hs. reflexivity.
Qed.

Lemma merge_nil_r (l : list datetime) : RRule.merge l [] = l.
Proof. now destruct l. Qed.

(** [_parse_rruleset] on a set of one weekly rule with a count and no
    end, tied to at most one weekday. *)
Lemma parse_rruleset_weekly (r : rrule) (n : Z) (x : datetime) :
  _freq r = WEEKLY -> _count r = Some n -> n <> 0 -> _until r = None ->
  match _byweekday r with
  | Some l => (length l <= 1)%nat
  | None => True
  end ->
  last (rule_dates r) = Some x ->
  _parse_rruleset (RRuleSet [r] [])
  = Val (TrigList [py "*7"; until_clause (DT x)]).
Proof.
  intros Hf Hc Hn Hu Hw Hx. unfold _parse_rruleset.
  cbn [_rrule]. rewrite getitem_0. cbn [mbind outcome_bind].
  rewrite Hf, Hc, Hu. change (WEEKLY =? 0) with false.
  assert (Hsev : match _byweekday r with
                 | Some l => (1 <? length l)%nat
                 | None => false
                 end = false).
  { destruct (_byweekday r) as [l|]; [|reflexivity].
    apply Nat.ltb_ge. exact Hw. }
  rewrite Hsev. change (WEEKLY =? DAILY) with false.
  change (WEEKLY =? WEEKLY) with true. cbn [negb andb mbind outcome_bind].
  destruct (Z.eqb_spec n 0) as [E|_]; [contradiction|].
  unfold set_dates. cbn [_rrule _rdate map fold_right].
  rewrite merge_nil_r, (getitem_last _ _ Hx). reflexivity.
Qed.

End inference.

(** C1. For two or more all-day occurrences on days that follow one
    another, [_gen_dtend_rrule] attaches neither rule nor explicit
    dates and sets the end of the event to the day after the last one;
    and [to_remind], on an all-day event with such an end more than one
    day after its start, emits the clause [*1] followed by [UNTIL] with
    the stored end minus one day. *)
Theorem days_in_a_row_roundtrip (self : Remind.t) (dates : list date)
    (l : date) (e : dtvalue) (ve : vevent) :
  (2 <= length dates)%nat ->
  gaps (timedelta_days 1) (map D dates) ->
  last dates = Some l ->
  add (D l) (timedelta_days 1) = Val e ->
  Remind._gen_dtend_rrule (map D dates) ve = Val (set_dtend e ve)
  /\ e = D (Date (toordinal l + 1))
  /\ rrule_list (set_dtend e ve) = rrule_list ve
  /\ rdate_list (set_dtend e ve) = rdate_list ve
  /\ forall (v : vevent) (s u : date) (label : option str)
            (priority : option Z) (msg : list str),
       dtstart v = Some (D s) -> dtend v = Some (D u) ->
       rrule_list v = [] -> rdate_list v = [] ->
       valid_date s -> valid_date u ->
       1 < toordinal u - toordinal s ->
       Remind._gen_msg v label = Val msg ->
       Remind.to_remind self label priority v
       = (Val (PyStr.join (py " ")
                 ([py "REM"; Remind.date_clause (D s)]
                    ++ Remind.priority_clause priority
                    ++ [py "*1";
                        Remind.until_clause (D (Date (toordinal u - 1)))]
                    ++ msg)
               ++ Remind.newline),
          set_dtend (D (Date (toordinal u - 1))) v).
Proof.
  intros Hlen Hg Hl He. split; [now apply (gen_dtend_rrule_daily dates l)|].
  split.
  { unfold add in He. rewrite days_timedelta_days in He.
    destruct ((1 <=? toordinal l + 1) && (toordinal l + 1 <=? max_ordinal));
      congruence. }
  do 2 (split; [reflexivity|]).
  intros v s u label priority msg Hs Hu Hr Hd Vs Vu Hspan Hmsg.
  unfold Remind.to_remind. rewrite run_bind.
  rewrite (to_remind_clauses_all_day self label priority v s u msg)
    by assumption.
  apply Z.ltb_lt in Hspan. rewrite Hspan. reflexivity.
Qed.

Lemma days_in_a_row_roundtrip_witness :
  Remind._gen_dtend_rrule
    (map D [Date 738886; Date 738887; Date 738888; Date 738889; Date 738890])
    (set_dtstart (D (Date 738886)) new_vevent)
  = Val (set_dtend (D (Date 738891))
           (set_dtstart (D (Date 738886)) new_vevent))
  /\ Remind.to_remind Sample.self None None
       (set_summary (py "Holiday")
          (set_dtend (D (Date 738891))
             (set_dtstart (D (Date 738886)) new_vevent)))
     = (Val (py "REM Jan 1 2024 *1 UNTIL Jan 5 2024 MSG Holiday
"),
        set_summary (py "Holiday")
          (set_dtend (D (Date 738890))
             (set_dtstart (D (Date 738886)) new_vevent))).
Proof.
  pose proof (days_in_a_row_roundtrip Sample.self
                [Date 738886; Date 738887; Date 738888; Date 738889;
                 Date 738890]
                (Date 738890) (D (Date 738891))
                (set_dtstart (D (Date 738886)) new_vevent)) as H.
  destruct H as (H1 & _ & _ & _ & H5).
  - cbn. lia.
  - cbn. repeat split.
  - reflexivity.
  - reflexivity.
  - split; [exact H1|].
    etransitivity.
    + apply (H5 _ (Date 738886) (Date 738891) None None
                [py "MSG"; py "Holiday"]);
        try reflexivity; unfold valid_date, max_ordinal; cbn; lia.
    + vm_compute. reflexivity.
Defined.

(** C2. For two or more occurrences of one kind, each seven days after
    the one before, [_gen_dtend_rrule] stores one rule of weekly
    frequency whose count is the number of occurrences; and
    [_parse_rruleset], on a set of one weekly rule with that count, no
    end and at most one weekday, gives exactly the clauses [*7] and
    [UNTIL] with the date of the last of the counted occurrences. *)
Theorem weekly_dates_roundtrip (dtstarts : list dtvalue) (first : dtvalue)
    (ve : vevent) :
  (2 <= length dtstarts)%nat ->
  uniform dtstarts ->
  gaps (timedelta_days 7) dtstarts ->
  head dtstarts = Some first ->
  dtstart ve = Some first ->
  let n := Z.of_nat (length dtstarts) in
  Remind._gen_dtend_rrule dtstarts ve
  = Val (VEvent (dtstart ve) (dtend ve) (duration ve) (summary ve) (uid ve)
           (location ve) (description ve) (valarm_list ve)
           [counted_rule WEEKLY n first] [])
  /\ _freq (counted_rule WEEKLY n first) = WEEKLY
  /\ _count (counted_rule WEEKLY n first) = Some n
  /\ forall (r : rrule) (nth : datetime),
       _freq r = WEEKLY -> _count r = Some n -> _until r = None ->
       match _byweekday r with
       | Some days => (length days <= 1)%nat
       | None => True
       end ->
       length (rule_dates r) = length dtstarts ->
       rule_dates r !! (length dtstarts - 1)%nat = Some nth ->
       Remind._parse_rruleset (RRuleSet [r] [])
       = Val (Remind.TrigList [py "*7"; Remind.until_clause (DT nth)]).
Proof.
  intros Hlen Hu Hg Hh Hs n.
  split; [now apply gen_dtend_rrule_weekly|].
  do 2 (split; [reflexivity|]).
  intros r nth Hf Hc Hun Hw Hl Hn.
  apply (parse_rruleset_weekly r n nth); try assumption.
  - unfold n. lia.
  - rewrite last_lookup, Hl. rewrite <- Hn. f_equal. lia.
Qed.

Lemma weekly_dates_roundtrip_witness :
  Remind._gen_dtend_rrule
    (map D [Date 738886; Date 738893; Date 738900])
    (set_dtstart (D (Date 738886)) new_vevent)
  = Val (VEvent (Some (D (Date 738886))) None None None None None None []
           [counted_rule WEEKLY 3 (D (Date 738886))] [])
  /\ Remind._parse_rruleset
       (RRuleSet [counted_rule WEEKLY 3 (D (Date 738886))] [])
     = Val (Remind.TrigList [py "*7"; py "UNTIL Jan 15 2024"]).
Proof.
  pose proof (weekly_dates_roundtrip
                (map D [Date 738886; Date 738893; Date 738900])
                (D (Date 738886))
                (set_dtstart (D (Date 738886)) new_vevent)) as H.
  cbv zeta in H. destruct H as (H1 & _ & _ & H4).
  - cbn. lia.
  - apply uniform_dates.
  - cbn. repeat split.
  - reflexivity.
  - reflexivity.
  - split; [exact H1|].
    apply (H4 (counted_rule WEEKLY 3 (D (Date 738886)))
              (DateTime (Date 738900) 0 None)); try reflexivity.
    cbn. lia.
Defined.

(** * [to_remind] changes the event it is given *)

(** C8, refuted as stated. An all-day event from 2024-01-01 with the
    end 2024-01-03 lies two days long: the first call emits [*1] and
    [UNTIL Jan 2 2024] and stores the end 2024-01-02; the second call,
    on the event the first one left, finds a span of one day and emits
    no [UNTIL] at all. *)
Lemma second_call_counterexample :
  let ve :=
    set_summary (py "Fair")
      (set_dtend (D (Date 738888))
         (set_dtstart (D (Date 738886)) new_vevent)) in
  let first := Remind.to_remind Sample.self None None ve in
  let second := Remind.to_remind Sample.self None None first.2 in
  first.1 = Val (py "REM Jan 1 2024 *1 UNTIL Jan 2 2024 MSG Fair
")
  /\ dtend first.2 = Some (D (Date 738887))
  /\ second.1 = Val (py "REM Jan 1 2024 MSG Fair
").
Proof. vm_compute. repeat split. Qed.

(** C8, amended. For every all-day event whose end lies more than one
    day after its start and whose rule, if it has one, is converted
    without an exception, [to_remind] stores the end one day earlier in
    the event it was given, also when [_gen_msg] then raises for want
    of a summary, and a call that returns emits [*1] and [UNTIL] with
    that date between the clauses of date, priority and rule and the
    [SATISFY] clause. A second call on the same event emits this
    [UNTIL] one day earlier again when the end lay more than two days
    after the start, and neither this [*1] nor this [UNTIL] when it lay
    exactly two days after it. *)
Theorem to_remind_shortens_span (self : Remind.t) (label : option str)
    (priority : option Z) (ve : vevent) (s e : date)
    (trig : Remind.trigdates) :
  dtstart ve = Some (D s) -> dtend ve = Some (D e) ->
  valid_date s -> valid_date e ->
  trigdates_of ve = Val trig ->
  1 < toordinal e - toordinal s ->
  let head := clauses_before priority trig ve (D s) in
  let tail := clauses_after trig ve in
  let until d := [py "*1"; Remind.until_clause (D (Date d))] in
  let emits clauses := msg ← Remind._gen_msg ve label; Val (clauses ++ msg) in
  let first := Remind.to_remind_clauses self label priority ve in
  let second := Remind.to_remind_clauses self label priority first.2 in
  first = (emits (head ++ until (toordinal e - 1) ++ tail),
           set_dtend (D (Date (toordinal e - 1))) ve)
  /\ (2 < toordinal e - toordinal s ->
      second = (emits (head ++ until (toordinal e - 2) ++ tail),
                set_dtend (D (Date (toordinal e - 2))) ve))
  /\ (toordinal e - toordinal s = 2 ->
      second = (emits (head ++ tail),
                set_dtend (D (Date (toordinal e - 1))) ve)).
Proof.
  intros Hs He Vs Ve Ht Hspan head tail until emits first second.
  assert (Hfirst : first = (emits (head ++ until (toordinal e - 1) ++ tail),
                            set_dtend (D (Date (toordinal e - 1))) ve)).
  { unfold first.
    rewrite (to_remind_clauses_span self label priority ve s e trig)
      by assumption.
    apply Z.ltb_lt in Hspan. rewrite Hspan.
    unfold emits, head, tail, until.
    destruct (Remind._gen_msg ve label); cbn [mbind outcome_bind];
      rewrite <- ?app_assoc; reflexivity. }
  split; [exact Hfirst|].
  assert (Hsecond :
    second
    = if 1 <? toordinal e - 1 - toordinal s then
        (emits (head ++ until (toordinal e - 1 - 1) ++ tail),
         set_dtend (D (Date (toordinal e - 1 - 1)))
           (set_dtend (D (Date (toordinal e - 1))) ve))
      else
        (emits (head ++ tail), set_dtend (D (Date (toordinal e - 1))) ve)).
  { unfold second. rewrite Hfirst. cbn [snd].
    rewrite (to_remind_clauses_span self label priority _ s
               (Date (toordinal e - 1)) trig)
      by first [ exact Hs | exact Ht | exact Vs
               | reflexivity
               | unfold valid_date in *; cbn [toordinal]; lia ].
    cbn [toordinal]. unfold emits, head, tail, until.
    set (ve' := set_dtend (D (Date (toordinal e - 1))) ve).
    change (Remind._gen_msg ve' label) with (Remind._gen_msg ve label).
    change (clauses_before priority trig ve' (D s))
      with (clauses_before priority trig ve (D s)).
    change (clauses_after trig ve') with (clauses_after trig ve).
    destruct (1 <? toordinal e - 1 - toordinal s);
      destruct (Remind._gen_msg ve label); cbn [mbind outcome_bind];
      rewrite <- ?app_assoc; reflexivity. }
  split; intros Hcase; rewrite Hsecond.
  - destruct (Z.ltb_spec 1 (toordinal e - 1 - toordinal s)); [|lia].
    replace (toordinal e - 1 - 1) with (toordinal e - 2) by lia.
    reflexivity.
  - destruct (Z.ltb_spec 1 (toordinal e - 1 - toordinal s)); [lia|].
    reflexivity.
Qed.

Lemma to_remind_shortens_span_witness :
  let ve :=
    VEvent (Some (D (Date 738886))) (Some (D (Date 738891))) None
      (Some (py "Fair")) None None None []
      [counted_rule WEEKLY 3 (D (Date 738886))] [] in
  let first := Remind.to_remind_clauses Sample.self None None ve in
  let second := Remind.to_remind_clauses Sample.self None None first.2 in
  first.1 = Val (map py ["REM"; "Jan 1 2024"; "*7"; "UNTIL Jan 15 2024";
                         "*1"; "UNTIL Jan 5 2024"; "MSG"; "Fair"]%string)
  /\ dtend first.2 = Some (D (Date 738890))
  /\ second.1 = Val (map py ["REM"; "Jan 1 2024"; "*7"; "UNTIL Jan 15 2024";
                             "*1"; "UNTIL Jan 4 2024"; "MSG"; "Fair"]%string)
  /\ dtend second.2 = Some (D (Date 738889)).
Proof.
  pose proof (to_remind_shortens_span Sample.self None None
                (VEvent (Some (D (Date 738886))) (Some (D (Date 738891)))
                   None (Some (py "Fair")) None None None []
                   [counted_rule WEEKLY 3 (D (Date 738886))] [])
                (Date 738886) (Date 738891)
                (Remind.TrigList [py "*7"; py "UNTIL Jan 15 2024"])) as H.
  cbv zeta in H |- *.
  destruct H as (H1 & H2 & _);
    try reflexivity; try (unfold valid_date, max_ordinal; cbn; lia).
  rewrite H2 by (cbn; lia). rewrite H1.
  repeat split; vm_compute; reflexivity.
Defined.

(** * The message and its description *)

Section searching.

Lemma startswith_app (p s : str) : PyStr.startswith p (p ++ s) = true.
Proof. induction p as [|a p IH]; [reflexivity|]. cbn. now rewrite N.eqb_refl. Qed.

Lemma startswith_head (a b : char) (p s : str) :
  a <> b -> PyStr.startswith (a :: p) (b :: s) = false.
Proof. intros H. cbn. now destruct (N.eqb_spec a b). Qed.

Lemma contains_cons (sub : str) (c : char) (s : str) :
  PyStr.contains sub (c :: s)
  = PyStr.startswith sub (c :: s) || PyStr.contains sub s.
Proof. reflexivity. Qed.

Lemma contains_app_r (sub a b : str) :
  PyStr.startswith sub b = true -> PyStr.contains sub (a ++ b) = true.
Proof.
  intros H. induction a as [|c a IH].
  - destruct b; cbn in *; now rewrite H.
  - cbn [app]. rewrite contains_cons, IH. apply orb_true_r.
Qed.

(** Without an occurrence [rfind] keeps what it had. *)
Lemma rfind_from_none (sub s : str) : forall (i best : Z),
  PyStr.contains sub s = false -> PyStr.rfind_from sub i best s = best.
Proof.
  induction s as [|c s IH]; intros i best H.
  - cbn in *. apply orb_false_elim in H as [H _]. now rewrite H.
  - rewrite contains_cons in H. apply orb_false_elim in H as [H1 H2].
    cbn [PyStr.rfind_from]. rewrite H1. now apply IH.
Qed.

(** The last occurrence: one at the head of [b], none later. *)
Lemma rfind_from_last (sub a b : str) : forall (i best : Z),
  PyStr.startswith sub b = true ->
  PyStr.contains sub (drop 1 b) = false ->
  PyStr.rfind_from sub i best (a ++ b) = i + Z.of_nat (length a).
Proof.
  induction a as [|c a IH]; intros i best Hb Hn.
  - cbn [app length]. destruct b as [|c b].
    + cbn in *. rewrite Hb. lia.
    + cbn [PyStr.rfind_from]. rewrite Hb.
      rewrite rfind_from_none by exact Hn. lia.
  - cbn [app PyStr.rfind_from length]. rewrite IH by assumption. lia.
Qed.

Lemma rfind_last (sub a b : str) :
  PyStr.startswith sub b = true ->
  PyStr.contains sub (drop 1 b) = false ->
  PyStr.rfind sub (a ++ b) = Z.of_nat (length a).
Proof. intros Hb Hn. unfold PyStr.rfind. now rewrite rfind_from_last. Qed.

(** Replacing one character is a map over the characters. *)
Lemma replace_single (c : char) (new s : str) :
  PyStr.replace [c] new s
  = flat_map (fun x => if (c =? x)%N then new else [x]) s.
Proof.
  unfold PyStr.replace. induction s as [|x s IH]; [reflexivity|].
  cbn [PyStr.replace_go flat_map]. rewrite startswith_single.
  destruct (c =? x)%N; cbn [length Nat.sub]; now rewrite IH.
Qed.

Lemma replace_go_skip (old new : str) (k : nat) (a s : str) :
  length a = k ->
  PyStr.replace_go old new k (a ++ s) = PyStr.replace_go old new 0 s.
Proof.
  revert k. induction a as [|x a IH]; intros k Hk.
  - cbn in Hk. now subst k.
  - cbn in Hk. subst k. cbn [app PyStr.replace_go]. now apply IH.
Qed.

(** An occurrence at the head is replaced, and the search goes on
    behind it. *)
Lemma replace_go_match (old new s : str) :
  old <> [] ->
  PyStr.replace_go old new 0 (old ++ s) = new ++ PyStr.replace_go old new 0 s.
Proof.
  intros Ho. destruct old as [|c old]; [contradiction|].
  cbn [app PyStr.replace_go]. 
  change (c :: old ++ s) with ((c :: old) ++ s).
  rewrite startswith_app. cbn [length Nat.sub]. rewrite Nat.sub_0_r.
  now rewrite replace_go_skip.
Qed.

(** A character that does not start the pattern is copied. *)
Lemma replace_go_copy (c : char) (old new : str) (x : char) (s : str) :
  c <> x ->
  PyStr.replace_go (c :: old) new 0 (x :: s)
  = x :: PyStr.replace_go (c :: old) new 0 s.
Proof.
  intros H. cbn [PyStr.replace_go]. now rewrite startswith_head.
Qed.

End searching.

Section description.

Import Remind.

Lemma isspace_not (c q : char) :
  PyStr.isspace c = true -> PyStr.isspace q = false -> q <> c.
Proof. intros Hc Hq ->. congruence. Qed.

Lemma lstrip_spaces (u s : str) :
  PyStr.spaces u -> PyStr.lstrip (u ++ s) = PyStr.lstrip s.
Proof.
  induction 1 as [|c u Hc _ IH]; [reflexivity|].
  cbn [app PyStr.lstrip]. now rewrite Hc.
Qed.

Lemma strip_trimmed (d w : str) :
  PyStr.trimmed d -> PyStr.spaces w -> PyStr.strip (d ++ w) = d.
Proof.
  intros [Hhead Hlast] Hw. unfold PyStr.strip, PyStr.rstrip.
  destruct d as [|a d]; [contradiction|].
  cbn [app PyStr.lstrip]. rewrite Hhead.
  change (a :: d ++ w) with ((a :: d) ++ w).
  destruct (last (a :: d)) as [b|] eqn:Eb; [|contradiction].
  apply last_Some in Eb as [d' ->].
  rewrite <- app_assoc, !rev_app_distr. cbn [rev app].
  rewrite <- app_assoc. rewrite lstrip_spaces by (now apply Forall_rev).
  cbn [app PyStr.lstrip]. rewrite Hlast.
  cbn [rev]. now rewrite rev_involutive.
Qed.

Lemma flat_map_flat_map {A B C} (f : A -> list B) (g : B -> list C)
    (l : list A) :
  flat_map g (flat_map f l) = flat_map (fun x => flat_map g (f x)) l.
Proof.
  induction l as [|x l IH]; [reflexivity|].
  cbn [flat_map]. now rewrite flat_map_app, IH.
Qed.

(** The two substitutions of [_gen_msg] on a description. *)
Lemma escape_description (d : str) :
  PyStr.replace (py "[") bracket_escape (PyStr.replace newline (py "%_") d)
  = flat_map escape_char d.
Proof.
  change (py "[") with [91%N]. unfold newline.
  rewrite !replace_single, flat_map_flat_map.
  apply flat_map_ext. intros x. unfold escape_char.
  rewrite (N.eqb_sym x 10).
  destruct (10 =? x)%N eqn:E10; [reflexivity|].
  cbn [flat_map app]. rewrite app_nil_r, (N.eqb_sym x 91).
  reflexivity.
Qed.

(** The first character of an escaped text is that of the text, but
    for a line break and a bracket. *)
Lemma escaped_head (q : char) (d w : str) :
  q <> 37%N -> q <> 91%N -> PyStr.isspace q = false -> PyStr.spaces w ->
  PyStr.startswith [q] d = false ->
  PyStr.startswith [q] (flat_map escape_char d ++ w) = false.
Proof.
  intros Hq1 Hq2 Hq Hw Hd. destruct d as [|y d].
  - destruct w as [|c w]; [reflexivity|].
    apply Forall_cons in Hw as [Hc _].
    cbn [flat_map app]. rewrite startswith_single.
    apply N.eqb_neq. now apply (isspace_not c q).
  - rewrite startswith_single in Hd. cbn [flat_map]. unfold escape_char at 1.
    destruct (y =? 10)%N eqn:E10.
    + change (py "%_") with [37%N; 95%N]. cbn [app].
      rewrite startswith_single. now apply N.eqb_neq.
    + destruct (y =? 91)%N eqn:E91.
      * change bracket_escape with [91%N; 34%N; 91%N; 34%N; 93%N].
        cbn [app]. rewrite startswith_single. now apply N.eqb_neq.
      * cbn [app]. now rewrite startswith_single.
Qed.

Lemma contains_spaces (c : char) (p w : str) :
  PyStr.isspace c = false -> PyStr.spaces w ->
  PyStr.contains (c :: p) w = false.
Proof.
  intros Hc. induction 1 as [|x w Hx _ IH]; [reflexivity|].
  rewrite contains_cons, IH, startswith_head; [reflexivity|].
  now apply (isspace_not x c).
Qed.

(** An escaped description holds the delimiter only where the
    description does. *)
Lemma escaped_no_delimiter (d w : str) :
  PyStr.spaces w ->
  PyStr.contains delimiter d = false ->
  PyStr.contains delimiter (flat_map escape_char d ++ w) = false.
Proof.
  intros Hw. change delimiter with [37%N; 34%N].
  induction d as [|x d IH]; intros Hd.
  - now apply contains_spaces.
  - rewrite contains_cons in Hd. apply orb_false_elim in Hd as [Hx Hd].
    specialize (IH Hd). cbn [flat_map]. unfold escape_char at 1.
    destruct (N.eqb_spec x 10) as [->|N10].
    + change (py "%_") with [37%N; 95%N]. cbn [app].
      rewrite !contains_cons, IH. reflexivity.
    + destruct (N.eqb_spec x 91) as [->|N91].
      * change bracket_escape with [91%N; 34%N; 91%N; 34%N; 93%N].
        cbn [app]. rewrite !contains_cons, IH. reflexivity.
      * cbn [app]. rewrite contains_cons, IH, orb_false_r.
        destruct (N.eqb_spec 37 x) as [<-|N37].
        -- cbn [PyStr.startswith] in Hx |- *. rewrite N.eqb_refl in *.
           cbn [andb] in *. apply escaped_head; try easy.
        -- now apply startswith_head.
Qed.

(** A character at which the pattern does not start is copied. *)
Lemma replace_go_pass (old new : str) (x : char) (s : str) :
  PyStr.startswith old (x :: s) = false ->
  PyStr.replace_go old new 0 (x :: s) = x :: PyStr.replace_go old new 0 s.
Proof. intros H. cbn [PyStr.replace_go]. now rewrite H. Qed.

Lemma percent_underscore_head (x : char) (s : str) :
  x <> 37%N -> PyStr.startswith (py "%_") (x :: s) = false.
Proof.
  intros H. change (py "%_") with [37%N; 95%N]. apply startswith_head.
  congruence.
Qed.

Lemma bracket_escape_head (x : char) (s : str) :
  x <> 91%N -> PyStr.startswith bracket_escape (x :: s) = false.
Proof.
  intros H. change bracket_escape with [91%N; 34%N; 91%N; 34%N; 93%N].
  apply startswith_head. congruence.
Qed.

(** Undoing the line breaks of an escaped description that holds no
    percent sign before an underscore of its own. *)
Lemma unescape_newlines (d w : str) :
  PyStr.spaces w ->
  PyStr.contains (py "%_") d = false ->
  PyStr.replace (py "%_") newline (flat_map escape_char d ++ w)
  = flat_map escape_bracket d ++ w.
Proof.
  intros Hw. unfold PyStr.replace.
  induction d as [|x d IH]; intros Hd.
  - cbn [flat_map app]. induction Hw as [|c w Hc _ IHw]; [reflexivity|].
    rewrite replace_go_pass, IHw; [reflexivity|].
    apply percent_underscore_head. intros ->. discriminate Hc.
  - rewrite contains_cons in Hd. apply orb_false_elim in Hd as [Hx Hd].
    specialize (IH Hd). cbn [flat_map]. rewrite <- !app_assoc.
    unfold escape_char at 1, escape_bracket at 1.
    destruct (N.eqb_spec x 10) as [->|N10].
    + rewrite replace_go_match by discriminate. rewrite IH. reflexivity.
    + destruct (N.eqb_spec x 91) as [->|N91].
      * change (bracket_escape ++ flat_map escape_char d ++ w)
          with (91%N :: 34%N :: 91%N :: 34%N :: 93%N
                  :: (flat_map escape_char d ++ w)).
        rewrite !replace_go_pass
          by (apply percent_underscore_head; discriminate).
        rewrite IH. reflexivity.
      * cbn [app]. rewrite replace_go_pass, IH; [reflexivity|].
        destruct (N.eqb_spec x 37) as [->|N37];
          [|now apply percent_underscore_head].
        change (py "%_") with [37%N; 95%N] in Hx |- *.
        cbn [PyStr.startswith] in Hx |- *. rewrite N.eqb_refl in *.
        cbn [andb] in *. now apply escaped_head.
Qed.

(** Undoing the brackets. *)
Lemma unescape_brackets (d w : str) :
  PyStr.spaces w ->
  PyStr.replace bracket_escape (py "[") (flat_map escape_bracket d ++ w)
  = d ++ w.
Proof.
  intros Hw. unfold PyStr.replace.
  induction d as [|x d IH].
  - cbn [flat_map app]. induction Hw as [|c w Hc _ IHw]; [reflexivity|].
    rewrite replace_go_pass, IHw; [reflexivity|].
    apply bracket_escape_head. intros ->. discriminate Hc.
  - cbn [flat_map]. rewrite <- app_assoc. unfold escape_bracket at 1.
    destruct (N.eqb_spec x 91) as [->|N91].
    + rewrite replace_go_match by discriminate. rewrite IH. reflexivity.
    + cbn [app]. rewrite replace_go_pass, IH; [reflexivity|].
      now apply bracket_escape_head.
Qed.

End description.

Section message.

Import Remind.

Lemma drop_past {A} (a b : list A) (n : nat) :
  drop (Z.to_nat (Z.of_nat (length a) + Z.of_nat n)) (a ++ b) = drop n b.
Proof.
  replace (Z.to_nat (Z.of_nat (length a) + Z.of_nat n))
    with (length a + n)%nat by lia.
  apply drop_app_add.
Qed.

(** [_gen_description] on a text that ends with the closing delimiter,
    a blank, an escaped description and white space. *)
Lemma gen_description_escaped (before d w : str) :
  PyStr.trimmed d -> PyStr.spaces w ->
  PyStr.contains (py "%_") d = false ->
  PyStr.contains delimiter d = false ->
  _gen_description
    (before ++ delimiter ++ py " " ++ flat_map escape_char d ++ w)
  = d.
Proof.
  intros Ht Hw Hp Hd. unfold _gen_description.
  rewrite rfind_last.
  - change 3 with (Z.of_nat 3). unfold PySeq.slice_from. rewrite drop_past.
    change (drop 3 (delimiter ++ py " " ++ flat_map escape_char d ++ w))
      with (flat_map escape_char d ++ w).
    rewrite unescape_newlines, unescape_brackets by assumption.
    now apply strip_trimmed.
  - apply startswith_app.
  - change (drop 1 (delimiter ++ py " " ++ flat_map escape_char d ++ w))
      with (34%N :: 32%N :: (flat_map escape_char d ++ w)).
    rewrite !contains_cons, escaped_no_delimiter by assumption.
    reflexivity.
Qed.

(** The split at the last [" at "] of a message that ends with a
    location. *)
Lemma split_msg_location (s loc : str) :
  PyStr.contains (py " at ") (py "at " ++ loc) = false ->
  split_msg (s ++ py " at " ++ loc) = (s, Some loc).
Proof.
  intros Hloc. unfold split_msg.
  rewrite contains_app_r by apply startswith_app.
  unfold PyStr.rsplit1. rewrite rfind_last; [|apply startswith_app|exact Hloc].
  destruct (Z.ltb_spec (Z.of_nat (length s)) 0); [lia|].
  rewrite Nat2Z.id, take_app_length.
  change (length (py " at ")) with 4%nat.
  rewrite drop_app_add. reflexivity.
Qed.

End message.

Section brackets.

Import Remind.

Lemma replace_absent (c : char) (new s : str) :
  PyStr.contains [c] s = false -> PyStr.replace [c] new s = s.
Proof.
  rewrite replace_single. induction s as [|x s IH]; intros H; [reflexivity|].
  rewrite contains_cons, startswith_single in H.
  apply orb_false_elim in H as [Hx Hs].
  cbn [flat_map]. rewrite Hx, IH by exact Hs. reflexivity.
Qed.

End brackets.

(** C3, refuted as stated. A description that starts with a blank
    comes back without it, because [_gen_description] ends with
    [strip]; and with a label the text between the delimiters splits
    into the label and the summary together, not the summary. *)
Lemma message_roundtrip_counterexample :
  (exists rem : list str,
     Remind._gen_msg
       (set_description (py " x") (set_summary (py "Meeting") new_vevent))
       None = Val rem
     /\ Remind._gen_description (PyStr.join (py " ") rem) = py "x"
     /\ py "x" <> py " x")
  /\ Remind._gen_msg
       (set_description (py "x")
          (set_location (py "Office")
             (set_summary (py "Meeting") new_vevent)))
       (Some (py "Cal"))
     = Val [py "MSG";
            Remind.delimiter ++ py "Cal Meeting at Office" ++ Remind.delimiter;
            py "x"]
  /\ Remind.split_msg (py "Cal Meeting at Office")
     = (py "Cal Meeting", Some (py "Office")).
Proof.
  split.
  - eexists. split; [reflexivity|]. split; [vm_compute; reflexivity|].
    discriminate.
  - split; vm_compute; reflexivity.
Qed.

(** C3, amended. For every label, summary and location, and every
    description that is not empty, neither starts nor ends with white
    space and holds neither a percent sign before an underscore nor a
    percent sign before a double quote, [_gen_description] gives the
    description back exactly from the text [_gen_msg] makes, whatever
    stands before that text and whatever white space follows it:
    brackets and line breaks in the description are restored. Without
    a label, and with a location that holds no [" at "] and does not
    start with ["at "], the split at the last [" at "] of the text
    between the delimiters gives back the location exactly and the
    summary with its brackets still escaped, so the summary itself
    when it has no bracket. *)
Theorem message_roundtrip (ve : vevent) (label : option str)
    (sm d prefix suffix : str) :
  summary ve = Some sm ->
  description ve = Some d ->
  PyStr.trimmed d ->
  PyStr.contains (py "%_") d = false ->
  PyStr.contains Remind.delimiter d = false ->
  PyStr.spaces suffix ->
  exists inner : str,
    let rem :=
      [py "MSG"; Remind.delimiter ++ inner ++ Remind.delimiter;
       PyStr.replace (py "[") Remind.bracket_escape
         (PyStr.replace Remind.newline (py "%_") d)] in
    Remind._gen_msg ve label = Val rem
    /\ Remind._gen_description (prefix ++ PyStr.join (py " ") rem ++ suffix)
       = d
    /\ forall loc : str,
         Remind.nonempty label = None ->
         location ve = Some loc ->
         loc <> [] ->
         PyStr.contains (py " at ") (py "at " ++ loc) = false ->
         Remind.split_msg inner
         = (PyStr.replace (py "[") Remind.bracket_escape sm, Some loc)
         /\ (PyStr.contains (py "[") sm = false ->
             Remind.split_msg inner = (sm, Some loc)).
Proof.
  intros Hsm Hd Ht Hp Hq Hw.
  assert (Hne : Remind.nonempty (Some d) = Some d).
  { destruct d; [destruct Ht as [[] _]|reflexivity]. }
  unfold Remind._gen_msg. rewrite Hsm, Hd, Hne. cbn [attr of_option mbind outcome_bind].
  eexists. cbv zeta. split; [reflexivity|]. split.
  - rewrite escape_description.
    cbn [PyStr.join app]. rewrite <- !app_assoc.
    match goal with
    | |- context [Remind.delimiter ++ ?j ++ Remind.delimiter ++ ?rest] =>
        replace (prefix ++ py "MSG" ++ py " " ++ Remind.delimiter ++ j
                   ++ Remind.delimiter ++ rest)
          with ((prefix ++ py "MSG" ++ py " " ++ Remind.delimiter ++ j)
                  ++ Remind.delimiter ++ rest)
          by (rewrite <- ?app_assoc; reflexivity)
    end.
    now apply gen_description_escaped.
  - intros loc Hl Hloc Hn Hat. rewrite Hl, Hloc.
    assert (Hnl : Remind.nonempty (Some loc) = Some loc)
      by (destruct loc; [contradiction|reflexivity]).
    rewrite Hnl. cbn [app PyStr.join].
    change (py " " ++ py "at " ++ loc) with (py " at " ++ loc).
    rewrite split_msg_location by exact Hat.
    split; [reflexivity|]. intros Hb.
    change (py "[") with [91%N] in Hb |- *.
    now rewrite replace_absent.
Qed.

Lemma message_roundtrip_witness :
  exists inner : str,
    Remind._gen_msg
      (set_description (py "see [1]
and [2]")
         (set_location (py "Office")
            (set_summary (py "Fix [bug]") new_vevent)))
      None
    = Val [py "MSG"; Remind.delimiter ++ inner ++ Remind.delimiter;
           PyStr.replace (py "[") Remind.bracket_escape
             (PyStr.replace Remind.newline (py "%_") (py "see [1]
and [2]"))]
    /\ Remind._gen_description
         (py "REM Jan 1 2024 "
            ++ PyStr.join (py " ")
                 [py "MSG"; Remind.delimiter ++ inner ++ Remind.delimiter;
                  PyStr.replace (py "[") Remind.bracket_escape
                    (PyStr.replace Remind.newline (py "%_") (py "see [1]
and [2]"))]
            ++ Remind.newline)
       = py "see [1]
and [2]"
    /\ Remind.split_msg inner
       = (PyStr.replace (py "[") Remind.bracket_escape (py "Fix [bug]"),
          Some (py "Office")).
Proof.
  destruct (message_roundtrip
              (set_description (py "see [1]
and [2]")
                 (set_location (py "Office")
                    (set_summary (py "Fix [bug]") new_vevent)))
              None (py "Fix [bug]") (py "see [1]
and [2]") (py "REM Jan 1 2024 ") Remind.newline)
    as (inner & Hmsg & Hdescr & Hsplit).
  - reflexivity.
  - reflexivity.
  - split; reflexivity.
  - reflexivity.
  - reflexivity.
  - repeat constructor.
  - exists inner. split; [exact Hmsg|]. split; [exact Hdescr|].
    apply (Hsplit (py "Office")); try reflexivity. discriminate.
Defined.

(** * Further facts about the mutations *)

Section guards.

Import Remind.

(** X1. On a file the object does not know, each mutation returns at
    once and changes nothing. *)
Theorem unknown_file_no_op (w : world) (name filename : str)
    (ical : outcome (list vevent)) :
  known filename w = false ->
  append ical filename w = (Val tt, w)
  /\ remove name filename w = (Val tt, w)
  /\ replace name ical filename w = (Val tt, w).
Proof.
  intros Hk. unfold append, remove, replace.
  rewrite !run_get, Hk. repeat split.
Qed.

(** X2. An identity whose part before the at sign does not split at
    hyphens into exactly two parts makes [remove] and [replace] return
    at once: nothing is raised, nothing is written, the lock is not
    touched. *)
Theorem misshapen_identity_no_op (w : world) (name filename : str)
    (uid : list str) (ical : outcome (list vevent)) :
  split_uid name = Val uid ->
  length uid <> 2%nat ->
  remove name filename w = (Val tt, w)
  /\ replace name ical filename w = (Val tt, w).
Proof.
  intros Hs Hn. unfold remove, replace. rewrite !run_get.
  destruct (known filename w); cbn [negb]; [|now split].
  rewrite !run_lift, Hs.
  destruct (Nat.eqb_spec (length uid) 2); [contradiction|].
  now split.
Qed.

Lemma split_go_cons (sep : str) (s : str) : forall (k : nat) (cur : str),
  exists x l, PyStr.split_go sep k cur s = x :: l.
Proof.
  induction s as [|c s IH]; intros k cur; [now eexists; eexists|].
  cbn [PyStr.split_go]. destruct k as [|k]; [|apply IH].
  destruct (PyStr.startswith sep (c :: s)); [now eexists; eexists|apply IH].
Qed.

(** [split_uid] never raises. *)
Lemma split_uid_total (name : str) : exists uid, split_uid name = Val uid.
Proof.
  unfold split_uid, PyStr.split.
  destruct (split_go_cons (py "@") name 0 []) as (x & l & ->).
  rewrite getitem_0. now eexists.
Qed.

End guards.

Section rewriting.

Import Remind.

(** The lines of a text, joined again, are the text. *)
Lemma splitlines_go_concat (s : str) : forall (cur : str),
  concat (PyStr.splitlines_go cur s) = rev cur ++ s.
Proof.
  induction s as [|c s IH]; intros cur.
  - cbn. destruct cur as [|x cur]; [reflexivity|].
    cbn [concat]. now rewrite !app_nil_r.
  - cbn [PyStr.splitlines_go].
    destruct (PyStr.islinebreak c); [destruct s as [|c' s']|];
      [|destruct ((c =? 13)%N && (c' =? 10)%N)|];
      cbn [concat]; rewrite ?IH; cbn [rev app];
      rewrite ?app_nil_r, <- ?app_assoc; reflexivity.
Qed.

Lemma lines_rejoin (s : str) : concat (PyStr.splitlines_go [] s) = s.
Proof. apply splitlines_go_concat. Qed.

(** X3. The lines [readlines] cuts a text into, written one after the
    other, are the text again. *)
Theorem splitlines_concat (s : str) :
  concat (PyStr.splitlines_keepends s) = s.
Proof. unfold PyStr.splitlines_keepends. apply lines_rejoin. Qed.

Lemma norm_index_middle {A} (before after : list A) (x : A) :
  PySeq.norm_index (before ++ x :: after) (Z.of_nat (length before))
  = Some (length before).
Proof.
  unfold PySeq.norm_index. rewrite length_app. cbn [length].
  destruct (Z.leb_spec 0 (Z.of_nat (length before))); [|lia].
  destruct (Z.ltb_spec (Z.of_nat (length before))
              (Z.of_nat (length before + S (length after)))); [|lia].
  cbn [andb]. now rewrite Nat2Z.id.
Qed.

(** X4. [remove] with the identity of a line as it stands in the file
    writes the file back without that line; the lines before and after
    it are written as they were read. *)
Theorem remove_current_line (w : world) (filename fqdn content line : str)
    (before after : list str) :
  known filename w = true ->
  _lock (obj w) = false ->
  disk w !! filename = Some content ->
  PyStr.splitlines_keepends content = before ++ line :: after ->
  let n := Z.of_nat (length before) + 1 in
  content = concat before ++ line ++ concat after
  /\ remove (_gen_uid fqdn (PyStr.str_of_Z n) line) filename w
     = (Val tt,
        World (obj w)
          (<[filename := concat before ++ concat after]> (disk w))).
Proof.
  intros Hk Hl Hf Hlines n. split.
  { rewrite <- (lines_rejoin content).
    change (PyStr.splitlines_go [] content)
      with (PyStr.splitlines_keepends content).
    rewrite Hlines, concat_app. reflexivity. }
  assert (Hs : split_uid (_gen_uid fqdn (PyStr.str_of_Z n) line)
               = Val [PyStr.str_of_Z n; sha1_hex line]).
  { apply split_uid_parts; [apply str_of_Z_plain; lia|apply hexdigest_plain]. }
  assert (Hn : PyStr.int (PyStr.str_of_Z n) = Val n)
    by (apply int_str_of_Z; lia).
  rewrite (remove_guards w _ filename _ _ n Hk Hs Hn).
  unfold locked_update. rewrite Hl, Hf, Hlines.
  replace (n - 1) with (Z.of_nat (length before)) by lia.
  unfold PySeq.getitem, PySeq.delitem. rewrite norm_index_middle.
  rewrite list_lookup_middle by reflexivity.
  cbn [of_option mbind outcome_bind]. rewrite eqb_refl.
  cbn [fmap outcome_fmap]. rewrite delete_middle, concat_app. reflexivity.
Qed.

End rewriting.

Section single_occurrence.

Import Remind.

(** X5. One all-day occurrence: the event ends the day after, carries
    neither rule nor explicit dates nor alarm, and [to_remind] writes
    it back without any clause of repetition and leaves it as it is. *)
Theorem single_all_day_roundtrip (self : t) (d : date) (dur : option timedelta)
    (msg uid : str) (loc descr : option str) (label : option str)
    (priority : option Z) (clauses : list str) :
  valid_date d -> toordinal d < max_ordinal ->
  let ve :=
    VEvent (Some (D d)) (Some (D (Date (toordinal d + 1)))) None (Some msg)
           (Some uid) loc descr [] [] [] in
  _gen_msg ve label = Val clauses ->
  _gen_vevent (Event [D d] dur msg loc descr uid) new_vevent = Val ve
  /\ to_remind_clauses self label priority ve
     = (Val ([py "REM"; date_clause (D d)] ++ priority_clause priority
               ++ clauses), ve).
Proof.
  intros Vd Hd ve Hmsg. split.
  - unfold _gen_vevent. cbn [ev_dtstart ev_msg ev_uid ev_location
                              ev_description ev_duration].
    rewrite getitem_0. cbn [mbind outcome_bind is_datetime length Nat.eqb].
    unfold add. rewrite days_timedelta_days.
    destruct (Z.leb_spec 1 (toordinal d + 1)); [|unfold valid_date in Vd; lia].
    destruct (Z.leb_spec (toordinal d + 1) max_ordinal); [|lia].
    cbn [andb mbind outcome_bind Nat.ltb Nat.leb].
    destruct loc, descr; reflexivity.
  - rewrite (to_remind_clauses_all_day self label priority ve d
               (Date (toordinal d + 1)) clauses);
      try reflexivity; try assumption.
    + cbn [toordinal].
      destruct (Z.ltb_spec 1 (toordinal d + 1 - toordinal d)); [lia|].
      reflexivity.
    + unfold valid_date in *. cbn [toordinal]. lia.
Qed.

End single_occurrence.

Lemma unknown_file_no_op_witness :
  Remind.remove (py "1-0123abcd@host") (py "other.rem") Sample.world
  = (Val tt, Sample.world).
Proof.
  apply (unknown_file_no_op Sample.world (py "1-0123abcd@host")
           (py "other.rem") (Val [])).
  vm_compute. reflexivity.
Defined.

Lemma misshapen_identity_no_op_witness :
  Remind.remove (py "meeting.ics") Sample.file Sample.world
  = (Val tt, Sample.world)
  /\ Remind.replace (py "a-b-c@host") (Val []) Sample.file Sample.world
     = (Val tt, Sample.world).
Proof.
  split.
  - apply (misshapen_identity_no_op Sample.world (py "meeting.ics")
             Sample.file [py "meeting.ics"] (Val [])).
    + vm_compute. reflexivity.
    + cbn. lia.
  - apply (misshapen_identity_no_op Sample.world (py "a-b-c@host")
             Sample.file [py "a"; py "b"; py "c"] (Val [])).
    + vm_compute. reflexivity.
    + cbn. lia.
Defined.

Lemma remove_current_line_witness :
  Remind.remove (Remind._gen_uid (py "host") (PyStr.str_of_Z 1) Sample.line1)
    Sample.file Sample.world
  = (Val tt, Remind.World Sample.self {[ Sample.file := Sample.line2 ]}).
Proof.
  pose proof (remove_current_line Sample.world Sample.file (py "host")
                (Sample.line1 ++ Sample.line2) Sample.line1 []
                [Sample.line2]) as H.
  cbv zeta in H. destruct H as [_ H].
  - vm_compute. reflexivity.
  - vm_compute. reflexivity.
  - vm_compute. reflexivity.
  - vm_compute. reflexivity.
  - etransitivity; [exact H|]. vm_compute. reflexivity.
Defined.

Lemma single_all_day_roundtrip_witness :
  Remind._gen_vevent
    (Remind.Event [D (Date 738886)] None (py "New Year") None None (py "u"))
    new_vevent
  = Val (VEvent (Some (D (Date 738886))) (Some (D (Date 738887))) None
           (Some (py "New Year")) (Some (py "u")) None None [] [] [])
  /\ (Remind.to_remind_clauses Sample.self None None
        (VEvent (Some (D (Date 738886))) (Some (D (Date 738887))) None
           (Some (py "New Year")) (Some (py "u")) None None [] [] [])).1
     = Val (map py ["REM"; "Jan 1 2024"; "MSG"; "New Year"]%string).
Proof.
  pose proof (single_all_day_roundtrip Sample.self (Date 738886) None
                (py "New Year") (py "u") None None None None
                [py "MSG"; py "New Year"]) as H.
  cbv zeta in H. destruct H as [H1 H2].
  - unfold valid_date, max_ordinal. cbn. lia.
  - unfold max_ordinal. cbn. lia.
  - reflexivity.
  - split; [exact H1|].
    etransitivity; [exact (f_equal fst H2)|]. vm_compute. reflexivity.
Defined.

(** * Loading: the cache and the time stamps *)

Section loading.

Import Remind.

Lemma session_eta (s : session) :
  Session (core s) (_filename s) (_mtime s) (mtimes s) = s.
Proof. now destruct s. Qed.

Lemma run_getmtime {B} (f : str) (k : Z -> prog session B) (s : session) :
  (getmtime f ≫= k) s
  = match mtimes s !! f with
    | Some m => k m s
    | None => (Exn IOError, s)
    end.
Proof.
  rewrite run_bind. unfold getmtime. now destruct (mtimes s !! f).
Qed.

Lemma run_set_mtime {B} (m : Z) (k : unit -> prog session B) (s : session) :
  (set_mtime m ≫= k) s
  = k tt (Session (core s) (_filename s) m (mtimes s)).
Proof. now rewrite run_bind. Qed.

(** What the loop of [_update] leaves: the files and the object as they
    were, a time stamp that did not go back; when it ends, every file
    it met has a stamp that is not newer than the one kept, the flag is
    raised exactly when it was raised before or a file was newer, and
    the stamp kept is the old one or that of a file; it raises exactly
    when a file is missing. *)
Lemma update_loop_spec (fnames : list str) : forall (u : bool) (s : session),
  let r := _update_loop fnames u s in
  core r.2 = core s /\ mtimes r.2 = mtimes s /\ _filename r.2 = _filename s
  /\ _mtime s <= _mtime r.2
  /\ match r.1 with
     | Val u' =>
         Forall (fun f => exists m, mtimes s !! f = Some m /\ m <= _mtime r.2)
                fnames
         /\ (u' = true <->
             u = true
             \/ Exists (fun f => exists m, mtimes s !! f = Some m
                                           /\ _mtime s < m) fnames)
         /\ (_mtime r.2 = _mtime s
             \/ Exists (fun f => mtimes s !! f = Some (_mtime r.2)) fnames)
     | Exn e => e = IOError /\ Exists (fun f => mtimes s !! f = None) fnames
     | Hang => False
     end.
Proof.
  induction fnames as [|f fnames IH]; intros u s r.
  - subst r. cbn. do 3 (split; [reflexivity|]). split; [lia|].
    split; [constructor|]. split; [|now left].
    split; [now left|]. intros [H|H]; [exact H|inversion H].
  - subst r. cbn [_update_loop]. rewrite run_getmtime.
    destruct (mtimes s !! f) as [m|] eqn:Hm.
    2:{ cbn [fst snd]. do 3 (split; [reflexivity|]). split; [lia|].
        split; [reflexivity|]. now constructor. }
    rewrite run_get.
    destruct (Z.ltb_spec (_mtime s) m) as [Hlt|Hge].
    + rewrite run_set_mtime.
      set (s1 := Session (core s) (_filename s) m (mtimes s)).
      specialize (IH true s1). cbv zeta in IH.
      destruct IH as (Hc & Hs & Hf & Hle & Hr).
      change (core s1) with (core s) in Hc.
      change (mtimes s1) with (mtimes s) in Hs, Hr.
      change (_filename s1) with (_filename s) in Hf.
      change (_mtime s1) with m in Hle, Hr.
      repeat split; try assumption; try lia.
      destruct (_update_loop fnames true s1) as [[u'|e|] s2]; cbn [fst snd] in *.
      * destruct Hr as (Hall & Hu & Hk). repeat split.
        -- constructor; [exists m; split; [exact Hm|lia]|exact Hall].
        -- intros _. right. constructor. exists m. split; [exact Hm|lia].
        -- intros _. apply Hu. now left.
        -- right. destruct Hk as [Hk|Hk].
           ++ constructor. now rewrite Hk.
           ++ now apply Exists_cons_tl.
      * destruct Hr as [He Hx]. split; [exact He|now apply Exists_cons_tl].
      * exact Hr.
    + specialize (IH u s). cbv zeta in IH.
      destruct IH as (Hc & Hs & Hf & Hle & Hr).
      repeat split; try assumption.
      destruct (_update_loop fnames u s) as [[u'|e|] s2]; cbn [fst snd] in *.
      * destruct Hr as (Hall & Hu & Hk). repeat split.
        -- constructor; [exists m; split; [exact Hm|lia]|exact Hall].
        -- intros H. apply Hu in H. destruct H as [H|H]; [now left|].
           right. now apply Exists_cons_tl.
        -- intros [H|H]; apply Hu; [now left|].
           apply Exists_cons in H. destruct H as [(m' & Hm' & Hlt)|H].
           ++ rewrite Hm in Hm'. injection Hm' as <-. lia.
           ++ now right.
        -- destruct Hk as [Hk|Hk]; [now left|right; now apply Exists_cons_tl].
      * destruct Hr as [He Hx]. split; [exact He|now apply Exists_cons_tl].
      * exact Hr.
Qed.

(** With no file newer than the latest load the loop changes nothing. *)
Lemma update_loop_fresh (fnames : list str) : forall (u : bool) (s : session),
  Forall (fun f => exists m, mtimes s !! f = Some m /\ m <= _mtime s) fnames ->
  _update_loop fnames u s = (Val u, s).
Proof.
  induction fnames as [|f fnames IH]; intros u s H; [reflexivity|].
  apply Forall_cons in H as [(m & Hm & Hle) H].
  cbn [_update_loop]. rewrite run_getmtime, Hm, run_get.
  destruct (Z.ltb_spec (_mtime s) m); [lia|]. now apply IH.
Qed.

Lemma cached_elem (s : session) (f : str) :
  f ∈ cached s <-> exists cal, _icals (obj (core s)) !! f = Some cal.
Proof.
  unfold cached. rewrite list_elem_of_fmap. split.
  - intros ([k v] & -> & H). apply elem_of_map_to_list in H. now exists v.
  - intros (cal & H). exists (f, cal). split; [reflexivity|].
    now apply elem_of_map_to_list.
Qed.

Lemma cached_nil (s : session) :
  cached s = [] <-> _icals (obj (core s)) = ∅.
Proof.
  unfold cached. split.
  - intros H. apply fmap_nil_inv in H. now apply map_to_list_empty_iff.
  - intros ->. now rewrite map_to_list_empty.
Qed.

End loading.

Section reloading.

Import Remind.

Lemma parse_remind_line_self (a b : t) (fqdn : str) (line : list str)
    (text : str) :
  _localtz a = _localtz b ->
  _parse_remind_line a fqdn line text = _parse_remind_line b fqdn line text.
Proof. intros H. unfold _parse_remind_line. now rewrite H. Qed.

Lemma parse_remind_loop_self (a b : t) (fqdn : str) (files : gmap str str)
    (lines : str) (records : list str) :
  _localtz a = _localtz b ->
  forall acc,
    _parse_remind_loop a fqdn files lines acc records
    = _parse_remind_loop b fqdn files lines acc records.
Proof.
  intros H. induction records as [|r records IH]; intros acc; [reflexivity|].
  cbn [_parse_remind_loop].
  assert (Hr : _parse_remind_record a fqdn files lines acc r
               = _parse_remind_record b fqdn files lines acc r).
  { destruct a as [tza la ia], b as [tzb lb ib]. cbn [_localtz] in H.
    subst tzb. reflexivity. }
  rewrite Hr.
  destruct (_parse_remind_record b fqdn files lines acc r); cbn; auto.
Qed.

End reloading.

Section reloading2.

Import Remind.

Lemma parse_remind_self (a b : t) (fqdn : str) (files : gmap str str)
    (rem lines : str) :
  _localtz a = _localtz b ->
  _parse_remind a fqdn files rem lines = _parse_remind b fqdn files rem lines.
Proof.
  intros H. unfold _parse_remind. destruct rem; [reflexivity|].
  now rewrite (parse_remind_loop_self a b).
Qed.

(** [_update] after its loop: nothing more without the flag; with it,
    the lock is taken, the files are parsed and the cache is replaced,
    and an exception of the parser leaves the lock held. *)
Lemma update_after_loop (fqdn rem : str) (s : session) :
  _update fqdn rem s
  = match _update_loop (cached s)
            (match cached s with [] => true | _ => false end) s with
    | (Val true, s1) =>
        let w := core s1 in
        if _lock (obj w) then (Hang, s1)
        else
          match _parse_remind (obj w) fqdn (disk w) rem [] with
          | Val icals =>
              (Val tt,
               Session (World (Self (_localtz (obj w)) false
                                 (list_to_map icals)) (disk w))
                       (_filename s1) (_mtime s1) (mtimes s1))
          | Exn e =>
              (Exn e,
               Session (set_lock true w) (_filename s1) (_mtime s1) (mtimes s1))
          | Hang =>
              (Hang,
               Session (set_lock true w) (_filename s1) (_mtime s1) (mtimes s1))
          end
    | (Val false, s1) => (Val tt, s1)
    | (Exn e, s1) => (Exn e, s1)
    | (Hang, s1) => (Hang, s1)
    end.
Proof.
  unfold _update. rewrite run_get, run_bind.
  destruct (_update_loop (cached s) _ s) as [[[|]|e|] s1]; try reflexivity.
  cbv zeta. rewrite run_bind. unfold on_world at 1, acquire.
  destruct (_lock (obj (core s1))) eqn:Hl;
    [cbn [fst snd]; now rewrite session_eta|].
  rewrite run_get. cbn [core]. rewrite run_lift.
  rewrite (parse_remind_self (obj (set_lock true (core s1))) (obj (core s1)))
    by reflexivity.
  cbn [disk set_lock].
  destruct (_parse_remind (obj (core s1)) fqdn (disk (core s1)) rem []);
    reflexivity.
Qed.

End reloading2.

Section cache.

Import Remind.

Lemma cached_stamps (s : session) (P : str -> Prop) :
  (forall f cal, _icals (obj (core s)) !! f = Some cal -> P f) ->
  Forall P (cached s).
Proof.
  intros H. apply Forall_forall. intros f Hf.
  apply cached_elem in Hf as [cal Hf]. eauto.
Qed.

Lemma cached_cons (s : session) :
  _icals (obj (core s)) <> ∅ ->
  (match cached s with [] => true | _ => false end) = false.
Proof.
  intros H. destruct (cached s) eqn:E; [|reflexivity].
  apply cached_nil in E. contradiction.
Qed.

Lemma update_fresh (s : session) (fqdn rem : str) :
  _icals (obj (core s)) <> ∅ ->
  (forall f cal, _icals (obj (core s)) !! f = Some cal ->
     exists m, mtimes s !! f = Some m /\ m <= _mtime s) ->
  _update fqdn rem s = (Val tt, s).
Proof.
  intros Hne Hst. rewrite update_after_loop, (cached_cons s Hne).
  rewrite update_loop_fresh; [reflexivity|].
  now apply cached_stamps.
Qed.

(** X6. A cache that is not empty and none of whose files is newer
    than the latest load is served as it is: nothing is parsed, and the
    lock is neither taken nor waited for. *)
Theorem fresh_cache_untouched (s : session) (fqdn rem filename : str) :
  _icals (obj (core s)) <> ∅ ->
  (forall f cal, _icals (obj (core s)) !! f = Some cal ->
     exists m, mtimes s !! f = Some m /\ m <= _mtime s) ->
  _update fqdn rem s = (Val tt, s)
  /\ get_filesnames fqdn rem s = (Val (dom (_icals (obj (core s)))), s)
  /\ to_vobject fqdn rem filename s
     = (Val (default [] (_icals (obj (core s)) !! filename)), s)
  /\ to_vobject_combined fqdn rem s
     = (Val (concat (map_to_list (_icals (obj (core s)))).*2), s).
Proof.
  intros Hne Hst. pose proof (update_fresh s fqdn rem Hne Hst) as Hu.
  split; [exact Hu|].
  unfold get_filesnames, to_vobject, to_vobject_combined.
  rewrite !run_bind, Hu, !run_get. repeat split.
Qed.

(** What a load leaves, once the loop has raised the flag. *)
Lemma update_loads (s : session) (fqdn rem : str) :
  _lock (obj (core s)) = false ->
  (forall f cal, _icals (obj (core s)) !! f = Some cal ->
     exists m, mtimes s !! f = Some m) ->
  (_icals (obj (core s)) = ∅
   \/ exists f cal m, _icals (obj (core s)) !! f = Some cal
                      /\ mtimes s !! f = Some m /\ _mtime s < m) ->
  exists m',
    _update fqdn rem s
    = match _parse_remind (obj (core s)) fqdn (disk (core s)) rem [] with
      | Val icals =>
          (Val tt,
           Session (World (Self (_localtz (obj (core s))) false
                             (list_to_map icals)) (disk (core s)))
                   (_filename s) m' (mtimes s))
      | Exn e =>
          (Exn e, Session (set_lock true (core s)) (_filename s) m' (mtimes s))
      | Hang =>
          (Hang, Session (set_lock true (core s)) (_filename s) m' (mtimes s))
      end
    /\ _mtime s <= m'
    /\ (forall f cal m, _icals (obj (core s)) !! f = Some cal ->
          mtimes s !! f = Some m -> m <= m')
    /\ (m' = _mtime s
        \/ exists f cal, _icals (obj (core s)) !! f = Some cal
                         /\ mtimes s !! f = Some m').
Proof.
  intros Hl Hst Hnew. rewrite update_after_loop.
  pose proof (update_loop_spec (cached s)
                (match cached s with [] => true | _ => false end) s) as H.
  cbv zeta in H. destruct H as (Hc & Hm & Hf & Hle & Hr).
  destruct (_update_loop (cached s) _ s) as [[u|e|] s1]; cbn [fst snd] in *.
  - destruct Hr as (Hall & Hu & Hk).
    assert (u = true) as ->.
    { apply Hu. destruct Hnew as [He|(f & cal & m & Hf' & Hm' & Hlt)].
      - left. apply cached_nil in He. now rewrite He.
      - right. apply Exists_exists. exists f. split.
        + apply cached_elem. eauto.
        + eauto. }
    exists (_mtime s1). cbv zeta. rewrite Hc, Hl, Hm, Hf.
    split; [reflexivity|]. split; [exact Hle|]. split.
    + intros f cal m Hf' Hm'.
      rewrite Forall_forall in Hall.
      destruct (Hall f) as (m0 & Hm0 & Hle0); [apply cached_elem; eauto|].
      rewrite Hm' in Hm0. injection Hm0 as <-. exact Hle0.
    + destruct Hk as [Hk|Hk]; [now left|right].
      apply Exists_exists in Hk as (f & Hin & Hk).
      apply cached_elem in Hin as [cal Hin]. eauto.
  - destruct Hr as [_ Hx]. apply Exists_exists in Hx as (f & Hin & Hx).
    apply cached_elem in Hin as [cal Hin].
    destruct (Hst f cal Hin) as [m Hm']. congruence.
  - contradiction.
Qed.

(** X7. A load: with the lock free, every cached file in place, and
    the cache empty or one of its files newer than the latest load,
    [_update] parses the files, replaces the cache and frees the lock;
    the time stamp it keeps is the newest of the files that were
    cached, or the old one. *)
Theorem stale_cache_reloads (s : session) (fqdn rem : str)
    (icals : list (str * list vevent)) :
  _lock (obj (core s)) = false ->
  (forall f cal, _icals (obj (core s)) !! f = Some cal ->
     exists m, mtimes s !! f = Some m) ->
  (_icals (obj (core s)) = ∅
   \/ exists f cal m, _icals (obj (core s)) !! f = Some cal
                      /\ mtimes s !! f = Some m /\ _mtime s < m) ->
  _parse_remind (obj (core s)) fqdn (disk (core s)) rem [] = Val icals ->
  exists m',
    _update fqdn rem s
    = (Val tt,
       Session (World (Self (_localtz (obj (core s))) false
                         (list_to_map icals)) (disk (core s)))
               (_filename s) m' (mtimes s))
    /\ _mtime s <= m'
    /\ (forall f cal m, _icals (obj (core s)) !! f = Some cal ->
          mtimes s !! f = Some m -> m <= m')
    /\ (m' = _mtime s
        \/ exists f cal, _icals (obj (core s)) !! f = Some cal
                         /\ mtimes s !! f = Some m').
Proof.
  intros Hl Hst Hnew Hp.
  destruct (update_loads s fqdn rem Hl Hst Hnew) as (m' & Hu & H).
  exists m'. rewrite Hp in Hu. now split.
Qed.

End cache.

Section cache_failures.

Import Remind.

Lemma update_missing (s : session) (fqdn rem f : str) (cal : list vevent) :
  _icals (obj (core s)) !! f = Some cal ->
  mtimes s !! f = None ->
  (_update fqdn rem s).1 = Exn IOError
  /\ core (_update fqdn rem s).2 = core s
  /\ mtimes (_update fqdn rem s).2 = mtimes s.
Proof.
  intros Hf Hm. rewrite update_after_loop.
  pose proof (update_loop_spec (cached s)
                (match cached s with [] => true | _ => false end) s) as H.
  cbv zeta in H. destruct H as (Hc & Hs & _ & _ & Hr).
  destruct (_update_loop (cached s) _ s) as [[u|e|] s1]; cbn [fst snd] in *.
  - destruct Hr as (Hall & _). rewrite Forall_forall in Hall.
    destruct (Hall f) as (m & Hm' & _); [apply cached_elem; eauto|].
    congruence.
  - destruct Hr as [-> _]. now repeat split.
  - contradiction.
Qed.

(** X8. A cached file that is gone from the disk: [_update] and each
    reader raise at [getmtime], before the lock is looked at; the cache
    and the files stay as they are, so the next call raises again. *)
Theorem missing_file_blocks_readers (s : session) (fqdn rem f filename : str)
    (cal : list vevent) :
  _icals (obj (core s)) !! f = Some cal ->
  mtimes s !! f = None ->
  let r := _update fqdn rem s in
  r.1 = Exn IOError
  /\ core r.2 = core s
  /\ mtimes r.2 = mtimes s
  /\ (get_filesnames fqdn rem s).1 = Exn IOError
  /\ (to_vobject fqdn rem filename s).1 = Exn IOError
  /\ (to_vobject_combined fqdn rem s).1 = Exn IOError
  /\ forall rem' : str, (_update fqdn rem' r.2).1 = Exn IOError.
Proof.
  intros Hf Hm r. subst r.
  destruct (update_missing s fqdn rem f cal Hf Hm) as (H1 & H2 & H3).
  do 3 (split; [assumption|]).
  unfold get_filesnames, to_vobject, to_vobject_combined. rewrite !run_bind.
  destruct (_update fqdn rem s) as [o s1]. cbn [fst snd] in *. subst o.
  do 3 (split; [reflexivity|]). intros rem'.
  apply (update_missing s1 fqdn rem' f cal); congruence.
Qed.

(** X9. A load that fails in the parser: the exception reaches the
    caller with the lock held and the cache as it was. A later
    [append] to a cached file never returns. The time stamp was moved
    before the parser ran, so with a cache that was not empty the
    later readers go on with the old calendars, and with an empty one
    they never return. *)
Theorem failed_load_keeps_lock (s : session) (fqdn rem : str) (e : exn) :
  _lock (obj (core s)) = false ->
  (forall f cal, _icals (obj (core s)) !! f = Some cal ->
     exists m, mtimes s !! f = Some m) ->
  (_icals (obj (core s)) = ∅
   \/ exists f cal m, _icals (obj (core s)) !! f = Some cal
                      /\ mtimes s !! f = Some m /\ _mtime s < m) ->
  _parse_remind (obj (core s)) fqdn (disk (core s)) rem [] = Exn e ->
  exists s',
    _update fqdn rem s = (Exn e, s')
    /\ core s' = set_lock true (core s)
    /\ (forall (ical : outcome (list vevent)) (filename : str),
          known filename (core s) = true ->
          append ical filename (core s') = (Hang, core s'))
    /\ (_icals (obj (core s)) <> ∅ ->
        forall rem' : str, _update fqdn rem' s' = (Val tt, s'))
    /\ (_icals (obj (core s)) = ∅ ->
        forall rem' : str, _update fqdn rem' s' = (Hang, s')).
Proof.
  intros Hl Hst Hnew Hp.
  destruct (update_loads s fqdn rem Hl Hst Hnew) as (m' & Hu & Hle & Hall & _).
  rewrite Hp in Hu.
  exists (Session (set_lock true (core s)) (_filename s) m' (mtimes s)).
  split; [exact Hu|]. split; [reflexivity|]. split; [|split].
  - intros ical filename Hk. cbn [core]. unfold append. rewrite run_get.
    replace (known filename (set_lock true (core s))) with true by exact (eq_sym Hk).
    cbn [negb]. rewrite run_bind. reflexivity.
  - intros Hne rem'. apply update_fresh; cbn [core set_lock obj _icals];
      [exact Hne|].
    intros f cal Hf. destruct (Hst f cal Hf) as [m Hm]. exists m.
    split; [exact Hm|]. cbn [_mtime]. now apply (Hall f cal).
  - intros He rem'. rewrite update_after_loop.
    assert (Hc : cached (Session (set_lock true (core s)) (_filename s) m'
                           (mtimes s)) = []) by now apply cached_nil.
    rewrite Hc. reflexivity.
Qed.

Lemma elem_of_concat {A} (x : A) (ls : list (list A)) :
  x ∈ concat ls <-> exists l, x ∈ l /\ l ∈ ls.
Proof.
  induction ls as [|l ls IH]; cbn [concat].
  - split; [intros H; inversion H|intros (l & _ & H); inversion H].
  - rewrite elem_of_app, IH. split.
    + intros [H|(l' & H & Hin)].
      * exists l. split; [exact H|apply list_elem_of_here].
      * exists l'. split; [exact H|now apply list_elem_of_further].
    + intros (l' & H & Hin). apply elem_of_cons in Hin as [->|Hin].
      * now left.
      * right. eauto.
Qed.

(** X10. The combined calendar holds the events of the cached
    calendars and no other. *)
Theorem combined_calendar_events (s s' : session) (fqdn rem : str)
    (l : list vevent) :
  to_vobject_combined fqdn rem s = (Val l, s') ->
  forall ve : vevent,
    ve ∈ l <->
    exists f cal, _icals (obj (core s')) !! f = Some cal /\ ve ∈ cal.
Proof.
  unfold to_vobject_combined. rewrite run_bind.
  destruct (_update fqdn rem s) as [[[]|e|] s1]; try discriminate.
  rewrite run_get. intros H. injection H as <- <-. intros ve.
  rewrite elem_of_concat. split.
  - intros (cal & Hve & Hcal). apply list_elem_of_fmap in Hcal.
    destruct Hcal as ([f c] & -> & Hin). apply elem_of_map_to_list in Hin.
    eauto.
  - intros (f & cal & Hf & Hve). exists cal. split; [exact Hve|].
    apply list_elem_of_fmap. exists (f, cal). split; [reflexivity|].
    now apply elem_of_map_to_list.
Qed.

End cache_failures.

Section first_calls.

Import Remind.

(** X11. The first two calls. The constructor leaves the time of the
    latest load at 0 and the first load does not move it (its loop runs
    over an empty cache); so the second call finds a file it has just
    cached newer than the latest load, and parses everything again. *)
Theorem second_call_loads_again (localtz : tzinfo)
    (filename fqdn rem1 rem2 f : str) (files : gmap str str)
    (stamps : gmap str Z) (icals1 icals2 : list (str * list vevent))
    (cal : list vevent) (m : Z) :
  _parse_remind (Self localtz false ∅) fqdn files rem1 [] = Val icals1 ->
  _parse_remind (Self localtz false ∅) fqdn files rem2 [] = Val icals2 ->
  (forall g c, (list_to_map icals1 : gmap str (list vevent)) !! g = Some c ->
     exists k, stamps !! g = Some k) ->
  (list_to_map icals1 : gmap str (list vevent)) !! f = Some cal ->
  stamps !! f = Some m ->
  0 < m ->
  exists s1 s2,
    _update fqdn rem1 (__init__ localtz filename files stamps) = (Val tt, s1)
    /\ _mtime s1 = 0
    /\ _icals (obj (core s1)) = list_to_map icals1
    /\ _update fqdn rem2 s1 = (Val tt, s2)
    /\ _icals (obj (core s2)) = list_to_map icals2
    /\ 0 < _mtime s2.
Proof.
  intros Hp1 Hp2 Hst Hf Hm Hpos.
  set (s0 := __init__ localtz filename files stamps).
  destruct (update_loads s0 fqdn rem1) as (m1 & Hu1 & _ & _ & Hk1).
  { reflexivity. }
  { intros g c Hg. cbn in Hg. rewrite lookup_empty in Hg. discriminate. }
  { now left. }
  cbn [s0 __init__ core obj _localtz disk _filename mtimes _mtime] in Hu1, Hk1.
  rewrite Hp1 in Hu1.
  assert (m1 = 0) as ->.
  { destruct Hk1 as [Hk1|(g & c & Hg & _)]; [exact Hk1|].
    cbn in Hg. rewrite lookup_empty in Hg. discriminate. }
  set (s1 := Session (World (Self localtz false (list_to_map icals1)) files)
                     filename 0 stamps) in *.
  destruct (update_loads s1 fqdn rem2) as (m2 & Hu2 & _ & Hall & _).
  { reflexivity. }
  { exact Hst. }
  { right. exists f, cal, m. now repeat split. }
  cbn [s1 core obj _localtz disk _filename mtimes _mtime] in Hu2.
  rewrite (parse_remind_self _ (Self localtz false ∅)), Hp2 in Hu2
    by reflexivity.
  exists s1. eexists. split; [exact Hu1|]. split; [reflexivity|].
  split; [reflexivity|]. split; [exact Hu2|]. split; [reflexivity|].
  cbn [_mtime]. specialize (Hall f cal m Hf Hm). lia.
Qed.

Lemma parse_remind_loop_stdin (self : t) (fqdn : str)
    (files files' : gmap str str) (lines : str) (records : list str) :
  lines <> [] ->
  forall acc,
    _parse_remind_loop self fqdn files lines acc records
    = _parse_remind_loop self fqdn files' lines acc records.
Proof.
  intros H. destruct lines as [|c lines]; [contradiction|].
  induction records as [|r records IH]; intros acc; [reflexivity|].
  cbn [_parse_remind_loop].
  change (_parse_remind_record self fqdn files (c :: lines) acc r)
    with (_parse_remind_record self fqdn files' (c :: lines) acc r).
  destruct (_parse_remind_record self fqdn files' (c :: lines) acc r);
    cbn; auto.
Qed.

(** X12. Commands handed in as text: the process is run once, with
    [-] as file name, the month count and the start date of the object
    on its command line and [lines] on its standard input. When
    [lines] is not empty no file is read to make the calendar of what
    the process prints, so the calendar depends on the object through
    its zone, its start date and its month count only, and not on the
    files, the cache or the lock. *)
Theorem stdin_reads_no_file (popen : list str -> str -> outcome str)
    (a b : t) (opts : options) (fqdn lines : str)
    (files files' : gmap str str) :
  lines <> [] ->
  _localtz a = _localtz b ->
  stdin_to_vobject popen a opts fqdn files lines
  = stdin_to_vobject popen b opts fqdn files' lines
  /\ stdin_to_vobject popen a opts fqdn files lines
     = (rem ← popen [py "remind"; py "-l";
                     py "-s" ++ PyStr.str_of_Z (_month opts); py "-b1";
                     py "-r"; py "-"; isoformat (_startdate opts)] lines;
        icals ← _parse_remind a fqdn ∅ rem lines;
        Val (alist_get (py "-") icals)).
Proof.
  intros Hl Htz.
  assert (H : forall (c : t) (fs : gmap str str),
            _localtz a = _localtz c ->
            stdin_to_vobject popen a opts fqdn files lines
            = (rem ← popen (remind_cmd opts (py "-")) lines;
               icals ← _parse_remind c fqdn fs rem lines;
               Val (alist_get (py "-") icals))).
  { intros c fs Hc. unfold stdin_to_vobject, _parse_remind_popen.
    replace (match lines with [] => py "-" | _ => py "-" end)
      with (py "-") by now destruct lines.
    destruct (popen (remind_cmd opts (py "-")) lines) as [rem|e|];
      [|reflexivity..].
    cbn [mbind outcome_bind].
    rewrite (parse_remind_self a c) by exact Hc.
    unfold _parse_remind. destruct rem; [reflexivity|].
    now rewrite (parse_remind_loop_stdin c fqdn files fs). }
  split; [|exact (H a ∅ eq_refl)].
  rewrite (H b files' Htz). unfold stdin_to_vobject, _parse_remind_popen.
  replace (match lines with [] => py "-" | _ => py "-" end)
    with (py "-") by now destruct lines.
  destruct (popen (remind_cmd opts (py "-")) lines); reflexivity.
Qed.

End first_calls.

Lemma fresh_cache_untouched_witness :
  Remind._update (py "host") [] Sample.loaded = (Val tt, Sample.loaded)
  /\ Remind.get_filesnames (py "host") [] Sample.loaded
     = (Val (dom (Remind._icals (Remind.obj (Remind.core Sample.loaded)))),
        Sample.loaded)
  /\ Remind.to_vobject (py "host") [] (py "other.rem") Sample.loaded
     = (Val (default []
               (Remind._icals (Remind.obj (Remind.core Sample.loaded))
                  !! py "other.rem")),
        Sample.loaded)
  /\ Remind.to_vobject_combined (py "host") [] Sample.loaded
     = (Val (concat
               (map_to_list
                  (Remind._icals (Remind.obj (Remind.core Sample.loaded)))).*2),
        Sample.loaded).
Proof.
  apply (fresh_cache_untouched Sample.loaded (py "host") [] (py "other.rem")).
  - apply map_non_empty_singleton.
  - intros f cal H.
    change (({[ Sample.file := [] ]} : gmap str (list vevent)) !! f = Some cal)
      in H.
    apply lookup_singleton_Some in H as [<- _].
    exists 100. split; [reflexivity|cbn; lia].
Defined.

Lemma sample_cache (f : str) (cal : list vevent) :
  Remind._icals (Remind.obj Sample.world) !! f = Some cal ->
  f = Sample.file /\ Sample.stamps !! f = Some 100.
Proof.
  intros H.
  change (({[ Sample.file := [] ]} : gmap str (list vevent)) !! f = Some cal)
    in H.
  apply lookup_singleton_Some in H as [<- _]. split; reflexivity.
Qed.

Lemma stale_cache_reloads_witness :
  exists m',
    Remind._update (py "host") Sample.timed_record Sample.stale
    = (Val tt,
       Remind.Session
         (Remind.World
            (Remind.Self Sample.tz false
               (list_to_map [(Sample.file, [Sample.timed_event])]))
            (Remind.disk Sample.world))
         Sample.file m' Sample.stamps)
    /\ 0 <= m'.
Proof.
  destruct (stale_cache_reloads Sample.stale (py "host") Sample.timed_record
              [(Sample.file, [Sample.timed_event])])
    as (m' & Hu & Hle & _).
  - reflexivity.
  - intros f cal H. apply sample_cache in H as [_ H]. now exists 100.
  - right. exists Sample.file, [], 100.
    split; [reflexivity|split; [reflexivity|]]. cbn. lia.
  - vm_compute. reflexivity.
  - exists m'. split; [exact Hu|exact Hle].
Defined.

Lemma missing_file_blocks_readers_witness :
  (Remind.to_vobject (py "host") [] Sample.file
     (Remind.Session Sample.world Sample.file 100 ∅)).1
  = Exn IOError.
Proof.
  apply (missing_file_blocks_readers
           (Remind.Session Sample.world Sample.file 100 ∅)
           (py "host") [] Sample.file Sample.file []).
  - reflexivity.
  - reflexivity.
Defined.

Lemma failed_load_keeps_lock_witness :
  exists s',
    Remind._update (py "host")
      (py "# 1 1 mylife.rem 1/1/2024 * * 600 * Meeting at Office") Sample.stale
    = (Exn ValueError, s')
    /\ Remind.core s' = Remind.set_lock true Sample.world.
Proof.
  destruct (failed_load_keeps_lock Sample.stale (py "host")
              (py "# 1 1 mylife.rem 1/1/2024 * * 600 * Meeting at Office")
              ValueError)
    as (s' & Hu & Hc & _).
  - reflexivity.
  - intros f cal H. apply sample_cache in H as [_ H]. now exists 100.
  - right. exists Sample.file, [], 100.
    split; [reflexivity|split; [reflexivity|]]. cbn. lia.
  - vm_compute. reflexivity.
  - exists s'. split; [exact Hu|exact Hc].
Defined.

Lemma combined_calendar_events_witness :
  Sample.timed_event ∈ [Sample.timed_event] <->
  exists f cal,
    (list_to_map [(Sample.file, [Sample.timed_event])]
       : gmap str (list vevent)) !! f = Some cal
    /\ Sample.timed_event ∈ cal.
Proof.
  set (s := Remind.Session
              (Remind.World
                 (Remind.Self Sample.tz false
                    (list_to_map [(Sample.file, [Sample.timed_event])]))
                 (Remind.disk Sample.world))
              Sample.file 100 Sample.stamps).
  assert (H : Remind.to_vobject_combined (py "host") [] s
              = (Val [Sample.timed_event], s)) by (vm_compute; reflexivity).
  exact (combined_calendar_events s s (py "host") [] [Sample.timed_event] H
           Sample.timed_event).
Defined.

Lemma second_call_loads_again_witness :
  exists s1 s2,
    Remind._update (py "host") Sample.timed_record
      (Remind.__init__ Sample.tz Sample.file (Remind.disk Sample.world)
         Sample.stamps)
    = (Val tt, s1)
    /\ Remind._mtime s1 = 0
    /\ Remind._update (py "host") Sample.timed_record s1 = (Val tt, s2)
    /\ 0 < Remind._mtime s2.
Proof.
  destruct (second_call_loads_again Sample.tz Sample.file (py "host")
              Sample.timed_record Sample.timed_record Sample.file
              (Remind.disk Sample.world) Sample.stamps
              [(Sample.file, [Sample.timed_event])]
              [(Sample.file, [Sample.timed_event])]
              [Sample.timed_event] 100)
    as (s1 & s2 & H1 & H2 & _ & H3 & _ & H4).
  - vm_compute. reflexivity.
  - vm_compute. reflexivity.
  - intros g c H. cbn [list_to_map foldr uncurry fst snd] in H.
    apply lookup_insert_Some in H as [[<- _]|[_ H]].
    + now exists 100.
    + rewrite lookup_empty in H. discriminate.
  - reflexivity.
  - reflexivity.
  - lia.
  - exists s1, s2. now repeat split.
Defined.

Lemma stdin_reads_no_file_witness :
  let popen (cmd : list str) (input : str) : outcome str :=
    if decide (cmd = map py ["remind"; "-l"; "-s15"; "-b1"; "-r"; "-";
                             "2024-01-01"]%string)
    then Val (py "# 1 1 - 2024/2/2 * * * * Dentist")
    else Exn IOError in
  let opts := Remind.Options (Date 738886) 15 in
  Remind.stdin_to_vobject popen Sample.self opts (py "host")
    (Remind.disk Sample.world) (py "REM Feb 2 2024 MSG Dentist")
  = Val (Some [set_uid
                 (Remind._gen_uid (py "host") (py "1")
                    (py "REM Feb 2 2024 MSG Dentist"))
                 Sample.dentist])
  /\ Remind.stdin_to_vobject popen (Remind.Self Sample.tz true ∅) opts
       (py "host") ∅ (py "REM Feb 2 2024 MSG Dentist")
     = Val (Some [set_uid
                    (Remind._gen_uid (py "host") (py "1")
                       (py "REM Feb 2 2024 MSG Dentist"))
                    Sample.dentist]).
Proof.
  intros popen opts.
  destruct (stdin_reads_no_file popen Sample.self
              (Remind.Self Sample.tz true ∅) opts (py "host")
              (py "REM Feb 2 2024 MSG Dentist") (Remind.disk Sample.world) ∅)
    as [H1 H2].
  - discriminate.
  - reflexivity.
  - rewrite <- H1, H2. split; vm_compute; reflexivity.
Defined.

(** * More on the mutations of a file *)

Section lines.

Import Remind.

Lemma splitlines_go_body (body : str) : forall (cur s : str),
  Forall (fun c => PyStr.islinebreak c = false) body ->
  PyStr.splitlines_go cur (body ++ s) = PyStr.splitlines_go (rev body ++ cur) s.
Proof.
  induction body as [|c body IH]; intros cur s H; [reflexivity|].
  apply Forall_cons in H as [Hc H].
  cbn [app PyStr.splitlines_go]. rewrite Hc, IH by exact H.
  cbn [rev]. now rewrite <- app_assoc.
Qed.

Lemma splitlines_go_lf (cur s : str) :
  PyStr.splitlines_go cur (10%N :: s)
  = rev (10%N :: cur) :: PyStr.splitlines_go [] s.
Proof. destruct s; reflexivity. Qed.

Lemma splitlines_lf_line (l s : str) :
  PyStr.lf_line l ->
  PyStr.splitlines_keepends (l ++ s) = l :: PyStr.splitlines_keepends s.
Proof.
  intros (body & -> & H). unfold PyStr.splitlines_keepends.
  rewrite <- app_assoc, splitlines_go_body by exact H.
  cbn [app]. rewrite splitlines_go_lf. cbn [rev].
  now rewrite app_nil_r, rev_involutive.
Qed.

(** Lines that each end in a line feed, written one after the other
    and read again, are the same lines. *)
Lemma splitlines_lf_lines (ls : list str) :
  Forall PyStr.lf_line ls -> PyStr.splitlines_keepends (concat ls) = ls.
Proof.
  induction ls as [|l ls IH]; intros H; [reflexivity|].
  apply Forall_cons in H as [Hl H]. cbn [concat].
  rewrite splitlines_lf_line by exact Hl. now rewrite IH.
Qed.

Lemma run_readlines {B} (filename : str) (k : list str -> prog world B)
    (w : world) :
  (readlines filename ≫= k) w
  = match disk w !! filename with
    | Some content => k (PyStr.splitlines_keepends content) w
    | None => (Exn IOError, w)
    end.
Proof.
  rewrite run_bind. unfold readlines. now destruct (disk w !! filename).
Qed.

End lines.

Section rewriting_more.

Import Remind.

Lemma gen_uid_guards (fqdn line : str) (n : Z) :
  0 < n ->
  split_uid (_gen_uid fqdn (PyStr.str_of_Z n) line)
  = Val [PyStr.str_of_Z n; sha1_hex line]
  /\ PyStr.int (PyStr.str_of_Z n) = Val n.
Proof.
  intros Hn. split.
  - apply split_uid_parts; [apply str_of_Z_plain; lia|apply hexdigest_plain].
  - apply int_str_of_Z. lia.
Qed.

Lemma run_acquire {B} (k : unit -> prog world B) (w : world) :
  (acquire ≫= k) w
  = if _lock (obj w) then (Hang, w) else k tt (set_lock true w).
Proof. rewrite run_bind. unfold acquire. now destruct (_lock (obj w)). Qed.

(** [append] once the file is known to the cache. *)
Lemma append_known (w : world) (ical : outcome (list vevent))
    (filename : str) :
  known filename w = true ->
  _lock (obj w) = false ->
  let opened :=
    World (obj w)
      (<[filename := default ([] : str) (disk w !! filename)]> (disk w)) in
  append ical filename w
  = match events ← ical; (to_reminds (obj w) None None events).1 with
    | Val text =>
        (Val tt,
         World (obj w)
           (<[filename := default ([] : str) (disk w !! filename) ++ text]>
              (disk w)))
    | Exn e => (Exn e, set_lock true opened)
    | Hang => (Hang, set_lock true opened)
    end.
Proof.
  intros Hk Hl opened. unfold append. rewrite run_get, Hk. cbn [negb].
  rewrite run_acquire, Hl, run_bind. unfold open_append at 1.
  cbn [obj disk set_lock]. rewrite run_lift.
  destruct ical as [events|e|]; try reflexivity.
  cbn [mbind outcome_bind]. rewrite run_lift.
  destruct (to_reminds (obj w) None None events).1 as [text|e|]; try reflexivity.
  rewrite run_bind. unfold write_append at 1, release. cbn [obj disk set_lock].
  rewrite lookup_insert_eq. cbn [default]. rewrite insert_insert_eq.
  destruct w as [[tz l i] d]. cbn in *. now subst l.
Qed.

(** X13. [append] to a cached file, the lock free: the commands of the
    calendar, written without label and priority, are added at the end
    of the file, the text before them stays, the lock is free again and
    the cache is as it was. *)
Theorem append_adds_commands (w : world) (filename content text : str)
    (events : list vevent) :
  known filename w = true ->
  _lock (obj w) = false ->
  disk w !! filename = Some content ->
  (to_reminds (obj w) None None events).1 = Val text ->
  append (Val events) filename w
  = (Val tt, World (obj w) (<[filename := content ++ text]> (disk w))).
Proof.
  intros Hk Hl Hf Ht. rewrite append_known by assumption.
  cbn [mbind outcome_bind]. now rewrite Ht, Hf.
Qed.

(** X14. [replace] with the identity of a line as it stands in the
    file puts the commands of the calendar in the place of that line;
    the lines before and after it are written as they were read. *)
Theorem replace_current_line (w : world)
    (filename fqdn content line text : str) (before after : list str)
    (events : list vevent) :
  known filename w = true ->
  _lock (obj w) = false ->
  disk w !! filename = Some content ->
  PyStr.splitlines_keepends content = before ++ line :: after ->
  (to_reminds (obj w) None None events).1 = Val text ->
  let n := Z.of_nat (length before) + 1 in
  replace (_gen_uid fqdn (PyStr.str_of_Z n) line) (Val events) filename w
  = (Val tt,
     World (obj w)
       (<[filename := concat before ++ text ++ concat after]> (disk w))).
Proof.
  intros Hk Hl Hf Hlines Ht n.
  destruct (gen_uid_guards fqdn line n) as [Hs Hn]; [lia|].
  rewrite (replace_guards w _ filename _ _ (Val events) n Hk Hs Hn).
  unfold locked_update. rewrite Hl, Hf, Hlines.
  replace (n - 1) with (Z.of_nat (length before)) by lia.
  unfold PySeq.getitem, PySeq.setitem. rewrite norm_index_middle.
  rewrite list_lookup_middle by reflexivity.
  cbn [of_option mbind outcome_bind]. rewrite eqb_refl.
  cbn [mbind outcome_bind]. rewrite Ht. cbn [mbind outcome_bind fmap outcome_fmap].
  rewrite insert_app_r_alt by lia. rewrite Nat.sub_diag. cbn [insert list_insert].
  rewrite concat_app. reflexivity.
Qed.

(** X15. A calendar that cannot be read or written as commands: the
    exception of [readOne] or of [to_reminds] leaves [append], and
    [replace] on a line it has found, with the lock held and the file
    as it was. *)
Theorem unreadable_calendar_keeps_lock (w : world)
    (filename fqdn content line : str) (before after : list str)
    (ical : outcome (list vevent)) (e : exn) :
  known filename w = true ->
  _lock (obj w) = false ->
  disk w !! filename = Some content ->
  PyStr.splitlines_keepends content = before ++ line :: after ->
  (events ← ical; (to_reminds (obj w) None None events).1) = Exn e ->
  let n := Z.of_nat (length before) + 1 in
  append ical filename w = (Exn e, set_lock true w)
  /\ replace (_gen_uid fqdn (PyStr.str_of_Z n) line) ical filename w
     = (Exn e, set_lock true w)
  /\ _lock (obj (set_lock true w)) = true
  /\ disk (set_lock true w) = disk w.
Proof.
  intros Hk Hl Hf Hlines He n. split; [|split; [|split; reflexivity]].
  - rewrite append_known by assumption. rewrite He, Hf. cbn [default].
    rewrite insert_id by exact Hf. now destruct w.
  - destruct (gen_uid_guards fqdn line n) as [Hs Hn]; [lia|].
    rewrite (replace_guards w _ filename _ _ ical n Hk Hs Hn).
    unfold locked_update. rewrite Hl, Hf, Hlines.
    replace (n - 1) with (Z.of_nat (length before)) by lia.
    unfold PySeq.getitem. rewrite norm_index_middle.
    rewrite list_lookup_middle by reflexivity.
    cbn [of_option mbind outcome_bind]. rewrite eqb_refl.
    destruct ical as [events|e'|]; cbn [mbind outcome_bind] in *.
    + rewrite He. reflexivity.
    + now injection He as ->.
    + discriminate.
Qed.

End rewriting_more.

Section composing.

Import Remind.

Lemma world_eta (w : world) : World (obj w) (disk w) = w.
Proof. now destruct w. Qed.

Lemma lines_of_text (content : str) (ls : list str) :
  PyStr.splitlines_keepends content = ls -> content = concat ls.
Proof. intros <-. symmetry. apply lines_rejoin. Qed.

(** The file after a line has been written over or taken out, read
    again. *)
Lemma readlines_written (w : world) (filename : str) (ls : list str) :
  Forall PyStr.lf_line ls ->
  readlines filename (World (obj w) (<[filename := concat ls]> (disk w)))
  = (Val ls, World (obj w) (<[filename := concat ls]> (disk w))).
Proof.
  intros H. unfold readlines. cbn [disk]. rewrite lookup_insert_eq.
  now rewrite splitlines_lf_lines.
Qed.

(** [remove] with the identity of line [n] of a file whose lines are
    [before ++ line :: after]. *)
Lemma remove_line (w : world) (filename fqdn content line : str)
    (before after : list str) :
  known filename w = true ->
  _lock (obj w) = false ->
  disk w !! filename = Some content ->
  PyStr.splitlines_keepends content = before ++ line :: after ->
  remove (_gen_uid fqdn (PyStr.str_of_Z (Z.of_nat (length before) + 1)) line)
    filename w
  = (Val tt,
     World (obj w) (<[filename := concat (before ++ after)]> (disk w))).
Proof.
  intros Hk Hl Hf Hlines. set (n := Z.of_nat (length before) + 1).
  destruct (gen_uid_guards fqdn line n) as [Hs Hn]; [lia|].
  rewrite (remove_guards w _ filename _ _ n Hk Hs Hn).
  unfold locked_update. rewrite Hl, Hf, Hlines.
  replace (n - 1) with (Z.of_nat (length before)) by lia.
  unfold PySeq.getitem, PySeq.delitem. rewrite norm_index_middle.
  rewrite list_lookup_middle by reflexivity.
  cbn [of_option mbind outcome_bind]. rewrite eqb_refl.
  cbn [fmap outcome_fmap]. now rewrite delete_middle.
Qed.

(** X16. [append] and then [remove]: when the lines of the file end in
    line feeds and the calendar makes one such line, that line is
    added as line [n + 1] of a file of [n] lines, and [remove] with
    the identity of that line puts the file back as it was. *)
Theorem append_then_remove (w : world) (filename fqdn content text : str)
    (ls : list str) (events : list vevent) :
  known filename w = true ->
  _lock (obj w) = false ->
  disk w !! filename = Some content ->
  PyStr.splitlines_keepends content = ls ->
  Forall PyStr.lf_line ls ->
  PyStr.lf_line text ->
  (to_reminds (obj w) None None events).1 = Val text ->
  let n := Z.of_nat (length ls) + 1 in
  exists w1 : world,
    append (Val events) filename w = (Val tt, w1)
    /\ readlines filename w1 = (Val (ls ++ [text]), w1)
    /\ remove (_gen_uid fqdn (PyStr.str_of_Z n) text) filename w1 = (Val tt, w).
Proof.
  intros Hk Hl Hf Hlines Hls Ht Hr n.
  pose proof (lines_of_text content ls Hlines) as Hc.
  assert (Hc' : content ++ text = concat (ls ++ [text])).
  { rewrite concat_app, Hc. cbn [concat]. now rewrite app_nil_r. }
  assert (Hall : Forall PyStr.lf_line (ls ++ [text])).
  { apply Forall_app. split; [exact Hls|now constructor]. }
  exists (World (obj w) (<[filename := content ++ text]> (disk w))).
  split; [|split].
  - rewrite append_known by assumption. cbn [mbind outcome_bind].
    now rewrite Hr, Hf.
  - rewrite Hc'. now apply readlines_written.
  - subst n.
    rewrite (remove_line (World (obj w) (<[filename := content ++ text]> (disk w)))
               filename fqdn (content ++ text) text ls []).
    + cbn [obj disk]. rewrite app_nil_r, insert_insert_eq, <- Hc.
      rewrite insert_id by exact Hf. now rewrite world_eta.
    + exact Hk.
    + exact Hl.
    + cbn [disk]. now rewrite lookup_insert_eq.
    + rewrite Hc'. now apply splitlines_lf_lines.
Qed.

(** X17. Identities are positions. After [remove] has taken a line
    out, the lines after it have moved up by one while their
    identities still carry the old numbers: [remove] with the identity
    the last line had before finds no line at that number and raises
    [IndexError] with the lock held. *)
Theorem removal_shifts_identities (w : world)
    (filename fqdn content line last : str) (before after : list str) :
  known filename w = true ->
  _lock (obj w) = false ->
  disk w !! filename = Some content ->
  PyStr.splitlines_keepends content = before ++ line :: after ++ [last] ->
  Forall PyStr.lf_line (before ++ line :: after ++ [last]) ->
  let n := Z.of_nat (length before) + 1 in
  let m := Z.of_nat (length (before ++ line :: after ++ [last])) in
  exists w1 : world,
    remove (_gen_uid fqdn (PyStr.str_of_Z n) line) filename w = (Val tt, w1)
    /\ readlines filename w1 = (Val (before ++ after ++ [last]), w1)
    /\ remove (_gen_uid fqdn (PyStr.str_of_Z m) last) filename w1
       = (Exn IndexError, set_lock true w1).
Proof.
  intros Hk Hl Hf Hlines Hlf n m.
  set (w1 := World (obj w)
               (<[filename := concat (before ++ after ++ [last])]> (disk w))).
  assert (Hk1 : known filename w1 = true) by exact Hk.
  exists w1.
  assert (Hrest : Forall PyStr.lf_line (before ++ after ++ [last])).
  { apply Forall_app in Hlf as [H1 H2]. apply Forall_cons in H2 as [_ H2].
    apply Forall_app. now split. }
  split; [|split].
  - now apply (remove_line w filename fqdn content).
  - now apply readlines_written.
  - destruct (gen_uid_guards fqdn last m) as [Hs Hn].
    { subst m. rewrite length_app. cbn [length]. lia. }
    rewrite (remove_guards w1 _ filename _ _ m Hk1 Hs Hn).
    unfold locked_update, w1. cbn [obj disk]. rewrite Hl, lookup_insert_eq.
    rewrite splitlines_lf_lines by exact Hrest.
    unfold PySeq.getitem. rewrite norm_index_beyond; [reflexivity|].
    subst m. rewrite !length_app. cbn [length]. rewrite !length_app.
    cbn [length]. lia.
Qed.

End composing.

Lemma sample_lf_lines : Forall PyStr.lf_line [Sample.line1; Sample.line2].
Proof.
  constructor; [|constructor; [|constructor]].
  - exists (py "REM Jan 1 2024 AT 10:00 MSG Meeting at Office").
    split; [reflexivity|]. repeat constructor.
  - exists (py "REM Feb 2 2024 MSG Dentist").
    split; [reflexivity|]. repeat constructor.
Qed.

Lemma append_adds_commands_witness :
  Remind.append (Val [Sample.dentist]) Sample.file Sample.world
  = (Val tt,
     Remind.World Sample.self
       (<[Sample.file := (Sample.line1 ++ Sample.line2) ++ Sample.line2]>
          (Remind.disk Sample.world))).
Proof.
  apply (append_adds_commands Sample.world Sample.file
           (Sample.line1 ++ Sample.line2) Sample.line2 [Sample.dentist]).
  - vm_compute. reflexivity.
  - reflexivity.
  - vm_compute. reflexivity.
  - vm_compute. reflexivity.
Defined.

Lemma replace_current_line_witness :
  Remind.replace
    (Remind._gen_uid (py "host") (PyStr.str_of_Z 1) Sample.line1)
    (Val [Sample.dentist]) Sample.file Sample.world
  = (Val tt,
     Remind.World Sample.self {[ Sample.file := Sample.line2 ++ Sample.line2 ]}).
Proof.
  pose proof (replace_current_line Sample.world Sample.file (py "host")
                (Sample.line1 ++ Sample.line2) Sample.line1 Sample.line2 []
                [Sample.line2] [Sample.dentist]) as H.
  cbv zeta in H. etransitivity; [apply H|].
  - vm_compute. reflexivity.
  - reflexivity.
  - vm_compute. reflexivity.
  - vm_compute. reflexivity.
  - vm_compute. reflexivity.
  - vm_compute. reflexivity.
Defined.

Lemma unreadable_calendar_keeps_lock_witness :
  Remind.append (Exn ParseError) Sample.file Sample.world
  = (Exn ParseError, Remind.set_lock true Sample.world)
  /\ Remind.replace
       (Remind._gen_uid (py "host") (PyStr.str_of_Z 2) Sample.line2)
       (Exn ParseError) Sample.file Sample.world
     = (Exn ParseError, Remind.set_lock true Sample.world).
Proof.
  pose proof (unreadable_calendar_keeps_lock Sample.world Sample.file
                (py "host") (Sample.line1 ++ Sample.line2) Sample.line2
                [Sample.line1] [] (Exn ParseError) ParseError) as H.
  cbv zeta in H. destruct H as (H1 & H2 & _).
  - vm_compute. reflexivity.
  - reflexivity.
  - vm_compute. reflexivity.
  - vm_compute. reflexivity.
  - reflexivity.
  - split; [exact H1|exact H2].
Defined.

Lemma append_then_remove_witness :
  exists w1 : Remind.world,
    Remind.append (Val [Sample.dentist]) Sample.file Sample.world = (Val tt, w1)
    /\ Remind.readlines Sample.file w1
       = (Val [Sample.line1; Sample.line2; Sample.line2], w1)
    /\ Remind.remove
         (Remind._gen_uid (py "host") (PyStr.str_of_Z 3) Sample.line2)
         Sample.file w1
       = (Val tt, Sample.world).
Proof.
  apply (append_then_remove Sample.world Sample.file (py "host")
           (Sample.line1 ++ Sample.line2) Sample.line2
           [Sample.line1; Sample.line2] [Sample.dentist]).
  - vm_compute. reflexivity.
  - reflexivity.
  - vm_compute. reflexivity.
  - vm_compute. reflexivity.
  - exact sample_lf_lines.
  - exact (Forall_inv (Forall_inv_tail sample_lf_lines)).
  - vm_compute. reflexivity.
Defined.

Lemma removal_shifts_identities_witness :
  exists w1 : Remind.world,
    Remind.remove
      (Remind._gen_uid (py "host") (PyStr.str_of_Z 1) Sample.line1)
      Sample.file Sample.world
    = (Val tt, w1)
    /\ Remind.readlines Sample.file w1 = (Val [Sample.line2], w1)
    /\ Remind.remove
         (Remind._gen_uid (py "host") (PyStr.str_of_Z 2) Sample.line2)
         Sample.file w1
       = (Exn IndexError, Remind.set_lock true w1).
Proof.
  apply (removal_shifts_identities Sample.world Sample.file (py "host")
           (Sample.line1 ++ Sample.line2) Sample.line1 Sample.line2 [] []).
  - vm_compute. reflexivity.
  - reflexivity.
  - vm_compute. reflexivity.
  - vm_compute. reflexivity.
  - exact sample_lf_lines.
Defined.

(** * More on the conversions *)

Section weekly.

Import Remind.

Lemma weekly_loop_spaced (l : list dtvalue) : forall a,
  uniform (a :: l) ->
  exists b : bool,
    _weekly_loop a l = Val b
    /\ (b = true <-> spaced 604800 691200 (a :: l)).
Proof.
  induction l as [|x l IH]; intros a Hu.
  - exists true. cbn. tauto.
  - cbn [_weekly_loop].
    assert (Hk : kind x = kind a).
    { apply Hu; [apply list_elem_of_further, list_elem_of_here
                |apply list_elem_of_here]. }
    rewrite (sub_kind x a Hk). cbn [mbind outcome_bind].
    unfold days. cbn [total_seconds].
    destruct (Z.eqb_spec ((stamp x - stamp a) / 86400) 7) as [E|E];
      cbn [negb].
    + destruct (IH x (uniform_tail a (x :: l) Hu)) as (b & Hb & Hiff).
      exists b. split; [exact Hb|]. rewrite Hiff.
      change (spaced 604800 691200 (a :: x :: l))
        with (604800 <= stamp x - stamp a < 691200
              /\ spaced 604800 691200 (x :: l)).
      assert (604800 <= stamp x - stamp a < 691200).
      { pose proof (Z.div_mod (stamp x - stamp a) 86400).
        pose proof (Z.mod_pos_bound (stamp x - stamp a) 86400). lia. }
      tauto.
    + exists false. split; [reflexivity|].
      change (spaced 604800 691200 (a :: x :: l))
        with (604800 <= stamp x - stamp a < 691200
              /\ spaced 604800 691200 (x :: l)).
      split; [discriminate|]. intros [H _]. exfalso. apply E. symmetry.
      apply (Z.div_unique _ _ 7 (stamp x - stamp a - 604800)); lia.
Qed.

Lemma spaced_dates (dates : list date) :
  spaced 604800 691200 (map D dates) <-> gaps (timedelta_days 7) (map D dates).
Proof.
  induction dates as [|a [|b dates] IH]; [cbn; tauto|cbn; tauto|].
  change (604800 <= toordinal b * 86400 - toordinal a * 86400 < 691200
          /\ spaced 604800 691200 (map D (b :: dates))
          <-> Val (timedelta_days (toordinal b - toordinal a))
              = Val (timedelta_days 7)
              /\ gaps (timedelta_days 7) (map D (b :: dates))).
  rewrite IH. unfold timedelta_days. split.
  - intros [H1 H2]. split; [|exact H2]. do 2 f_equal. lia.
  - intros [H1 H2]. split; [|exact H2]. injection H1 as H1. lia.
Qed.

(** X18. [_weekly] looks at the whole days of each gap: it returns
    [True] exactly when each occurrence lies at least 7 and less than
    8 days after the one before it; for dates, exactly 7 days. A list
    of one occurrence is weekly, an empty one raises [IndexError]. *)
Theorem weekly_exact (l : list dtvalue) :
  uniform l ->
  match l with
  | [] => _weekly l = Exn IndexError
  | _ =>
      exists b : bool,
        _weekly l = Val b
        /\ (b = true <-> spaced 604800 691200 l)
        /\ (forall dates : list date,
              l = map D dates ->
              (b = true <-> gaps (timedelta_days 7) l))
  end.
Proof.
  intros Hu. destruct l as [|a l]; [reflexivity|].
  unfold _weekly. rewrite getitem_0. cbn [mbind outcome_bind drop].
  destruct (weekly_loop_spaced l a Hu) as (b & Hb & Hiff).
  exists b. split; [exact Hb|]. split; [exact Hiff|].
  intros dates E. rewrite Hiff, E. apply spaced_dates.
Qed.

End weekly.

Lemma weekly_exact_witness :
  exists b : bool,
    Remind._weekly (map D [Date 738886; Date 738893; Date 738901]) = Val b
    /\ (b = true <->
        spaced 604800 691200 (map D [Date 738886; Date 738893; Date 738901])).
Proof.
  destruct (weekly_exact (map D [Date 738886; Date 738893; Date 738901]))
    as (b & H1 & H2 & _).
  - apply uniform_dates.
  - exists b. split; [exact H1|exact H2].
Defined.

Section explicit_dates.

Import Remind.

Lemma ascending_later (l : list date) : forall a,
  ascending (a :: l) -> Forall (fun x => toordinal a < toordinal x) l.
Proof.
  induction l as [|b l IH]; intros a H; [constructor|].
  destruct H as [Hab H]. constructor; [exact Hab|].
  eapply Forall_impl; [exact (IH b H)|]. cbn. intros; lia.
Qed.

Lemma max_go_ascending (l : list date) : forall a,
  ascending (a :: l) ->
  DateTime.max_go (D a) (map D l) = Val (D (List.last l a)).
Proof.
  induction l as [|b l IH]; intros a H; [reflexivity|].
  destruct H as [Hab H]. cbn [map DateTime.max_go lt mbind outcome_bind].
  destruct (Z.ltb_spec (toordinal a) (toordinal b)); [|lia].
  rewrite IH by exact H. now rewrite last_cons_default.
Qed.

Lemma min_go_ascending (l : list date) (a : date) :
  ascending (a :: l) -> DateTime.min_go (D a) (map D l) = Val (D a).
Proof.
  intros H. apply min_go_later.
  - apply (uniform_dates (a :: l)).
  - apply Forall_map. eapply Forall_impl; [exact (ascending_later l a H)|].
    cbn. intros; lia.
Qed.

(** Among dates none of which is the day [x], nothing is dropped. *)
Lemma remove_first_absent (x : date) (l : list date) :
  Forall (fun y => toordinal y <> toordinal x) l ->
  remove_first (DT (datetime_of_date x)) (map DT (map datetime_of_date l))
  = map DT (map datetime_of_date l).
Proof.
  induction l as [|y l IH]; intros H; [reflexivity|].
  apply Forall_cons in H as [Hy H]. cbn [map remove_first].
  assert (E : DateTime.eq (DT (datetime_of_date y)) (DT (datetime_of_date x))
              = false).
  { unfold DateTime.eq, readings, datetime_of_date, naive_seconds.
    cbn [dt_tzinfo dt_date dt_second]. apply Z.eqb_neq. lia. }
  rewrite E. now rewrite IH.
Qed.

Lemma dates_back (l : list date) :
  map (fun x => D (date_of x)) (map DT (map datetime_of_date l)) = map D l.
Proof. rewrite !map_map. apply map_ext. now intros []. Qed.

(** X19. Dates that are neither days in a row nor a week apart each
    are kept one by one: the event starts on the first, ends the day
    after it, carries no rule, and holds all the dates, the first
    among them, in one RDATE line. *)
Theorem irregular_dates_as_rdate (first : date) (rest : list date)
    (ve : vevent) :
  ascending (first :: rest) ->
  2 <= toordinal first < max_ordinal ->
  toordinal (List.last rest first) - toordinal first
  <> Z.of_nat (length rest) ->
  ~ gaps (timedelta_days 7) (map D (first :: rest)) ->
  _gen_dtend_rrule (map D (first :: rest)) ve
  = Val (VEvent (Some (D first)) (Some (D (Date (toordinal first + 1))))
           (duration ve) (summary ve) (uid ve) (location ve) (description ve)
           (valarm_list ve) [] [map D (first :: rest)]).
Proof.
  intros Hasc Hrange Hspan Hweek.
  unfold _gen_dtend_rrule. cbn [DateTime.max DateTime.min map].
  rewrite max_go_ascending, min_go_ascending by exact Hasc.
  cbn [mbind outcome_bind sub]. rewrite days_timedelta_days.
  cbn [length]. rewrite length_map.
  destruct (Z.eqb_spec (toordinal (List.last rest first) - toordinal first)
                       (Z.of_nat (S (length rest)) - 1)) as [E|_]; [lia|].
  unfold _weekly. rewrite getitem_0. cbn [mbind outcome_bind drop].
  destruct (weekly_loop_spaced (map D rest) (D first)
              (uniform_dates (first :: rest))) as (b & Hb & Hiff).
  rewrite drop_0, Hb. cbn [mbind outcome_bind].
  destruct b.
  { exfalso. apply Hweek. apply (spaced_dates (first :: rest)).
    now apply Hiff. }
  cbn [is_datetime negb mbind outcome_bind].
  replace (datetime_of_date (date_of (D first))
           :: map (fun dat => datetime_of_date (date_of dat)) (map D rest))
    with (map datetime_of_date (first :: rest))
    by (cbn [map date_of]; now rewrite map_map).
  rewrite sub_td_day by lia. cbn [mbind outcome_bind].
  unfold set_rruleset_rdates. cbn [dtstart set_dtstart attr of_option].
  cbn [mbind outcome_bind is_datetime].
  rewrite remove_first_absent.
  2:{ constructor; [cbn; lia|].
      eapply Forall_impl; [exact (ascending_later rest first Hasc)|].
      cbn. intros; lia. }
  rewrite dates_back. cbn [map].
  unfold add. rewrite days_timedelta_days.
  destruct (Z.leb_spec 1 (toordinal first + 1)); [|lia].
  destruct (Z.leb_spec (toordinal first + 1) max_ordinal); [|lia].
  reflexivity.
Qed.

(** X20. An all-day event with explicit dates and no rule: [to_remind]
    writes no date after [REM]; all the dates of the first RDATE line
    come after the priority as one SATISFY clause, and the event is
    left as it is. *)
Theorem rdate_event_to_remind (self : t) (label : option str)
    (priority : option Z) (ve : vevent) (s e : date) (line : list dtvalue)
    (more : list (list dtvalue)) (msg : list str) :
  dtstart ve = Some (D s) -> dtend ve = Some (D e) ->
  toordinal e - toordinal s <= 1 ->
  rrule_list ve = [] -> rdate_list ve = line :: more ->
  _gen_msg ve label = Val msg ->
  to_remind_clauses self label priority ve
  = (Val ([py "REM"] ++ priority_clause priority ++ [_parse_rdate line] ++ msg),
     ve).
Proof.
  intros Hs He Hspan Hr Hd Hmsg. unfold to_remind_clauses.
  rewrite run_get, Hr, run_lift, Hd, run_lift.
  unfold _event_duration. rewrite He, Hs, run_lift.
  cbn [attr of_option mbind outcome_bind sub].
  rewrite run_lift. cbn [is_datetime negb andb].
  rewrite days_timedelta_days.
  destruct (Z.ltb_spec 1 (toordinal e - toordinal s)); [lia|].
  rewrite run_ret, run_get, run_lift, Hs. cbn [attr of_option].
  rewrite run_lift, Hd, run_lift, Hmsg.
  unfold mret, prog_ret. rewrite <- ?app_assoc. reflexivity.
Qed.

End explicit_dates.

Lemma irregular_dates_as_rdate_witness :
  Remind._gen_dtend_rrule
    (map D [Date 738886; Date 738888; Date 738893])
    (set_dtstart (D (Date 738886)) new_vevent)
  = Val (VEvent (Some (D (Date 738886))) (Some (D (Date 738887))) None None
           None None None [] []
           [map D [Date 738886; Date 738888; Date 738893]]).
Proof.
  apply (irregular_dates_as_rdate (Date 738886) [Date 738888; Date 738893]
           (set_dtstart (D (Date 738886)) new_vevent)).
  - cbn. lia.
  - unfold max_ordinal. cbn. lia.
  - cbn. lia.
  - intros [H _]. vm_compute in H. discriminate H.
Defined.

Lemma rdate_event_to_remind_witness :
  Remind.to_remind_clauses Sample.self None None
    (VEvent (Some (D (Date 738886))) (Some (D (Date 738887))) None
       (Some (py "Market")) None None None [] []
       [map D [Date 738886; Date 738888; Date 738893]])
  = (Val [py "REM";
          py "SATISFY [trigdate()=='2024-01-01'||trigdate()=='2024-01-03'||trigdate()=='2024-01-08']";
          py "MSG"; py "Market"],
     VEvent (Some (D (Date 738886))) (Some (D (Date 738887))) None
       (Some (py "Market")) None None None [] []
       [map D [Date 738886; Date 738888; Date 738893]]).
Proof.
  etransitivity;
    [apply (rdate_event_to_remind Sample.self None None _ (Date 738886)
              (Date 738887) (map D [Date 738886; Date 738888; Date 738893]) []
              [py "MSG"; py "Market"])|].
  - reflexivity.
  - reflexivity.
  - cbn. lia.
  - reflexivity.
  - reflexivity.
  - vm_compute. reflexivity.
  - vm_compute. reflexivity.
Defined.

Section yearly.

Import Remind.

Lemma to_remind_clauses_after (self : t) (label : option str)
    (priority : option Z) (ve : vevent) :
  to_remind_clauses self label priority ve
  = match (match rrule_list ve with
           | [] => Val TrigNone
           | _ => rs ← attr (get_rruleset ve); _parse_rruleset rs
           end) with
    | Val trig => to_remind_after self label priority trig ve
    | Exn e => (Exn e, ve)
    | Hang => (Hang, ve)
    end.
Proof.
  unfold to_remind_clauses. rewrite run_get, run_lift.
  destruct (match rrule_list ve with
            | [] => Val TrigNone
            | _ => _
            end); reflexivity.
Qed.

(** An empty list of clauses is as good as none. *)
Lemma after_no_clause (self : t) (label : option str) (priority : option Z)
    (ve : vevent) :
  to_remind_after self label priority (TrigList []) ve
  = to_remind_after self label priority TrigNone ve.
Proof.
  unfold to_remind_after. rewrite !run_get, !run_lift. cbv beta iota zeta.
  destruct (match rdate_list ve with
            | [] => _
            | _ :: _ => _
            end) as [remind|e|]; [|reflexivity..].
  now rewrite app_nil_r.
Qed.

(** The rules of the event are not looked at again. *)
Lemma after_without_rules (self : t) (label : option str)
    (priority : option Z) (trig : trigdates) (ve : vevent) :
  (to_remind_after self label priority trig ve).1
  = (to_remind_after self label priority trig (without_rules ve)).1.
Proof.
  destruct ve as [s e d sm u loc de al rl rd].
  unfold to_remind_after, without_rules.
  cbn [dtstart dtend duration summary uid location description valarm_list
       rrule_list rdate_list].
  rewrite !run_get.
  cbn [dtstart dtend duration summary uid location description valarm_list
       rrule_list rdate_list].
  rewrite !run_lift.
  destruct (match rd with [] => _ | _ :: _ => _ end) as [remind|x|];
    [|reflexivity..].
  cbv zeta. rewrite !run_lift.
  unfold _event_duration at 1 2.
  cbn [dtstart dtend duration].
  destruct (match e with Some _ => _ | None => _ end) as [dur|x|];
    [|reflexivity..].
  rewrite !run_lift. destruct (attr s) as [start|x|]; [|reflexivity..].
  match goal with |- ((_ ≫= ?K) _).1 = _ => set (k := K) end.
  assert (HK : forall r v v',
            dtstart v = dtstart v' -> summary v = summary v' ->
            location v = location v' -> description v = description v' ->
            rdate_list v = rdate_list v' -> (k r v).1 = (k r v').1).
  { intros r v v' H1 H2 H3 H4 H5. subst k. cbv beta.
    rewrite !run_get, !run_lift, H1.
    destruct (attr (dtstart v')) as [start0|x|]; [|reflexivity..].
    rewrite !run_lift.
    destruct (match start0 with D _ => _ | DT _ => _ end) as [r1|x|];
      [|reflexivity..].
    rewrite !run_lift. unfold _gen_msg. rewrite H2, H3, H4, H5.
    match goal with
    | |- (match ?x with _ => _ end).1 = _ => destruct x
    end; reflexivity. }
  destruct (negb (is_datetime start) && (1 <? days dur));
    [destruct e as [e0|]|].
  - rewrite !run_bind. unfold lift, put.
    destruct (sub_td e0 (timedelta_days 1)) as [e'|x|]; [|reflexivity..].
    cbn [mret prog_ret]. now apply HK.
  - rewrite !run_ret. now apply HK.
  - rewrite !run_ret. now apply HK.
Qed.

(** X21. A yearly rule is left out: for an event whose first rule is
    yearly, [to_remind] writes the command it writes for the same
    event without its rules, a single reminder on the day of the
    start. *)
Theorem yearly_rule_ignored (self : t) (label : option str)
    (priority : option Z) (ve : vevent) (r0 : rrule) (rules : list rrule) :
  rrule_list ve = r0 :: rules ->
  _freq r0 = YEARLY ->
  (to_remind self label priority ve).1
  = (to_remind self label priority (without_rules ve)).1.
Proof.
  intros Hr Hf.
  assert (H : (to_remind_clauses self label priority ve).1
              = (to_remind_clauses self label priority (without_rules ve)).1).
  { rewrite !to_remind_clauses_after.
    change (rrule_list (without_rules ve)) with (@nil rrule).
    rewrite Hr. unfold get_rruleset. rewrite Hr.
    cbn [attr of_option mbind outcome_bind].
    unfold _parse_rruleset. cbn [_rrule]. rewrite getitem_0.
    cbn [mbind outcome_bind]. rewrite Hf. change (YEARLY =? 0) with true.
    cbv iota. rewrite after_no_clause. apply after_without_rules. }
  unfold to_remind. rewrite !run_bind.
  destruct (to_remind_clauses self label priority ve) as [o1 v1].
  destruct (to_remind_clauses self label priority (without_rules ve))
    as [o2 v2].
  cbn [fst] in H. subst o2. now destruct o1.
Qed.

End yearly.

Lemma yearly_rule_ignored_witness :
  (Remind.to_remind Sample.self None None
     (VEvent (Some (D (Date 738886))) (Some (D (Date 738887))) None
        (Some (py "Birthday")) None None None []
        [RRule YEARLY None None None []] [])).1
  = Val (py "REM Jan 1 2024 MSG Birthday
").
Proof.
  etransitivity;
    [apply (yearly_rule_ignored Sample.self None None _
              (RRule YEARLY None None None []) [])|].
  - reflexivity.
  - reflexivity.
  - vm_compute. reflexivity.
Defined.

Section timed.

Import Remind.

Lemma astimezone_local (x : datetime) (tz : tzinfo) :
  dt_tzinfo x = Some tz -> astimezone x tz = Val x.
Proof.
  intros H. unfold astimezone. rewrite H.
  now rewrite same_tz_keys by reflexivity.
Qed.

(** [to_remind] on a timed event without rule and explicit dates, in
    the zone of the object. *)
Lemma to_remind_clauses_timed (self : t) (label : option str)
    (priority : option Z) (ve : vevent) (x : datetime) (dur : timedelta)
    (msg : list str) :
  dtstart ve = Some (DT x) ->
  dt_tzinfo x = Some (_localtz self) ->
  rrule_list ve = [] -> rdate_list ve = [] ->
  _event_duration ve = Val dur ->
  _gen_msg ve label = Val msg ->
  to_remind_clauses self label priority ve
  = (Val ([py "REM"; date_clause (DT x)] ++ priority_clause priority
            ++ [at_clause (DT x)]
            ++ (if 0 <? total_seconds dur then [duration_clause dur] else [])
            ++ msg),
     ve).
Proof.
  intros Hs Hz Hr Hd Hdur Hmsg. unfold to_remind_clauses.
  rewrite run_get, Hr, run_lift, Hd, run_lift, Hs.
  cbn [attr of_option mbind outcome_bind].
  rewrite Hdur, run_lift, run_lift. cbn [is_datetime negb andb].
  rewrite run_ret, run_get, run_lift, Hs. cbn [attr of_option].
  rewrite run_lift, astimezone_local by exact Hz.
  cbn [mbind outcome_bind].
  destruct (0 <? total_seconds dur); rewrite Hd, run_lift, Hmsg;
    unfold mret, prog_ret; rewrite <- ?app_assoc; reflexivity.
Qed.

(** X22. One timed occurrence in the zone of the object: the event
    carries an alarm ten minutes before the start, and the duration of
    the record or, without one, an end equal to the start; [to_remind]
    writes the date, the time after [AT], and a [DURATION] clause
    exactly when the duration is positive, and leaves the event as it
    is. *)
Theorem single_timed_roundtrip (self : t) (x : datetime)
    (dur : option timedelta) (msg uid : str) (loc descr label : option str)
    (priority : option Z) (clauses : list str) :
  dt_tzinfo x = Some (_localtz self) ->
  let ve :=
    VEvent (Some (DT x))
           (match dur with Some _ => None | None => Some (DT x) end) dur
           (Some msg) (Some uid) loc descr
           [VAlarm (timedelta_minutes (-10)) (py "DISPLAY") msg] [] [] in
  _gen_msg ve label = Val clauses ->
  _gen_vevent (Event [DT x] dur msg loc descr uid) new_vevent = Val ve
  /\ to_remind_clauses self label priority ve
     = (Val ([py "REM"; date_clause (DT x)] ++ priority_clause priority
               ++ [at_clause (DT x)]
               ++ match dur with
                  | Some d =>
                      if 0 <? total_seconds d then [duration_clause d] else []
                  | None => []
                  end
               ++ clauses),
        ve).
Proof.
  intros Hz ve Hmsg. split.
  - unfold _gen_vevent. cbn [ev_dtstart ev_msg ev_uid ev_location
                              ev_description ev_duration].
    rewrite getitem_0. cbn [mbind outcome_bind is_datetime length Nat.ltb Nat.leb].
    destruct dur, loc, descr; reflexivity.
  - destruct dur as [d|].
    + destruct (Z.eqb_spec (total_seconds d) 0) as [E|E].
      * rewrite (to_remind_clauses_timed self label priority ve x
                   (Timedelta 0) clauses); try reflexivity; try assumption.
        -- rewrite E. reflexivity.
        -- unfold _event_duration. cbn [ve dtend duration]. now rewrite E, Z.eqb_refl.
      * rewrite (to_remind_clauses_timed self label priority ve x d clauses);
          try reflexivity; try assumption.
        unfold _event_duration. cbn [ve dtend duration].
        now destruct (Z.eqb_spec (total_seconds d) 0).
    + rewrite (to_remind_clauses_timed self label priority ve x
                 (Timedelta 0) clauses); try reflexivity; try assumption.
      unfold _event_duration. cbn [ve dtend dtstart attr of_option mbind
                                   outcome_bind sub].
      unfold readings. rewrite Hz. rewrite same_tz_keys by reflexivity.
      cbn [mbind outcome_bind]. now rewrite Z.sub_diag.
Qed.

(** X23. A start and an end of different kinds: when one is a date and
    the other a datetime, [to_remind] raises [TypeError] at their
    difference and leaves the event as it is. *)
Theorem mixed_span_type_error (self : t) (label : option str)
    (priority : option Z) (ve : vevent) (s e : dtvalue) :
  dtstart ve = Some s -> dtend ve = Some e ->
  is_datetime s = negb (is_datetime e) ->
  rrule_list ve = [] ->
  to_remind self label priority ve = (Exn TypeError, ve).
Proof.
  intros Hs He Hk Hr. unfold to_remind, to_remind_clauses.
  rewrite run_bind, run_get, Hr, run_lift, run_lift.
  assert (Hsub : _event_duration ve = Exn TypeError).
  { unfold _event_duration. rewrite He, Hs. cbn [attr of_option mbind outcome_bind].
    destruct s, e; try discriminate; reflexivity. }
  destruct (match rdate_list ve with [] => _ | _ :: _ => _ end) as [r|x|] eqn:E.
  - now rewrite run_lift, Hsub.
  - destruct (rdate_list ve); [|discriminate].
    rewrite Hs in E. discriminate.
  - destruct (rdate_list ve); [|discriminate].
    rewrite Hs in E. discriminate.
Qed.

End timed.

Lemma single_timed_roundtrip_witness :
  Remind.to_remind_clauses Sample.self None None
    (VEvent (Some (Sample.timed_start Sample.self)) None
       (Some (timedelta_minutes 90)) (Some (py "Meeting")) (Some (py "u"))
       (Some (py "Office")) None
       [VAlarm (timedelta_minutes (-10)) (py "DISPLAY") (py "Meeting")] [] [])
  = (Val (map py ["REM"; "Jan 1 2024"; "AT 10:00"; "DURATION 1:30"; "MSG";
                  "Meeting at Office"]%string),
     VEvent (Some (Sample.timed_start Sample.self)) None
       (Some (timedelta_minutes 90)) (Some (py "Meeting")) (Some (py "u"))
       (Some (py "Office")) None
       [VAlarm (timedelta_minutes (-10)) (py "DISPLAY") (py "Meeting")] [] []).
Proof.
  pose proof (single_timed_roundtrip Sample.self
                (DateTime (Date 738886) 36000 (Some Sample.tz))
                (Some (timedelta_minutes 90)) (py "Meeting") (py "u")
                (Some (py "Office")) None None None
                [py "MSG"; py "Meeting at Office"]) as H.
  cbv zeta in H. destruct H as [_ H].
  - reflexivity.
  - vm_compute. reflexivity.
  - etransitivity; [exact H|]. vm_compute. reflexivity.
Defined.

Lemma mixed_span_type_error_witness :
  Remind.to_remind Sample.self None None
    (set_summary (py "Fair")
       (set_dtend (Sample.timed_start Sample.self)
          (set_dtstart (D (Date 738886)) new_vevent)))
  = (Exn TypeError,
     set_summary (py "Fair")
       (set_dtend (Sample.timed_start Sample.self)
          (set_dtstart (D (Date 738886)) new_vevent))).
Proof.
  apply (mixed_span_type_error Sample.self None None _ (D (Date 738886))
           (Sample.timed_start Sample.self)); reflexivity.
Defined.

Section timed_daily.

Import Remind.

Lemma gen_dtend_rrule_daily_timed (dtstarts : list dtvalue) (x : datetime)
    (ve : vevent) :
  (2 <= length dtstarts)%nat ->
  uniform dtstarts ->
  gaps (timedelta_days 1) dtstarts ->
  head dtstarts = Some (DT x) ->
  dtstart ve = Some (DT x) ->
  _gen_dtend_rrule dtstarts ve
  = Val (VEvent (dtstart ve) (dtend ve) (duration ve) (summary ve) (uid ve)
           (location ve) (description ve) (valarm_list ve)
           [counted_rule DAILY (Z.of_nat (length dtstarts)) (DT x)] []).
Proof.
  intros Hlen Hu Hg Hh Hs. destruct dtstarts as [|a rest]; [cbn in Hlen; lia|].
  injection Hh as ->.
  destruct (span_gaps (timedelta_days 1) (DT x) rest ltac:(cbn; lia) Hu Hg)
    as (Hmax & Hmin & Hsub).
  unfold _gen_dtend_rrule. rewrite Hmax. cbn [mbind outcome_bind].
  rewrite Hmin. cbn [mbind outcome_bind]. rewrite Hsub.
  cbn [mbind outcome_bind].
  cbn [total_seconds timedelta_days length] in *.
  replace (days (Timedelta (1 * 86400 * Z.of_nat (length rest))))
    with (Z.of_nat (length rest))
    by (unfold days; cbn [total_seconds];
        now rewrite Z.mul_comm, Z.mul_1_l, Z.div_mul).
  replace (Z.of_nat (S (length rest)) - 1) with (Z.of_nat (length rest)) by lia.
  rewrite Z.eqb_refl, getitem_0. cbn [mbind outcome_bind is_datetime].
  unfold set_rruleset_rule. rewrite Hs. reflexivity.
Qed.

Lemma parse_rruleset_daily (r : rrule) (n : Z) (x : datetime) :
  _freq r = DAILY -> _count r = Some n -> n <> 0 -> _until r = None ->
  match _byweekday r with
  | Some l => (length l <= 1)%nat
  | None => True
  end ->
  last (rule_dates r) = Some x ->
  _parse_rruleset (RRuleSet [r] [])
  = Val (TrigList [py "*1"; until_clause (DT x)]).
Proof.
  intros Hf Hc Hn Hu Hw Hx. unfold _parse_rruleset.
  cbn [_rrule]. rewrite getitem_0. cbn [mbind outcome_bind].
  rewrite Hf, Hc, Hu. change (DAILY =? 0) with false.
  assert (Hsev : match _byweekday r with
                 | Some l => (1 <? length l)%nat
                 | None => false
                 end = false).
  { destruct (_byweekday r) as [l|]; [|reflexivity].
    apply Nat.ltb_ge. exact Hw. }
  rewrite Hsev. change (DAILY =? DAILY) with true.
  cbn [negb andb mbind outcome_bind].
  destruct (Z.eqb_spec n 0) as [E|_]; [contradiction|].
  unfold set_dates. cbn [_rrule _rdate map fold_right].
  rewrite merge_nil_r, (getitem_last _ _ Hx). reflexivity.
Qed.

(** [to_remind] on a timed event in the zone of the object that
    carries one rule and no explicit dates. *)
Lemma to_remind_clauses_timed_rule (self : t) (label : option str)
    (priority : option Z) (ve : vevent) (x : datetime) (dur : timedelta)
    (r : rrule) (rep msg : list str) :
  dtstart ve = Some (DT x) ->
  dt_tzinfo x = Some (_localtz self) ->
  rrule_list ve = [r] -> rdate_list ve = [] ->
  _parse_rruleset (RRuleSet [r] []) = Val (TrigList rep) ->
  _event_duration ve = Val dur ->
  _gen_msg ve label = Val msg ->
  to_remind_clauses self label priority ve
  = (Val ([py "REM"; date_clause (DT x)] ++ priority_clause priority
            ++ rep ++ [at_clause (DT x)]
            ++ (if 0 <? total_seconds dur then [duration_clause dur] else [])
            ++ msg),
     ve).
Proof.
  intros Hs Hz Hr Hd Hp Hdur Hmsg. unfold to_remind_clauses.
  rewrite run_get, Hr. unfold get_rruleset. rewrite Hr, Hd.
  cbn [attr of_option concat map mbind outcome_bind].
  rewrite Hp, run_lift, run_lift, Hs.
  cbn [attr of_option mbind outcome_bind].
  rewrite Hdur, run_lift, run_lift. cbn [is_datetime negb andb].
  rewrite run_ret, run_get, run_lift, Hs. cbn [attr of_option].
  rewrite run_lift, astimezone_local by exact Hz.
  cbn [mbind outcome_bind].
  destruct (0 <? total_seconds dur); rewrite Hd, run_lift, Hmsg;
    unfold mret, prog_ret; rewrite <- ?app_assoc; reflexivity.
Qed.

(** X24. Timed occurrences on days in a row: the event gets a daily
    rule that counts them. For a timed event in the zone of the object
    with a daily rule of that count, [to_remind] writes the date of
    the start, then [*1] and [UNTIL] with the date of the last
    occurrence, then the time and the duration, and leaves the event
    as it is. *)
Theorem timed_daily_roundtrip (self : t) (dtstarts : list dtvalue)
    (x : datetime) (ve : vevent) :
  (2 <= length dtstarts)%nat ->
  uniform dtstarts ->
  gaps (timedelta_days 1) dtstarts ->
  head dtstarts = Some (DT x) ->
  dtstart ve = Some (DT x) ->
  let n := Z.of_nat (length dtstarts) in
  _gen_dtend_rrule dtstarts ve
  = Val (VEvent (dtstart ve) (dtend ve) (duration ve) (summary ve) (uid ve)
           (location ve) (description ve) (valarm_list ve)
           [counted_rule DAILY n (DT x)] [])
  /\ forall (v : vevent) (r : rrule) (nth : datetime) (dur : timedelta)
            (label : option str) (priority : option Z) (msg : list str),
       dtstart v = Some (DT x) ->
       dt_tzinfo x = Some (_localtz self) ->
       rrule_list v = [r] -> rdate_list v = [] ->
       _freq r = DAILY -> _count r = Some n -> _until r = None ->
       match _byweekday r with
       | Some days => (length days <= 1)%nat
       | None => True
       end ->
       last (rule_dates r) = Some nth ->
       _event_duration v = Val dur ->
       _gen_msg v label = Val msg ->
       to_remind_clauses self label priority v
       = (Val ([py "REM"; date_clause (DT x)] ++ priority_clause priority
                 ++ [py "*1"; until_clause (DT nth)] ++ [at_clause (DT x)]
                 ++ (if 0 <? total_seconds dur
                     then [duration_clause dur] else [])
                 ++ msg),
          v).
Proof.
  intros Hlen Hu Hg Hh Hs n.
  split; [now apply gen_dtend_rrule_daily_timed|].
  intros v r nth dur label priority msg Hv Hz Hr Hd Hf Hc Hun Hw Hl Hdur Hmsg.
  apply (to_remind_clauses_timed_rule self label priority v x dur r);
    try assumption.
  apply (parse_rruleset_daily r n nth); try assumption.
  unfold n. lia.
Qed.

End timed_daily.

Lemma timed_daily_roundtrip_witness :
  let x := DateTime (Date 738886) 36000 (Some Sample.tz) in
  let y := DateTime (Date 738887) 36000 (Some Sample.tz) in
  let z := DateTime (Date 738888) 36000 (Some Sample.tz) in
  let v :=
    VEvent (Some (DT x)) None (Some (timedelta_minutes 45))
      (Some (py "Course")) None None None [] [counted_rule DAILY 3 (DT x)] [] in
  Remind._gen_dtend_rrule [DT x; DT y; DT z]
    (VEvent (Some (DT x)) None (Some (timedelta_minutes 45))
       (Some (py "Course")) None None None [] [] [])
  = Val v
  /\ Remind.to_remind_clauses Sample.self None None v
     = (Val (map py ["REM"; "Jan 1 2024"; "*1"; "UNTIL Jan 3 2024"; "AT 10:00";
                     "DURATION 0:45"; "MSG"; "Course"]%string), v).
Proof.
  intros x y z v.
  pose proof (timed_daily_roundtrip Sample.self [DT x; DT y; DT z] x
                (VEvent (Some (DT x)) None (Some (timedelta_minutes 45))
                   (Some (py "Course")) None None None [] [] [])) as H.
  cbv zeta in H. destruct H as [H1 H2].
  - cbn. lia.
  - intros a b Ha Hb.
    repeat (apply elem_of_cons in Ha as [->|Ha]);
      repeat (apply elem_of_cons in Hb as [->|Hb]);
      try reflexivity; try (inversion Ha); inversion Hb.
  - cbn. repeat split.
  - reflexivity.
  - reflexivity.
  - split; [exact H1|].
    etransitivity;
      [apply (H2 v (counted_rule DAILY 3 (DT x)) z (timedelta_minutes 45)
                 None None [py "MSG"; py "Course"]);
         try reflexivity; try exact I|].
    vm_compute. reflexivity.
Defined.

Section location.

Import Remind.

Lemma startswith_split (p : str) : forall s : str,
  PyStr.startswith p s = true -> s = p ++ drop (length p) s.
Proof.
  induction p as [|a p IH]; intros s H; [now rewrite drop_0|].
  destruct s as [|b s]; [discriminate|]. cbn [PyStr.startswith] in H.
  apply andb_true_iff in H as [Hab H]. apply N.eqb_eq in Hab. subst b.
  cbn [length drop app]. f_equal. now apply IH.
Qed.

(** The last place where a text that is not empty occurs. *)
Lemma contains_last (sub : str) (s : str) :
  sub <> [] ->
  PyStr.contains sub s = true ->
  exists a b : str,
    s = a ++ b /\ PyStr.startswith sub b = true
    /\ PyStr.contains sub (drop 1 b) = false.
Proof.
  intros Hne. induction s as [|c s IH]; intros H.
  - destruct sub; [contradiction|discriminate].
  - rewrite contains_cons in H.
    destruct (PyStr.contains sub s) eqn:Hs.
    + destruct (IH eq_refl) as (a & b & -> & Hb & Hl).
      exists (c :: a), b. now repeat split.
    + rewrite orb_false_r in H. exists [], (c :: s).
      repeat split; [exact H|]. cbn [drop]. now rewrite drop_0.
Qed.

(** X25. The split of a message at [' at '] loses nothing: without
    [' at '] the whole message is the summary and there is no
    location; with it, the message is the summary, [' at '] and the
    location, and the split is at the last [' at ']. *)
Theorem split_msg_lossless (msg : str) :
  if PyStr.contains (py " at ") msg then
    exists m loc : str,
      split_msg msg = (m, Some loc)
      /\ msg = m ++ py " at " ++ loc
      /\ PyStr.contains (py " at ") (py "at " ++ loc) = false
  else split_msg msg = (msg, None).
Proof.
  destruct (PyStr.contains (py " at ") msg) eqn:Hc.
  - destruct (contains_last (py " at ") msg ltac:(discriminate) Hc)
      as (a & b & -> & Hb & Hl).
    pose proof (startswith_split _ _ Hb) as Hsplit.
    set (loc := drop (length (py " at ")) b) in *.
    exists a, loc. split; [|split].
    + unfold split_msg. rewrite Hc. unfold PyStr.rsplit1.
      rewrite (rfind_last _ a b Hb Hl).
      destruct (Z.ltb_spec (Z.of_nat (length a)) 0); [lia|].
      rewrite Nat2Z.id, take_app_length.
      rewrite drop_app_add. reflexivity.
    + now rewrite Hsplit at 1.
    + rewrite Hsplit in Hl. exact Hl.
  - unfold split_msg. now rewrite Hc.
Qed.

End location.

Section identities.

Import Remind.

Lemma omap_Forall2 {A B} (f : A -> outcome B) (l : list A) :
  forall l', omap f l = Val l' -> Forall2 (fun a b => f a = Val b) l l'.
Proof.
  induction l as [|a l IH]; intros l' H.
  - injection H as <-. constructor.
  - cbn [omap] in H. destruct (f a) as [b|e|] eqn:Hf; try discriminate.
    cbn [mbind outcome_bind] in H.
    destruct (omap f l) as [bs|e|]; try discriminate.
    injection H as <-. constructor; [exact Hf|now apply IH].
Qed.

Lemma alist_get_elem {V} (k : str) (l : list (str * V)) (v : V) :
  alist_get k l = Some v -> (k, v) ∈ l.
Proof.
  induction l as [|[k' v'] l IH]; [discriminate|]. cbn [alist_get].
  destruct (PyStr.eqb k k') eqn:E.
  - apply eqb_eq in E. subst k'. intros H. injection H as ->.
    apply list_elem_of_here.
  - intros H. apply list_elem_of_further. now apply IH.
Qed.

Lemma alist_get_None {V} (k : str) (l : list (str * V)) :
  alist_get k l = None -> k ∉ l.*1.
Proof.
  induction l as [|[k' v'] l IH]; intros H.
  - apply not_elem_of_nil.
  - cbn [alist_get] in H. destruct (PyStr.eqb k k') eqn:E; [discriminate|].
    cbn [fmap list_fmap fst]. apply not_elem_of_cons. split.
    + intros ->. now rewrite eqb_refl in E.
    + now apply IH.
Qed.

(** Setting a key keeps the keys apart and touches no other entry. *)
Lemma alist_set_spec {V} (k : str) (v : V) (l : list (str * V)) :
  NoDup l.*1 ->
  NoDup (alist_set k v l).*1
  /\ forall k' v', (k', v') ∈ alist_set k v l ->
       (k' = k /\ v' = v) \/ (k' <> k /\ (k', v') ∈ l).
Proof.
  induction l as [|[k0 v0] l IH]; intros Hnd.
  - cbn. split; [apply NoDup_singleton|].
    intros k' v' H. apply list_elem_of_singleton in H. injection H as -> ->.
    now left.
  - cbn [fmap list_fmap fst] in Hnd. apply NoDup_cons in Hnd as [Hk0 Hnd].
    cbn [alist_set]. destruct (PyStr.eqb k k0) eqn:E.
    + apply eqb_eq in E. subst k0. split.
      * cbn [fmap list_fmap fst]. now apply NoDup_cons.
      * intros k' v' H. apply elem_of_cons in H as [H|H].
        -- injection H as -> ->. now left.
        -- right. split; [|now apply list_elem_of_further].
           intros ->. apply Hk0. apply list_elem_of_fmap. now exists (k, v').
    + destruct (IH Hnd) as [IH1 IH2]. split.
      * cbn [fmap list_fmap fst]. apply NoDup_cons. split; [|exact IH1].
        intros H. apply list_elem_of_fmap in H as ([k1 v1] & Hk & Hin).
        cbn in Hk. subst k1.
        destruct (IH2 k0 v1 Hin) as [[-> _]|[_ H]].
        -- now rewrite eqb_refl in E.
        -- apply Hk0. apply list_elem_of_fmap. now exists (k0, v1).
      * intros k' v' H. apply elem_of_cons in H as [H|H].
        -- injection H as -> ->. right. split; [|apply list_elem_of_here].
           intros ->. now rewrite eqb_refl in E.
        -- destruct (IH2 k' v' H) as [?|[? ?]]; [now left|right].
           split; [assumption|now apply list_elem_of_further].
Qed.

(** One step of a computation that is known to return. *)
Ltac obind H :=
  match type of H with
  | (?m ≫= _) = Val _ =>
      let E := fresh "E" in
      destruct m eqn:E; try discriminate H; cbn [mbind outcome_bind] in H
  end.

Lemma gathered_set (events : list (str * list (str * event))) (f : str)
    (evs : list (str * event)) :
  gathered events ->
  NoDup evs.*1 ->
  (forall u ev, (u, ev) ∈ evs -> ev_uid ev = u) ->
  gathered (alist_set f evs events).
Proof.
  intros [Hnd Hall] H1 H2. destruct (alist_set_spec f evs events Hnd) as [Hk He].
  split; [exact Hk|]. intros f' evs' Hin.
  destruct (He f' evs' Hin) as [[-> ->]|[_ Hold]]; [now split|].
  exact (Hall f' evs' Hold).
Qed.

Lemma parse_remind_record_gathered (self : t) (fqdn : str)
    (files : gmap str str) (lines : str)
    (acc acc' : list (str * list str) * list (str * list (str * event)))
    (r : str) :
  gathered acc.2 ->
  _parse_remind_record self fqdn files lines acc r = Val acc' ->
  gathered acc'.2.
Proof.
  intros Hg H. destruct acc as [fs es]. cbn [snd] in Hg.
  unfold _parse_remind_record in H. obind H.
  match type of H with
  | (?m ≫= _) = Val _ =>
      assert (Hacc : forall p, m = Val p -> gathered p.2)
  end.
  { intros p Hp. destruct (alist_get a fs).
    - injection Hp as <-. exact Hg.
    - obind Hp. injection Hp as <-. cbn [snd].
      apply gathered_set; [exact Hg|constructor|].
      intros u ev Hin. inversion Hin. }
  obind H. specialize (Hacc _ eq_refl). destruct a0 as [fs' es'].
  cbn [snd] in Hacc. repeat obind H. injection H as <-. cbn [snd].
  rename a into src, a4 into ev, a5 into known.
  assert (Hk : (src, known) ∈ es').
  { apply alist_get_elem. now destruct (alist_get src es'); inversion E6. }
  destruct Hacc as [Hnd Hall]. destruct (Hall src known Hk) as [Hkn Hku].
  assert (Hnew : forall x, ev_uid x = ev_uid ev ->
            NoDup (alist_set (ev_uid ev) x known).*1
            /\ forall u e, (u, e) ∈ alist_set (ev_uid ev) x known ->
                 ev_uid e = u).
  { intros x Hx. destruct (alist_set_spec (ev_uid ev) x known Hkn) as [H1 H2].
    split; [exact H1|]. intros u e Hin.
    destruct (H2 u e Hin) as [[-> ->]|[_ Hold]]; [exact Hx|now apply Hku]. }
  destruct (alist_get (ev_uid ev) known) as [old|] eqn:Hold.
  - destruct (Hnew (add_dtstart old ev)) as [H1 H2].
    { cbn [add_dtstart ev_uid]. apply Hku. now apply alist_get_elem. }
    apply gathered_set; [now split|exact H1|exact H2].
  - destruct (Hnew ev eq_refl) as [H1 H2].
    apply gathered_set; [now split|exact H1|exact H2].
Qed.

Lemma parse_remind_loop_gathered (self : t) (fqdn : str)
    (files : gmap str str) (lines : str) (records : list str) :
  forall acc acc',
    gathered acc.2 ->
    _parse_remind_loop self fqdn files lines acc records = Val acc' ->
    gathered acc'.2.
Proof.
  induction records as [|r records IH]; intros acc acc' Hg H.
  - injection H as <-. exact Hg.
  - cbn [_parse_remind_loop] in H. obind H.
    apply (IH a acc'); [|exact H].
    now apply (parse_remind_record_gathered self fqdn files lines acc a r).
Qed.

Lemma set_rruleset_rule_uid (freq count : Z) (ve v : vevent) :
  set_rruleset_rule freq count ve = Val v -> uid v = uid ve.
Proof.
  unfold set_rruleset_rule. intros H. obind H. now injection H as <-.
Qed.

Lemma set_rruleset_rdates_uid (rdates : list datetime) (ve v : vevent) :
  set_rruleset_rdates rdates ve = Val v -> uid v = uid ve.
Proof.
  unfold set_rruleset_rdates. intros H. obind H. now injection H as <-.
Qed.

(** The rule or the dates [_gen_dtend_rrule] adds leave the identity
    alone. *)
Lemma gen_dtend_rrule_uid (dtstarts : list dtvalue) (ve v : vevent) :
  _gen_dtend_rrule dtstarts ve = Val v -> uid v = uid ve.
Proof.
  unfold _gen_dtend_rrule. intros H. do 3 obind H.
  destruct (days _ =? Z.of_nat (length dtstarts) - 1).
  - obind H.
    match type of H with (if ?c then _ else _) = _ => destruct c end.
    + now apply set_rruleset_rule_uid in H.
    + do 2 obind H. now injection H as <-.
  - obind H.
    match type of H with (if ?c then _ else _) = _ => destruct c end.
    + now apply set_rruleset_rule_uid in H.
    + do 4 obind H.
      match goal with
      | Hs : set_rruleset_rdates _ _ = Val _ |- _ =>
          apply set_rruleset_rdates_uid in Hs; cbn [uid set_dtstart] in Hs
      end.
      match type of H with (if ?c then _ else _) = _ => destruct c end.
      * obind H. now injection H as <-.
      * now injection H as <-.
Qed.

Lemma gen_vevent_uid (ev : event) (v : vevent) :
  _gen_vevent ev new_vevent = Val v -> uid v = Some (ev_uid ev).
Proof.
  unfold _gen_vevent. intros H. obind H.
  match type of H with
  | (?m ≫= _) = Val _ =>
      assert (Hv : forall x, m = Val x -> uid x = Some (ev_uid ev))
  end.
  { intros x Hx. destruct (is_datetime a).
    - destruct (ev_duration ev); injection Hx as <-;
        destruct (ev_location ev), (ev_description ev); reflexivity.
    - destruct (length (ev_dtstart ev) =? 1)%nat.
      + obind Hx. injection Hx as <-.
        destruct (ev_location ev), (ev_description ev); reflexivity.
      + injection Hx as <-.
        destruct (ev_location ev), (ev_description ev); reflexivity. }
  obind H. specialize (Hv _ eq_refl).
  destruct (1 <? length (ev_dtstart ev))%nat.
  - apply gen_dtend_rrule_uid in H. congruence.
  - now injection H as <-.
Qed.

(** X26. Identities in a calendar: in what [_parse_remind] returns
    each file has one calendar, every event has an identity, and no
    two events of a calendar share one. *)
Theorem parse_remind_unique_uids (self : t) (fqdn rem lines : str)
    (files : gmap str str) (icals : list (str * list vevent)) :
  _parse_remind self fqdn files rem lines = Val icals ->
  NoDup icals.*1
  /\ forall f cal, (f, cal) ∈ icals ->
       exists uids : list str, uid <$> cal = Some <$> uids /\ NoDup uids.
Proof.
  unfold _parse_remind. destruct rem as [|c rem].
  { intros H. injection H as <-. split; [constructor|].
    intros f cal Hin. inversion Hin. }
  intros H. obind H.
  assert (Hg : gathered a.2).
  { eapply (parse_remind_loop_gathered self fqdn files lines _ ([], []) a);
      [|exact E].
    split; [constructor|]. intros f evs Hin. inversion Hin. }
  destruct Hg as [Hnd Hall]. apply omap_Forall2 in H.
  revert Hnd Hall. generalize dependent icals. generalize (a.2).
  intros events icals H. induction H as [|[f evs] [f' cal] events icals Hh Ht IH];
    intros Hnd Hall.
  - split; [constructor|]. intros f cal Hin. inversion Hin.
  - cbn [fst snd] in Hh. obind Hh. injection Hh as <- <-.
    cbn [fmap list_fmap fst] in Hnd. apply NoDup_cons in Hnd as [Hf Hnd].
    destruct IH as [IH1 IH2]; [exact Hnd| |].
    { intros g gs Hin. apply (Hall g gs). now apply list_elem_of_further. }
    assert (Hkeys : icals.*1 = events.*1).
    { clear -Ht. induction Ht as [|[g gs] [g' c'] ? ? Hh ? IH]; [reflexivity|].
      cbn [fst snd] in Hh. obind Hh. injection Hh as <- <-.
      cbn [fmap list_fmap fst]. now f_equal. }
    split.
    + cbn [fmap list_fmap fst]. apply NoDup_cons. split; [|exact IH1].
      now rewrite Hkeys.
    + intros g gc Hin.
      apply elem_of_cons in Hin as [Hin|Hin]; [|exact (IH2 g gc Hin)].
      injection Hin as -> ->.
      destruct (Hall f evs (list_elem_of_here _ _)) as [Hk Hu].
      exists evs.*1. split; [|exact Hk].
      apply omap_Forall2 in E0. clear -E0 Hu.
      induction E0 as [|[u ev] v evs a0 Hh Ht IH]; [reflexivity|].
      cbn [fmap list_fmap fst snd] in *. f_equal.
      * apply gen_vevent_uid in Hh.
        rewrite Hh. f_equal. apply (Hu u ev). apply list_elem_of_here.
      * apply IH. intros u' e' Hin. apply (Hu u' e').
        now apply list_elem_of_further.
Qed.

End identities.

Lemma parse_remind_unique_uids_witness :
  let rem :=
    py "# 1 1 mylife.rem 2024/1/1 * * * 600 10:00am Meeting at Office
# 2 2 mylife.rem 2024/2/2 * * * * Dentist
# 2 2 mylife.rem 2024/2/9 * * * * Dentist" in
  let uid1 := Remind._gen_uid (py "host") (py "1") Sample.line1 in
  let uid2 := Remind._gen_uid (py "host") (py "2") Sample.line2 in
  let weekly :=
    VEvent (Some (D (Date 738918))) None None (Some (py "Dentist"))
      (Some uid2) None None []
      [counted_rule WEEKLY 2 (D (Date 738918))] [] in
  Remind._parse_remind Sample.self (py "host") (Remind.disk Sample.world)
    rem []
  = Val [(Sample.file, [Sample.timed_event; weekly])]
  /\ NoDup [uid1; uid2].
Proof.
  intros rem uid1 uid2 weekly.
  assert (H : Remind._parse_remind Sample.self (py "host")
                (Remind.disk Sample.world) rem []
              = Val [(Sample.file, [Sample.timed_event; weekly])])
    by (vm_compute; reflexivity).
  split; [exact H|].
  destruct (parse_remind_unique_uids Sample.self (py "host") rem []
              (Remind.disk Sample.world)
              [(Sample.file, [Sample.timed_event; weekly])] H) as [_ Hu].
  destruct (Hu Sample.file [Sample.timed_event; weekly]
              (list_elem_of_here _ _)) as (uids & Hl & Hnd).
  destruct uids as [|u1 [|u2 [|u3 uids]]]; try discriminate Hl.
  injection Hl as <- <-. exact Hnd.
Defined.

Section weekdays.

Import Remind.

Lemma getitem_weekdays (d : Z) :
  0 <= d < 7 -> PySeq.getitem weekdays d = Val (day_name d).
Proof.
  intros H.
  assert (Hd : d = 0 \/ d = 1 \/ d = 2 \/ d = 3 \/ d = 4 \/ d = 5 \/ d = 6)
    by lia.
  repeat destruct Hd as [->|Hd]; try subst d; reflexivity.
Qed.

Lemma omap_getitem_weekdays (ds : list Z) :
  Forall (fun d => 0 <= d < 7) ds ->
  omap (fun day => PySeq.getitem weekdays day) ds = Val (map day_name ds).
Proof.
  induction ds as [|d ds IH]; intros H; [reflexivity|].
  apply Forall_cons in H as [Hd H]. cbn [omap map].
  now rewrite getitem_weekdays, IH.
Qed.

Lemma existsb_eqb_elem (d : Z) (l : list Z) :
  existsb (Z.eqb d) l = true <-> d ∈ l.
Proof.
  rewrite existsb_exists. split.
  - intros (x & Hin & E). apply Z.eqb_eq in E. subst x.
    now apply list_elem_of_In.
  - intros H. exists d. split; [now apply list_elem_of_In|apply Z.eqb_refl].
Qed.

Lemma filter_StronglySorted {A} (R : A -> A -> Prop) (f : A -> bool)
    (l : list A) :
  StronglySorted R l -> StronglySorted R (List.filter f l).
Proof.
  induction 1 as [|a l Hs IH Ha]; [constructor|].
  cbn [List.filter]. destruct (f a); [|exact IH].
  constructor; [exact IH|].
  apply List.Forall_forall. intros x Hx. apply filter_In in Hx as [Hx _].
  exact (proj1 (List.Forall_forall _ _) Ha x Hx).
Qed.

(** X27. A rule on several weekdays is written as a daily reminder
    that omits the other days, whatever its frequency, unless that is
    yearly: after [*1] comes [SKIP OMIT] with the names of exactly
    the weekdays the rule does not fall on, each once and in the order
    of the week from Monday on, then [UNTIL] with the day the rule
    ends. *)
Theorem several_weekdays_skip_omit (r : rrule) (l : list Z) (u : datetime) :
  _freq r <> YEARLY ->
  _byweekday r = Some l ->
  (1 < length l)%nat ->
  _until r = Some u ->
  exists daynums : list Z,
    _parse_rruleset (RRuleSet [r] [])
    = Val (TrigList [py "*1";
                     py "SKIP OMIT "
                       ++ PyStr.join (py " ") (map day_name daynums);
                     until_clause (DT u)])
    /\ StronglySorted Z.lt daynums
    /\ forall d : Z, d ∈ daynums <-> 0 <= d < 7 /\ d ∉ l.
Proof.
  intros Hf Hw Hl Hu.
  set (daynums := List.filter (fun d => negb (existsb (Z.eqb d) l))
                    [0; 1; 2; 3; 4; 5; 6]).
  assert (Hin : forall d, d ∈ daynums <-> 0 <= d < 7 /\ d ∉ l).
  { intros d. unfold daynums. rewrite list_elem_of_In, filter_In.
    rewrite negb_true_iff, <- not_true_iff_false, existsb_eqb_elem.
    rewrite <- list_elem_of_In. split; intros [H1 H2]; (split; [|exact H2]).
    - repeat (apply elem_of_cons in H1 as [->|H1]); try lia. inversion H1.
    - assert (Hd : d = 0 \/ d = 1 \/ d = 2 \/ d = 3 \/ d = 4 \/ d = 5
                   \/ d = 6) by lia.
      repeat destruct Hd as [->|Hd]; try subst d;
        repeat (first [apply list_elem_of_here|apply list_elem_of_further]). }
  exists daynums. split; [|split; [|exact Hin]].
  - unfold _parse_rruleset. cbn [_rrule]. rewrite getitem_0.
    cbn [mbind outcome_bind].
    destruct (Z.eqb_spec (_freq r) 0) as [E|_]; [contradiction|].
    rewrite Hw, Hu. apply Nat.ltb_lt in Hl. rewrite Hl.
    cbn [negb andb default]. fold daynums.
    rewrite omap_getitem_weekdays.
    + reflexivity.
    + apply Forall_forall. intros d Hd. now apply Hin in Hd.
  - apply filter_StronglySorted.
    repeat (constructor; [|repeat constructor; lia]). constructor.
Qed.

End weekdays.

Lemma several_weekdays_skip_omit_witness :
  let rule :=
    RRule WEEKLY None (Some (DateTime (Date 738916) 0 None))
      (Some [0; 2; 4]) [] in
  Remind._parse_rruleset (RRuleSet [rule] [])
  = Val (Remind.TrigList
           [py "*1"; py "SKIP OMIT Tue Thu Sat Sun"; py "UNTIL Jan 31 2024"])
  /\ exists daynums : list Z,
       Remind._parse_rruleset (RRuleSet [rule] [])
       = Val (Remind.TrigList
                [py "*1";
                 py "SKIP OMIT "
                   ++ PyStr.join (py " ") (map day_name daynums);
                 Remind.until_clause (DT (DateTime (Date 738916) 0 None))])
       /\ StronglySorted Z.lt daynums
       /\ forall d : Z, d ∈ daynums <-> 0 <= d < 7 /\ d ∉ [0; 2; 4].
Proof.
  intros rule. split; [vm_compute; reflexivity|].
  apply (several_weekdays_skip_omit rule [0; 2; 4]
           (DateTime (Date 738916) 0 None)).
  - discriminate.
  - reflexivity.
  - cbn. lia.
  - reflexivity.
Defined.

Section records.

Import Remind.

Lemma getitem_lookup {A} (l : list A) (i : Z) (x : A) :
  0 <= i -> l !! Z.to_nat i = Some x -> PySeq.getitem l i = Val x.
Proof.
  intros Hi H. pose proof (lookup_lt_Some _ _ _ H) as Hlt.
  unfold PySeq.getitem, PySeq.norm_index.
  destruct (Z.leb_spec 0 i); [|lia].
  destruct (Z.ltb_spec i (Z.of_nat (length l))); [|lia].
  cbn [andb]. now rewrite H.
Qed.

(** The three numbers of a date written with slashes. *)
Lemma date_fields (fy fm fd : str) (y m d : Z) :
  Forall (fun c => c <> 47%N) fy ->
  Forall (fun c => c <> 47%N) fm ->
  Forall (fun c => c <> 47%N) fd ->
  PyStr.int fy = Val y -> PyStr.int fm = Val m -> PyStr.int fd = Val d ->
  omap PyStr.int (PyStr.split (py "/") (fy ++ py "/" ++ fm ++ py "/" ++ fd))
  = Val [y; m; d].
Proof.
  intros Hy Hm Hd Ey Em Ed.
  change (py "/") with [47%N]. cbn [app].
  rewrite split_piece by exact Hy. rewrite split_piece by exact Hm.
  rewrite split_last by exact Hd. cbn [omap].
  now rewrite Ey, Em, Ed.
Qed.

(** X28. A record without a time: the date of the fifth field, read as
    year, month and day, is the one all-day start; the message is made
    of the fields from the tenth on, and is split into summary and
    location. *)
Theorem untimed_record_parsed (self : t) (fqdn text f2 fy fm fd : str)
    (line : list str) (y m d : Z) (day : date) :
  line !! 2%nat = Some f2 ->
  line !! 4%nat = Some (fy ++ py "/" ++ fm ++ py "/" ++ fd) ->
  line !! 8%nat = Some (py "*") ->
  Forall (fun c => c <> 47%N) fy ->
  Forall (fun c => c <> 47%N) fm ->
  Forall (fun c => c <> 47%N) fd ->
  PyStr.int fy = Val y -> PyStr.int fm = Val m -> PyStr.int fd = Val d ->
  date_new y m d = Val day ->
  _parse_remind_line self fqdn line text
  = Val (Event [D day] None
           (split_msg (PyStr.join (py " ") (drop 9 line))).1
           (split_msg (PyStr.join (py " ") (drop 9 line))).2
           (if PyStr.contains delimiter text
            then Some (_gen_description text) else None)
           (_gen_uid fqdn f2 text)).
Proof.
  intros H2 H4 H8 Hy Hm Hd Ey Em Ed Hday. unfold _parse_remind_line.
  rewrite (getitem_lookup line 4 _ ltac:(lia) H4). cbn [mbind outcome_bind].
  rewrite (date_fields fy fm fd y m d) by assumption.
  cbn [mbind outcome_bind].
  rewrite (getitem_lookup line 8 _ ltac:(lia) H8). cbn [mbind outcome_bind].
  change (PyStr.eqb (py "*") (py "*")) with true. cbn [negb].
  rewrite getitem_0, getitem_1. cbn [mbind outcome_bind].
  change (PySeq.getitem [y; m; d] 2) with (Val d). cbn [mbind outcome_bind].
  rewrite Hday. cbn [mbind outcome_bind].
  destruct (split_msg (PyStr.join (py " ") (drop 9 line))) as [msg loc].
  rewrite (getitem_lookup line 2 _ ltac:(lia) H2). reflexivity.
Qed.

Lemma date_new_fits (y m d : Z) (day : date) :
  date_new y m d = Val day ->
  fits_int y && fits_int m && fits_int d = true.
Proof.
  unfold date_new. now destruct (fits_int y && fits_int m && fits_int d).
Qed.

(** X29. A record with a time: the ninth field counts the minutes
    from midnight to the start, which is in the zone of the object;
    the eighth field is the duration in minutes or a star; the message
    starts at the eleventh field. A time of 1440 minutes or more
    raises [ValueError], or [OverflowError] when its hours do not fit
    a C [int]; a duration of more than 999999999 days raises
    [OverflowError]. *)
Theorem timed_record_parsed (self : t) (fqdn text f2 fy fm fd f7 f8 : str)
    (line : list str) (y m d n : Z) (day : date) (dur : option Z) :
  line !! 2%nat = Some f2 ->
  line !! 4%nat = Some (fy ++ py "/" ++ fm ++ py "/" ++ fd) ->
  line !! 7%nat = Some f7 ->
  line !! 8%nat = Some f8 ->
  Forall (fun c => c <> 47%N) fy ->
  Forall (fun c => c <> 47%N) fm ->
  Forall (fun c => c <> 47%N) fd ->
  PyStr.int fy = Val y -> PyStr.int fm = Val m -> PyStr.int fd = Val d ->
  date_new y m d = Val day ->
  PyStr.int f8 = Val n ->
  0 <= n ->
  match dur with
  | Some mins => PyStr.int f7 = Val mins
  | None => f7 = py "*"
  end ->
  let parsed (duration : option timedelta) :=
    Event
      [DT (DateTime day (n / 60 * 3600 + n mod 60 * 60)
             (Some (_localtz self)))]
      duration
      (split_msg (PyStr.join (py " ") (drop 10 line))).1
      (split_msg (PyStr.join (py " ") (drop 10 line))).2
      (if PyStr.contains delimiter text
       then Some (_gen_description text) else None)
      (_gen_uid fqdn f2 text) in
  _parse_remind_line self fqdn line text
  = if 2147483648 * 60 <=? n then Exn OverflowError
    else if 1440 <=? n then Exn ValueError
    else
      match dur with
      | None => Val (parsed None)
      | Some mins =>
          if (-999999999 <=? mins / 1440) && (mins / 1440 <=? 999999999)
          then Val (parsed (Some (timedelta_minutes mins)))
          else Exn OverflowError
      end.
Proof.
  intros H2 H4 H7 H8 Hy Hm Hd Ey Em Ed Hday En Hn Hdur parsed.
  assert (Hstar : PyStr.eqb f8 (py "*") = false).
  { apply eqb_neq. intros ->. discriminate En. }
  unfold _parse_remind_line.
  rewrite (getitem_lookup line 4 _ ltac:(lia) H4). cbn [mbind outcome_bind].
  rewrite (date_fields fy fm fd y m d) by assumption.
  cbn [mbind outcome_bind].
  rewrite (getitem_lookup line 8 _ ltac:(lia) H8). cbn [mbind outcome_bind].
  rewrite Hstar. cbn [negb]. rewrite En. cbn [mbind outcome_bind].
  rewrite getitem_0, getitem_1. cbn [mbind outcome_bind].
  change (PySeq.getitem [y; m; d] 2) with (Val d). cbn [mbind outcome_bind].
  unfold datetime_new. rewrite (date_new_fits y m d day Hday), Hday.
  cbn [andb mbind outcome_bind].
  pose proof (Z.mod_pos_bound n 60 ltac:(lia)) as Hmod.
  pose proof (Z.div_pos n 60 Hn ltac:(lia)) as Hdiv.
  assert (Hmin : fits_int (n mod 60) = true).
  { unfold fits_int. apply andb_true_iff. split; apply Z.leb_le; lia. }
  rewrite Hmin, andb_true_r.
  destruct (Z.leb_spec (2147483648 * 60) n) as [Hbig|Hsmall].
  { assert (2147483648 <= n / 60) by (apply Z.div_le_lower_bound; lia).
    unfold fits_int.
    destruct (Z.leb_spec (n / 60) 2147483647); [lia|].
    now rewrite andb_false_r. }
  assert (n / 60 < 2147483648) by (apply Z.div_lt_upper_bound; lia).
  assert (Hhour : fits_int (n / 60) = true).
  { unfold fits_int. apply andb_true_iff. split; apply Z.leb_le; lia. }
  rewrite Hhour.
  destruct (Z.leb_spec 0 (n / 60)); [|lia].
  destruct (Z.leb_spec 0 (n mod 60)); [|lia].
  destruct (Z.ltb_spec (n mod 60) 60); [|lia].
  destruct (Z.leb_spec 1440 n) as [Hge|Hlt].
  - assert (24 <= n / 60) by (apply Z.div_le_lower_bound; lia).
    destruct (Z.ltb_spec (n / 60) 24); [lia|].
    reflexivity.
  - assert (n / 60 < 24) by (apply Z.div_lt_upper_bound; lia).
    destruct (Z.ltb_spec (n / 60) 24); [|lia].
    cbn [andb mbind outcome_bind].
    rewrite (getitem_lookup line 7 _ ltac:(lia) H7). cbn [mbind outcome_bind].
    subst parsed. cbv beta.
    destruct (split_msg (PyStr.join (py " ") (drop 10 line))) as [msg loc].
    destruct dur as [mins|].
    + assert (Hs7 : PyStr.eqb f7 (py "*") = false).
      { apply eqb_neq. intros ->. discriminate Hdur. }
      rewrite Hs7. cbn [negb]. rewrite Hdur. cbn [mbind outcome_bind].
      unfold timedelta_of_minutes.
      destruct ((-999999999 <=? mins / 1440) && (mins / 1440 <=? 999999999));
        [|reflexivity].
      cbn [mbind outcome_bind].
      rewrite (getitem_lookup line 2 _ ltac:(lia) H2). reflexivity.
    + subst f7. change (PyStr.eqb (py "*") (py "*")) with true.
      cbn [negb mbind outcome_bind].
      rewrite (getitem_lookup line 2 _ ltac:(lia) H2). reflexivity.
Qed.

End records.

Lemma untimed_record_parsed_witness :
  Remind._parse_remind_line Sample.self (py "host")
    (map py ["#"; "fileinfo"; "2"; "mylife.rem"; "2024/02/02"; "*"; "*"; "*";
             "*"; "Dentist"]%string)
    Sample.line2
  = Val (Remind.Event [D (Date 738918)] None (py "Dentist") None None
           (Remind._gen_uid (py "host") (py "2") Sample.line2)).
Proof.
  etransitivity;
    [apply (untimed_record_parsed Sample.self (py "host") Sample.line2
              (py "2") (py "2024") (py "02") (py "02") _ 2024 2 2
              (Date 738918))|].
  - reflexivity.
  - reflexivity.
  - reflexivity.
  - repeat constructor; discriminate.
  - repeat constructor; discriminate.
  - repeat constructor; discriminate.
  - vm_compute. reflexivity.
  - vm_compute. reflexivity.
  - vm_compute. reflexivity.
  - vm_compute. reflexivity.
  - vm_compute. reflexivity.
Defined.

Lemma timed_record_parsed_witness :
  Remind._parse_remind_line Sample.self (py "host")
    (map py ["#"; "1"; "1"; "mylife.rem"; "2024/1/1"; "*"; "*"; "90"; "600";
             "10:00am"; "Meeting"; "at"; "Office"]%string)
    Sample.line1
  = Val (Remind.Event [Sample.timed_start Sample.self]
           (Some (timedelta_minutes 90)) (py "Meeting")
           (Some (py "Office")) None
           (Remind._gen_uid (py "host") (py "1") Sample.line1)).
Proof.
  etransitivity;
    [apply (timed_record_parsed Sample.self (py "host") Sample.line1
              (py "1") (py "2024") (py "1") (py "1") (py "90") (py "600")
              _ 2024 1 1 600 (Date 738886) (Some 90))|].
  - reflexivity.
  - reflexivity.
  - reflexivity.
  - reflexivity.
  - repeat constructor; discriminate.
  - repeat constructor; discriminate.
  - repeat constructor; discriminate.
  - vm_compute. reflexivity.
  - vm_compute. reflexivity.
  - vm_compute. reflexivity.
  - vm_compute. reflexivity.
  - vm_compute. reflexivity.
  - lia.
  - vm_compute. reflexivity.
  - vm_compute. reflexivity.
Defined.

Section other_rules.

Import Remind.

(** X30. A rule that is neither yearly, weekly nor daily and falls on
    at most one weekday, a monthly rule for one: [to_remind] on an
    all-day event with such a rule writes no date after [REM] and, in
    one SATISFY clause, every date the rule yields. *)
Theorem other_rule_as_satisfy (self : t) (label : option str)
    (priority : option Z) (ve : vevent) (r : rrule) (rules : list rrule)
    (s e : date) (msg : list str) :
  rrule_list ve = r :: rules -> rdate_list ve = [] ->
  _freq r <> YEARLY -> _freq r <> WEEKLY -> _freq r <> DAILY ->
  match _byweekday r with
  | Some days => (length days <= 1)%nat
  | None => True
  end ->
  dtstart ve = Some (D s) -> dtend ve = Some (D e) ->
  toordinal e - toordinal s <= 1 ->
  _gen_msg ve label = Val msg ->
  to_remind_clauses self label priority ve
  = (Val ([py "REM"] ++ priority_clause priority
            ++ [_parse_rdate (map DT (rule_dates r))] ++ msg),
     ve).
Proof.
  intros Hr Hd Hy Hw Hdy Hb Hs He Hspan Hmsg.
  rewrite to_remind_clauses_after, Hr. unfold get_rruleset. rewrite Hr, Hd.
  cbn [attr of_option concat map mbind outcome_bind].
  unfold _parse_rruleset. cbn [_rrule]. rewrite getitem_0.
  cbn [mbind outcome_bind].
  destruct (Z.eqb_spec (_freq r) 0) as [E|_]; [contradiction|].
  destruct (Z.eqb_spec (_freq r) DAILY) as [E|_]; [contradiction|].
  destruct (Z.eqb_spec (_freq r) WEEKLY) as [E|_]; [contradiction|].
  assert (Hsev : match _byweekday r with
                 | Some l => (1 <? length l)%nat
                 | None => false
                 end = false).
  { destruct (_byweekday r) as [l|]; [|reflexivity].
    apply Nat.ltb_ge. exact Hb. }
  rewrite Hsev. cbn [negb andb].
  unfold to_remind_after. rewrite run_get, Hd, run_lift.
  unfold _event_duration. rewrite He, Hs, run_lift.
  cbn [attr of_option mbind outcome_bind sub].
  rewrite run_lift. cbn [is_datetime negb andb].
  rewrite days_timedelta_days.
  destruct (Z.ltb_spec 1 (toordinal e - toordinal s)); [lia|].
  rewrite run_ret, run_get, run_lift, Hs. cbn [attr of_option].
  rewrite run_lift, Hd, run_lift, Hmsg.
  unfold mret, prog_ret. rewrite <- ?app_assoc. reflexivity.
Qed.

End other_rules.

Lemma other_rule_as_satisfy_witness :
  let r :=
    RRule MONTHLY (Some 2) None None
      [DateTime (Date 738886) 0 None; DateTime (Date 738917) 0 None] in
  let ve :=
    VEvent (Some (D (Date 738886))) (Some (D (Date 738887))) None
      (Some (py "Rent")) None None None [] [r] [] in
  Remind.to_remind_clauses Sample.self None None ve
  = (Val [py "REM";
          py "SATISFY [trigdate()=='2024-01-01'||trigdate()=='2024-02-01']";
          py "MSG"; py "Rent"], ve).
Proof.
  intros r ve.
  etransitivity;
    [apply (other_rule_as_satisfy Sample.self None None ve r []
              (Date 738886) (Date 738887) [py "MSG"; py "Rent"]);
     try reflexivity; try exact I;
     try (intros H; vm_compute in H; discriminate H)|].
  vm_compute. reflexivity.
Defined.
